(** * HF Daily Paper Agent: the paper resolver and the Slack formatter

    A shallow embedding of [tools/slack_poster.py],
    [tools/top_paper_getter.py], [agent_utils.py], [agent_code.py] and
    [main.py], and the properties of the specification checked against
    it.

    Python text is a sequence of Unicode code points; it is modelled as a
    list of [N].  Lengths, slices and searches therefore count code points,
    as [len], [s[a:b]] and [str.rfind] do. *)

From Stdlib Require Import String Ascii.
From Stdlib Require Import List ZArith NArith Lia Bool.
From Stdlib Require Import Permutation Sorted.
Import ListNotations.

(** ** Python strings *)

Module PyStr.

Definition char := N.
Definition str := list char.

(** An ASCII literal of the source, as code points. *)
Definition lit (s : string) : str := map N_of_ascii (list_ascii_of_string s).

Definition NL : char := 10%N.
Definition SP : char := 32%N.
Definition COLON : char := 58%N.
Definition STAR : char := 42%N.
Definition BACKTICK : char := 96%N.

Definition str_eqb (a b : str) : bool :=
  if list_eq_dec N.eq_dec a b then true else false.

(** [str.isspace] on one code point, which is also the class [\s] of [re]
    for [str] patterns. *)
Definition isspace (c : char) : bool :=
  ((9 <=? c) && (c <=? 13) || (28 <=? c) && (c <=? 32)
   || (c =? 133) || (c =? 160) || (c =? 5760)
   || (8192 <=? c) && (c <=? 8202)
   || (c =? 8232) || (c =? 8233) || (c =? 8239) || (c =? 8287)
   || (c =? 12288))%N.

(** [lo <= c <= hi] for one of the ranges. *)
Definition in_ranges (ranges : list (N * N)) (c : char) : bool :=
  existsb (fun r => (fst r <=? c) && (c <=? snd r))%N ranges.

(** The decimal digits (category Nd) of Unicode 14.0, the version Python
    3.11 carries: they come in runs of ten, from zero to nine in order;
    the list holds the first code point of each run. *)
Definition digit_runs : list N :=
  [ 48; 1632; 1776; 1984; 2406; 2534; 2662; 2790; 2918; 3046; 3174; 3302; 3430;
    3558; 3664; 3792; 3872; 4160; 4240; 6112; 6160; 6470; 6608; 6784; 6800;
    6992; 7088; 7232; 7248; 42528; 43216; 43264; 43472; 43504; 43600; 44016;
    65296; 66720; 68912; 69734; 69872; 69942; 70096; 70384; 70736; 70864; 71248;
    71360; 71472; 71904; 72016; 72784; 73040; 73120; 92768; 92864; 93008;
    120782; 120792; 120802; 120812; 120822; 123200; 123632; 125264; 130032 ]%N.

(** The value of a decimal digit; [None] for any other character. *)
Definition digit_of (c : char) : option Z :=
  match find (fun lo => (lo <=? c) && (c <=? lo + 9))%N digit_runs with
  | Some lo => Some (Z.of_N (c - lo))
  | None => None
  end.

(** The class [\d] of [re] for [str] patterns, which is [str.isdecimal]. *)
Definition isdigit (c : char) : bool :=
  match digit_of c with Some _ => true | None => false end.

(** [int(ds)] for a text of decimal digits. *)
Definition int_of_digits (ds : str) : Z :=
  fold_left
    (fun acc c =>
       (acc * 10 + match digit_of c with Some v => v | None => 0 end)%Z)
    ds 0%Z.

(** The code points from U+0080 on that are alphanumeric ([str.isalnum]),
    as ranges, in Unicode 14.0. *)
Definition word_ranges : list (N * N) :=
  [ (170, 170); (178, 179); (181, 181); (185, 186); (188, 190); (192, 214);
    (216, 246); (248, 705); (710, 721); (736, 740); (748, 748); (750, 750);
    (880, 884); (886, 887); (890, 893); (895, 895); (902, 902); (904, 906);
    (908, 908); (910, 929); (931, 1013); (1015, 1153); (1162, 1327); (1329,
    1366); (1369, 1369); (1376, 1416); (1488, 1514); (1519, 1522); (1568, 1610);
    (1632, 1641); (1646, 1647); (1649, 1747); (1749, 1749); (1765, 1766); (1774,
    1788); (1791, 1791); (1808, 1808); (1810, 1839); (1869, 1957); (1969, 1969);
    (1984, 2026); (2036, 2037); (2042, 2042); (2048, 2069); (2074, 2074); (2084,
    2084); (2088, 2088); (2112, 2136); (2144, 2154); (2160, 2183); (2185, 2190);
    (2208, 2249); (2308, 2361); (2365, 2365); (2384, 2384); (2392, 2401); (2406,
    2415); (2417, 2432); (2437, 2444); (2447, 2448); (2451, 2472); (2474, 2480);
    (2482, 2482); (2486, 2489); (2493, 2493); (2510, 2510); (2524, 2525); (2527,
    2529); (2534, 2545); (2548, 2553); (2556, 2556); (2565, 2570); (2575, 2576);
    (2579, 2600); (2602, 2608); (2610, 2611); (2613, 2614); (2616, 2617); (2649,
    2652); (2654, 2654); (2662, 2671); (2674, 2676); (2693, 2701); (2703, 2705);
    (2707, 2728); (2730, 2736); (2738, 2739); (2741, 2745); (2749, 2749); (2768,
    2768); (2784, 2785); (2790, 2799); (2809, 2809); (2821, 2828); (2831, 2832);
    (2835, 2856); (2858, 2864); (2866, 2867); (2869, 2873); (2877, 2877); (2908,
    2909); (2911, 2913); (2918, 2927); (2929, 2935); (2947, 2947); (2949, 2954);
    (2958, 2960); (2962, 2965); (2969, 2970); (2972, 2972); (2974, 2975); (2979,
    2980); (2984, 2986); (2990, 3001); (3024, 3024); (3046, 3058); (3077, 3084);
    (3086, 3088); (3090, 3112); (3114, 3129); (3133, 3133); (3160, 3162); (3165,
    3165); (3168, 3169); (3174, 3183); (3192, 3198); (3200, 3200); (3205, 3212);
    (3214, 3216); (3218, 3240); (3242, 3251); (3253, 3257); (3261, 3261); (3293,
    3294); (3296, 3297); (3302, 3311); (3313, 3314); (3332, 3340); (3342, 3344);
    (3346, 3386); (3389, 3389); (3406, 3406); (3412, 3414); (3416, 3425); (3430,
    3448); (3450, 3455); (3461, 3478); (3482, 3505); (3507, 3515); (3517, 3517);
    (3520, 3526); (3558, 3567); (3585, 3632); (3634, 3635); (3648, 3654); (3664,
    3673); (3713, 3714); (3716, 3716); (3718, 3722); (3724, 3747); (3749, 3749);
    (3751, 3760); (3762, 3763); (3773, 3773); (3776, 3780); (3782, 3782); (3792,
    3801); (3804, 3807); (3840, 3840); (3872, 3891); (3904, 3911); (3913, 3948);
    (3976, 3980); (4096, 4138); (4159, 4169); (4176, 4181); (4186, 4189); (4193,
    4193); (4197, 4198); (4206, 4208); (4213, 4225); (4238, 4238); (4240, 4249);
    (4256, 4293); (4295, 4295); (4301, 4301); (4304, 4346); (4348, 4680); (4682,
    4685); (4688, 4694); (4696, 4696); (4698, 4701); (4704, 4744); (4746, 4749);
    (4752, 4784); (4786, 4789); (4792, 4798); (4800, 4800); (4802, 4805); (4808,
    4822); (4824, 4880); (4882, 4885); (4888, 4954); (4969, 4988); (4992, 5007);
    (5024, 5109); (5112, 5117); (5121, 5740); (5743, 5759); (5761, 5786); (5792,
    5866); (5870, 5880); (5888, 5905); (5919, 5937); (5952, 5969); (5984, 5996);
    (5998, 6000); (6016, 6067); (6103, 6103); (6108, 6108); (6112, 6121); (6128,
    6137); (6160, 6169); (6176, 6264); (6272, 6276); (6279, 6312); (6314, 6314);
    (6320, 6389); (6400, 6430); (6470, 6509); (6512, 6516); (6528, 6571); (6576,
    6601); (6608, 6618); (6656, 6678); (6688, 6740); (6784, 6793); (6800, 6809);
    (6823, 6823); (6917, 6963); (6981, 6988); (6992, 7001); (7043, 7072); (7086,
    7141); (7168, 7203); (7232, 7241); (7245, 7293); (7296, 7304); (7312, 7354);
    (7357, 7359); (7401, 7404); (7406, 7411); (7413, 7414); (7418, 7418); (7424,
    7615); (7680, 7957); (7960, 7965); (7968, 8005); (8008, 8013); (8016, 8023);
    (8025, 8025); (8027, 8027); (8029, 8029); (8031, 8061); (8064, 8116); (8118,
    8124); (8126, 8126); (8130, 8132); (8134, 8140); (8144, 8147); (8150, 8155);
    (8160, 8172); (8178, 8180); (8182, 8188); (8304, 8305); (8308, 8313); (8319,
    8329); (8336, 8348); (8450, 8450); (8455, 8455); (8458, 8467); (8469, 8469);
    (8473, 8477); (8484, 8484); (8486, 8486); (8488, 8488); (8490, 8493); (8495,
    8505); (8508, 8511); (8517, 8521); (8526, 8526); (8528, 8585); (9312, 9371);
    (9450, 9471); (10102, 10131); (11264, 11492); (11499, 11502); (11506,
    11507); (11517, 11517); (11520, 11557); (11559, 11559); (11565, 11565);
    (11568, 11623); (11631, 11631); (11648, 11670); (11680, 11686); (11688,
    11694); (11696, 11702); (11704, 11710); (11712, 11718); (11720, 11726);
    (11728, 11734); (11736, 11742); (11823, 11823); (12293, 12295); (12321,
    12329); (12337, 12341); (12344, 12348); (12353, 12438); (12445, 12447);
    (12449, 12538); (12540, 12543); (12549, 12591); (12593, 12686); (12690,
    12693); (12704, 12735); (12784, 12799); (12832, 12841); (12872, 12879);
    (12881, 12895); (12928, 12937); (12977, 12991); (13312, 19903); (19968,
    42124); (42192, 42237); (42240, 42508); (42512, 42539); (42560, 42606);
    (42623, 42653); (42656, 42735); (42775, 42783); (42786, 42888); (42891,
    42954); (42960, 42961); (42963, 42963); (42965, 42969); (42994, 43009);
    (43011, 43013); (43015, 43018); (43020, 43042); (43056, 43061); (43072,
    43123); (43138, 43187); (43216, 43225); (43250, 43255); (43259, 43259);
    (43261, 43262); (43264, 43301); (43312, 43334); (43360, 43388); (43396,
    43442); (43471, 43481); (43488, 43492); (43494, 43518); (43520, 43560);
    (43584, 43586); (43588, 43595); (43600, 43609); (43616, 43638); (43642,
    43642); (43646, 43695); (43697, 43697); (43701, 43702); (43705, 43709);
    (43712, 43712); (43714, 43714); (43739, 43741); (43744, 43754); (43762,
    43764); (43777, 43782); (43785, 43790); (43793, 43798); (43808, 43814);
    (43816, 43822); (43824, 43866); (43868, 43881); (43888, 44002); (44016,
    44025); (44032, 55203); (55216, 55238); (55243, 55291); (63744, 64109);
    (64112, 64217); (64256, 64262); (64275, 64279); (64285, 64285); (64287,
    64296); (64298, 64310); (64312, 64316); (64318, 64318); (64320, 64321);
    (64323, 64324); (64326, 64433); (64467, 64829); (64848, 64911); (64914,
    64967); (65008, 65019); (65136, 65140); (65142, 65276); (65296, 65305);
    (65313, 65338); (65345, 65370); (65382, 65470); (65474, 65479); (65482,
    65487); (65490, 65495); (65498, 65500); (65536, 65547); (65549, 65574);
    (65576, 65594); (65596, 65597); (65599, 65613); (65616, 65629); (65664,
    65786); (65799, 65843); (65856, 65912); (65930, 65931); (66176, 66204);
    (66208, 66256); (66273, 66299); (66304, 66339); (66349, 66378); (66384,
    66421); (66432, 66461); (66464, 66499); (66504, 66511); (66513, 66517);
    (66560, 66717); (66720, 66729); (66736, 66771); (66776, 66811); (66816,
    66855); (66864, 66915); (66928, 66938); (66940, 66954); (66956, 66962);
    (66964, 66965); (66967, 66977); (66979, 66993); (66995, 67001); (67003,
    67004); (67072, 67382); (67392, 67413); (67424, 67431); (67456, 67461);
    (67463, 67504); (67506, 67514); (67584, 67589); (67592, 67592); (67594,
    67637); (67639, 67640); (67644, 67644); (67647, 67669); (67672, 67702);
    (67705, 67742); (67751, 67759); (67808, 67826); (67828, 67829); (67835,
    67867); (67872, 67897); (67968, 68023); (68028, 68047); (68050, 68096);
    (68112, 68115); (68117, 68119); (68121, 68149); (68160, 68168); (68192,
    68222); (68224, 68255); (68288, 68295); (68297, 68324); (68331, 68335);
    (68352, 68405); (68416, 68437); (68440, 68466); (68472, 68497); (68521,
    68527); (68608, 68680); (68736, 68786); (68800, 68850); (68858, 68899);
    (68912, 68921); (69216, 69246); (69248, 69289); (69296, 69297); (69376,
    69415); (69424, 69445); (69457, 69460); (69488, 69505); (69552, 69579);
    (69600, 69622); (69635, 69687); (69714, 69743); (69745, 69746); (69749,
    69749); (69763, 69807); (69840, 69864); (69872, 69881); (69891, 69926);
    (69942, 69951); (69956, 69956); (69959, 69959); (69968, 70002); (70006,
    70006); (70019, 70066); (70081, 70084); (70096, 70106); (70108, 70108);
    (70113, 70132); (70144, 70161); (70163, 70187); (70272, 70278); (70280,
    70280); (70282, 70285); (70287, 70301); (70303, 70312); (70320, 70366);
    (70384, 70393); (70405, 70412); (70415, 70416); (70419, 70440); (70442,
    70448); (70450, 70451); (70453, 70457); (70461, 70461); (70480, 70480);
    (70493, 70497); (70656, 70708); (70727, 70730); (70736, 70745); (70751,
    70753); (70784, 70831); (70852, 70853); (70855, 70855); (70864, 70873);
    (71040, 71086); (71128, 71131); (71168, 71215); (71236, 71236); (71248,
    71257); (71296, 71338); (71352, 71352); (71360, 71369); (71424, 71450);
    (71472, 71483); (71488, 71494); (71680, 71723); (71840, 71922); (71935,
    71942); (71945, 71945); (71948, 71955); (71957, 71958); (71960, 71983);
    (71999, 71999); (72001, 72001); (72016, 72025); (72096, 72103); (72106,
    72144); (72161, 72161); (72163, 72163); (72192, 72192); (72203, 72242);
    (72250, 72250); (72272, 72272); (72284, 72329); (72349, 72349); (72368,
    72440); (72704, 72712); (72714, 72750); (72768, 72768); (72784, 72812);
    (72818, 72847); (72960, 72966); (72968, 72969); (72971, 73008); (73030,
    73030); (73040, 73049); (73056, 73061); (73063, 73064); (73066, 73097);
    (73112, 73112); (73120, 73129); (73440, 73458); (73648, 73648); (73664,
    73684); (73728, 74649); (74752, 74862); (74880, 75075); (77712, 77808);
    (77824, 78894); (82944, 83526); (92160, 92728); (92736, 92766); (92768,
    92777); (92784, 92862); (92864, 92873); (92880, 92909); (92928, 92975);
    (92992, 92995); (93008, 93017); (93019, 93025); (93027, 93047); (93053,
    93071); (93760, 93846); (93952, 94026); (94032, 94032); (94099, 94111);
    (94176, 94177); (94179, 94179); (94208, 100343); (100352, 101589); (101632,
    101640); (110576, 110579); (110581, 110587); (110589, 110590); (110592,
    110882); (110928, 110930); (110948, 110951); (110960, 111355); (113664,
    113770); (113776, 113788); (113792, 113800); (113808, 113817); (119520,
    119539); (119648, 119672); (119808, 119892); (119894, 119964); (119966,
    119967); (119970, 119970); (119973, 119974); (119977, 119980); (119982,
    119993); (119995, 119995); (119997, 120003); (120005, 120069); (120071,
    120074); (120077, 120084); (120086, 120092); (120094, 120121); (120123,
    120126); (120128, 120132); (120134, 120134); (120138, 120144); (120146,
    120485); (120488, 120512); (120514, 120538); (120540, 120570); (120572,
    120596); (120598, 120628); (120630, 120654); (120656, 120686); (120688,
    120712); (120714, 120744); (120746, 120770); (120772, 120779); (120782,
    120831); (122624, 122654); (123136, 123180); (123191, 123197); (123200,
    123209); (123214, 123214); (123536, 123565); (123584, 123627); (123632,
    123641); (124896, 124902); (124904, 124907); (124909, 124910); (124912,
    124926); (124928, 125124); (125127, 125135); (125184, 125251); (125259,
    125259); (125264, 125273); (126065, 126123); (126125, 126127); (126129,
    126132); (126209, 126253); (126255, 126269); (126464, 126467); (126469,
    126495); (126497, 126498); (126500, 126500); (126503, 126503); (126505,
    126514); (126516, 126519); (126521, 126521); (126523, 126523); (126530,
    126530); (126535, 126535); (126537, 126537); (126539, 126539); (126541,
    126543); (126545, 126546); (126548, 126548); (126551, 126551); (126553,
    126553); (126555, 126555); (126557, 126557); (126559, 126559); (126561,
    126562); (126564, 126564); (126567, 126570); (126572, 126578); (126580,
    126583); (126585, 126588); (126590, 126590); (126592, 126601); (126603,
    126619); (126625, 126627); (126629, 126633); (126635, 126651); (127232,
    127244); (130032, 130041); (131072, 173791); (173824, 177976); (177984,
    178205); (178208, 183969); (183984, 191456); (194560, 195101); (196608,
    201546) ]%N.

(** The class [\w] of [re] for [str] patterns: alphanumeric or
    underscore. *)
Definition isword (c : char) : bool :=
  ((48 <=? c) && (c <=? 57) || (65 <=? c) && (c <=? 90)
   || (97 <=? c) && (c <=? 122) || (c =? 95))%N
  || in_ranges word_ranges c.

(** The code points from U+0080 on that are printable
    ([str.isprintable]), as ranges, in Unicode 14.0. *)
Definition printable_ranges : list (N * N) :=
  [ (161, 172); (174, 887); (890, 895); (900, 906); (908, 908); (910, 929);
    (931, 1327); (1329, 1366); (1369, 1418); (1421, 1423); (1425, 1479); (1488,
    1514); (1519, 1524); (1542, 1563); (1565, 1756); (1758, 1805); (1808, 1866);
    (1869, 1969); (1984, 2042); (2045, 2093); (2096, 2110); (2112, 2139); (2142,
    2142); (2144, 2154); (2160, 2190); (2200, 2273); (2275, 2435); (2437, 2444);
    (2447, 2448); (2451, 2472); (2474, 2480); (2482, 2482); (2486, 2489); (2492,
    2500); (2503, 2504); (2507, 2510); (2519, 2519); (2524, 2525); (2527, 2531);
    (2534, 2558); (2561, 2563); (2565, 2570); (2575, 2576); (2579, 2600); (2602,
    2608); (2610, 2611); (2613, 2614); (2616, 2617); (2620, 2620); (2622, 2626);
    (2631, 2632); (2635, 2637); (2641, 2641); (2649, 2652); (2654, 2654); (2662,
    2678); (2689, 2691); (2693, 2701); (2703, 2705); (2707, 2728); (2730, 2736);
    (2738, 2739); (2741, 2745); (2748, 2757); (2759, 2761); (2763, 2765); (2768,
    2768); (2784, 2787); (2790, 2801); (2809, 2815); (2817, 2819); (2821, 2828);
    (2831, 2832); (2835, 2856); (2858, 2864); (2866, 2867); (2869, 2873); (2876,
    2884); (2887, 2888); (2891, 2893); (2901, 2903); (2908, 2909); (2911, 2915);
    (2918, 2935); (2946, 2947); (2949, 2954); (2958, 2960); (2962, 2965); (2969,
    2970); (2972, 2972); (2974, 2975); (2979, 2980); (2984, 2986); (2990, 3001);
    (3006, 3010); (3014, 3016); (3018, 3021); (3024, 3024); (3031, 3031); (3046,
    3066); (3072, 3084); (3086, 3088); (3090, 3112); (3114, 3129); (3132, 3140);
    (3142, 3144); (3146, 3149); (3157, 3158); (3160, 3162); (3165, 3165); (3168,
    3171); (3174, 3183); (3191, 3212); (3214, 3216); (3218, 3240); (3242, 3251);
    (3253, 3257); (3260, 3268); (3270, 3272); (3274, 3277); (3285, 3286); (3293,
    3294); (3296, 3299); (3302, 3311); (3313, 3314); (3328, 3340); (3342, 3344);
    (3346, 3396); (3398, 3400); (3402, 3407); (3412, 3427); (3430, 3455); (3457,
    3459); (3461, 3478); (3482, 3505); (3507, 3515); (3517, 3517); (3520, 3526);
    (3530, 3530); (3535, 3540); (3542, 3542); (3544, 3551); (3558, 3567); (3570,
    3572); (3585, 3642); (3647, 3675); (3713, 3714); (3716, 3716); (3718, 3722);
    (3724, 3747); (3749, 3749); (3751, 3773); (3776, 3780); (3782, 3782); (3784,
    3789); (3792, 3801); (3804, 3807); (3840, 3911); (3913, 3948); (3953, 3991);
    (3993, 4028); (4030, 4044); (4046, 4058); (4096, 4293); (4295, 4295); (4301,
    4301); (4304, 4680); (4682, 4685); (4688, 4694); (4696, 4696); (4698, 4701);
    (4704, 4744); (4746, 4749); (4752, 4784); (4786, 4789); (4792, 4798); (4800,
    4800); (4802, 4805); (4808, 4822); (4824, 4880); (4882, 4885); (4888, 4954);
    (4957, 4988); (4992, 5017); (5024, 5109); (5112, 5117); (5120, 5759); (5761,
    5788); (5792, 5880); (5888, 5909); (5919, 5942); (5952, 5971); (5984, 5996);
    (5998, 6000); (6002, 6003); (6016, 6109); (6112, 6121); (6128, 6137); (6144,
    6157); (6159, 6169); (6176, 6264); (6272, 6314); (6320, 6389); (6400, 6430);
    (6432, 6443); (6448, 6459); (6464, 6464); (6468, 6509); (6512, 6516); (6528,
    6571); (6576, 6601); (6608, 6618); (6622, 6683); (6686, 6750); (6752, 6780);
    (6783, 6793); (6800, 6809); (6816, 6829); (6832, 6862); (6912, 6988); (6992,
    7038); (7040, 7155); (7164, 7223); (7227, 7241); (7245, 7304); (7312, 7354);
    (7357, 7367); (7376, 7418); (7424, 7957); (7960, 7965); (7968, 8005); (8008,
    8013); (8016, 8023); (8025, 8025); (8027, 8027); (8029, 8029); (8031, 8061);
    (8064, 8116); (8118, 8132); (8134, 8147); (8150, 8155); (8157, 8175); (8178,
    8180); (8182, 8190); (8208, 8231); (8240, 8286); (8304, 8305); (8308, 8334);
    (8336, 8348); (8352, 8384); (8400, 8432); (8448, 8587); (8592, 9254); (9280,
    9290); (9312, 11123); (11126, 11157); (11159, 11507); (11513, 11557);
    (11559, 11559); (11565, 11565); (11568, 11623); (11631, 11632); (11647,
    11670); (11680, 11686); (11688, 11694); (11696, 11702); (11704, 11710);
    (11712, 11718); (11720, 11726); (11728, 11734); (11736, 11742); (11744,
    11869); (11904, 11929); (11931, 12019); (12032, 12245); (12272, 12283);
    (12289, 12351); (12353, 12438); (12441, 12543); (12549, 12591); (12593,
    12686); (12688, 12771); (12784, 12830); (12832, 42124); (42128, 42182);
    (42192, 42539); (42560, 42743); (42752, 42954); (42960, 42961); (42963,
    42963); (42965, 42969); (42994, 43052); (43056, 43065); (43072, 43127);
    (43136, 43205); (43214, 43225); (43232, 43347); (43359, 43388); (43392,
    43469); (43471, 43481); (43486, 43518); (43520, 43574); (43584, 43597);
    (43600, 43609); (43612, 43714); (43739, 43766); (43777, 43782); (43785,
    43790); (43793, 43798); (43808, 43814); (43816, 43822); (43824, 43883);
    (43888, 44013); (44016, 44025); (44032, 55203); (55216, 55238); (55243,
    55291); (63744, 64109); (64112, 64217); (64256, 64262); (64275, 64279);
    (64285, 64310); (64312, 64316); (64318, 64318); (64320, 64321); (64323,
    64324); (64326, 64450); (64467, 64911); (64914, 64967); (64975, 64975);
    (65008, 65049); (65056, 65106); (65108, 65126); (65128, 65131); (65136,
    65140); (65142, 65276); (65281, 65470); (65474, 65479); (65482, 65487);
    (65490, 65495); (65498, 65500); (65504, 65510); (65512, 65518); (65532,
    65533); (65536, 65547); (65549, 65574); (65576, 65594); (65596, 65597);
    (65599, 65613); (65616, 65629); (65664, 65786); (65792, 65794); (65799,
    65843); (65847, 65934); (65936, 65948); (65952, 65952); (66000, 66045);
    (66176, 66204); (66208, 66256); (66272, 66299); (66304, 66339); (66349,
    66378); (66384, 66426); (66432, 66461); (66463, 66499); (66504, 66517);
    (66560, 66717); (66720, 66729); (66736, 66771); (66776, 66811); (66816,
    66855); (66864, 66915); (66927, 66938); (66940, 66954); (66956, 66962);
    (66964, 66965); (66967, 66977); (66979, 66993); (66995, 67001); (67003,
    67004); (67072, 67382); (67392, 67413); (67424, 67431); (67456, 67461);
    (67463, 67504); (67506, 67514); (67584, 67589); (67592, 67592); (67594,
    67637); (67639, 67640); (67644, 67644); (67647, 67669); (67671, 67742);
    (67751, 67759); (67808, 67826); (67828, 67829); (67835, 67867); (67871,
    67897); (67903, 67903); (67968, 68023); (68028, 68047); (68050, 68099);
    (68101, 68102); (68108, 68115); (68117, 68119); (68121, 68149); (68152,
    68154); (68159, 68168); (68176, 68184); (68192, 68255); (68288, 68326);
    (68331, 68342); (68352, 68405); (68409, 68437); (68440, 68466); (68472,
    68497); (68505, 68508); (68521, 68527); (68608, 68680); (68736, 68786);
    (68800, 68850); (68858, 68903); (68912, 68921); (69216, 69246); (69248,
    69289); (69291, 69293); (69296, 69297); (69376, 69415); (69424, 69465);
    (69488, 69513); (69552, 69579); (69600, 69622); (69632, 69709); (69714,
    69749); (69759, 69820); (69822, 69826); (69840, 69864); (69872, 69881);
    (69888, 69940); (69942, 69959); (69968, 70006); (70016, 70111); (70113,
    70132); (70144, 70161); (70163, 70206); (70272, 70278); (70280, 70280);
    (70282, 70285); (70287, 70301); (70303, 70313); (70320, 70378); (70384,
    70393); (70400, 70403); (70405, 70412); (70415, 70416); (70419, 70440);
    (70442, 70448); (70450, 70451); (70453, 70457); (70459, 70468); (70471,
    70472); (70475, 70477); (70480, 70480); (70487, 70487); (70493, 70499);
    (70502, 70508); (70512, 70516); (70656, 70747); (70749, 70753); (70784,
    70855); (70864, 70873); (71040, 71093); (71096, 71133); (71168, 71236);
    (71248, 71257); (71264, 71276); (71296, 71353); (71360, 71369); (71424,
    71450); (71453, 71467); (71472, 71494); (71680, 71739); (71840, 71922);
    (71935, 71942); (71945, 71945); (71948, 71955); (71957, 71958); (71960,
    71989); (71991, 71992); (71995, 72006); (72016, 72025); (72096, 72103);
    (72106, 72151); (72154, 72164); (72192, 72263); (72272, 72354); (72368,
    72440); (72704, 72712); (72714, 72758); (72760, 72773); (72784, 72812);
    (72816, 72847); (72850, 72871); (72873, 72886); (72960, 72966); (72968,
    72969); (72971, 73014); (73018, 73018); (73020, 73021); (73023, 73031);
    (73040, 73049); (73056, 73061); (73063, 73064); (73066, 73102); (73104,
    73105); (73107, 73112); (73120, 73129); (73440, 73464); (73648, 73648);
    (73664, 73713); (73727, 74649); (74752, 74862); (74864, 74868); (74880,
    75075); (77712, 77810); (77824, 78894); (82944, 83526); (92160, 92728);
    (92736, 92766); (92768, 92777); (92782, 92862); (92864, 92873); (92880,
    92909); (92912, 92917); (92928, 92997); (93008, 93017); (93019, 93025);
    (93027, 93047); (93053, 93071); (93760, 93850); (93952, 94026); (94031,
    94087); (94095, 94111); (94176, 94180); (94192, 94193); (94208, 100343);
    (100352, 101589); (101632, 101640); (110576, 110579); (110581, 110587);
    (110589, 110590); (110592, 110882); (110928, 110930); (110948, 110951);
    (110960, 111355); (113664, 113770); (113776, 113788); (113792, 113800);
    (113808, 113817); (113820, 113823); (118528, 118573); (118576, 118598);
    (118608, 118723); (118784, 119029); (119040, 119078); (119081, 119154);
    (119163, 119274); (119296, 119365); (119520, 119539); (119552, 119638);
    (119648, 119672); (119808, 119892); (119894, 119964); (119966, 119967);
    (119970, 119970); (119973, 119974); (119977, 119980); (119982, 119993);
    (119995, 119995); (119997, 120003); (120005, 120069); (120071, 120074);
    (120077, 120084); (120086, 120092); (120094, 120121); (120123, 120126);
    (120128, 120132); (120134, 120134); (120138, 120144); (120146, 120485);
    (120488, 120779); (120782, 121483); (121499, 121503); (121505, 121519);
    (122624, 122654); (122880, 122886); (122888, 122904); (122907, 122913);
    (122915, 122916); (122918, 122922); (123136, 123180); (123184, 123197);
    (123200, 123209); (123214, 123215); (123536, 123566); (123584, 123641);
    (123647, 123647); (124896, 124902); (124904, 124907); (124909, 124910);
    (124912, 124926); (124928, 125124); (125127, 125142); (125184, 125259);
    (125264, 125273); (125278, 125279); (126065, 126132); (126209, 126269);
    (126464, 126467); (126469, 126495); (126497, 126498); (126500, 126500);
    (126503, 126503); (126505, 126514); (126516, 126519); (126521, 126521);
    (126523, 126523); (126530, 126530); (126535, 126535); (126537, 126537);
    (126539, 126539); (126541, 126543); (126545, 126546); (126548, 126548);
    (126551, 126551); (126553, 126553); (126555, 126555); (126557, 126557);
    (126559, 126559); (126561, 126562); (126564, 126564); (126567, 126570);
    (126572, 126578); (126580, 126583); (126585, 126588); (126590, 126590);
    (126592, 126601); (126603, 126619); (126625, 126627); (126629, 126633);
    (126635, 126651); (126704, 126705); (126976, 127019); (127024, 127123);
    (127136, 127150); (127153, 127167); (127169, 127183); (127185, 127221);
    (127232, 127405); (127462, 127490); (127504, 127547); (127552, 127560);
    (127568, 127569); (127584, 127589); (127744, 128727); (128733, 128748);
    (128752, 128764); (128768, 128883); (128896, 128984); (128992, 129003);
    (129008, 129008); (129024, 129035); (129040, 129095); (129104, 129113);
    (129120, 129159); (129168, 129197); (129200, 129201); (129280, 129619);
    (129632, 129645); (129648, 129652); (129656, 129660); (129664, 129670);
    (129680, 129708); (129712, 129722); (129728, 129733); (129744, 129753);
    (129760, 129767); (129776, 129782); (129792, 129938); (129940, 129994);
    (130032, 130041); (131072, 173791); (173824, 177976); (177984, 178205);
    (178208, 183969); (183984, 191456); (194560, 195101); (196608, 201546);
    (917760, 917999) ]%N.

(** [s.lstrip()], [s.rstrip()], [s.strip()] *)
Fixpoint lstrip (s : str) : str :=
  match s with
  | c :: s' => if isspace c then lstrip s' else s
  | [] => []
  end.

Definition rstrip (s : str) : str := rev (lstrip (rev s)).

Definition strip (s : str) : str := rstrip (lstrip s).

(** [s.startswith(p)] *)
Fixpoint startswith (p s : str) : bool :=
  match p, s with
  | [], _ => true
  | a :: p', b :: s' => (a =? b)%N && startswith p' s'
  | _ :: _, [] => false
  end.

(** [p in s] for strings *)
Fixpoint contains (p s : str) : bool :=
  startswith p s
  || match s with
     | _ :: s' => contains p s'
     | [] => false
     end.

(** [s.endswith(p)] *)
Definition endswith (p s : str) : bool := startswith (rev p) (rev s).

(** [s.split('\n')]: never empty. *)
Fixpoint split_nl (s : str) : list str :=
  match s with
  | [] => [[]]
  | c :: s' =>
      if (c =? NL)%N then [] :: split_nl s'
      else match split_nl s' with
           | l :: ls => (c :: l) :: ls
           | [] => [[c]]
           end
  end.

(** ['\n'.join(ls)] *)
Fixpoint join_nl (ls : list str) : str :=
  match ls with
  | [] => []
  | [l] => l
  | l :: ls' => l ++ NL :: join_nl ls'
  end.

(** [s[:k]] for any integer [k]: a negative bound counts from the end. *)
Definition slice_to (s : str) (k : Z) : str :=
  let n := Z.of_nat (length s) in
  let k' := if (k <? 0)%Z then Z.max 0 (k + n) else k in
  firstn (Z.to_nat k') s.

(** [s[a:b]] for bounds that are not negative. *)
Definition slice (s : str) (a b : nat) : str := firstn (b - a) (skipn a s).

(** [s.rfind(sub, a, b)]: the highest [i] with [a <= i], [i + len(sub) <= b]
    and [s[i:i+len(sub)] == sub]; [None] stands for the result [-1]. *)
Fixpoint rfind_down (sub s : str) (a n : nat) : option nat :=
  match n with
  | O => None
  | S n' =>
      if startswith sub (skipn (a + n') s) then Some (a + n')
      else rfind_down sub s a n'
  end.

Definition rfind (sub s : str) (a b : nat) : option nat :=
  let b' := Nat.min b (length s) in
  if a + length sub <=? b' then rfind_down sub s a (b' - length sub - a + 1)
  else None.

(** [str(n)] for an [int]. *)
Definition digit_char (d : Z) : char := Z.to_N (48 + d).

Fixpoint digits_fuel (fuel : nat) (n : Z) (acc : str) : str :=
  match fuel with
  | O => acc
  | S f =>
      let acc' := digit_char (n mod 10) :: acc in
      if (n <? 10)%Z then acc' else digits_fuel f (n / 10) acc'
  end.

Definition str_of_nonneg (n : Z) : str :=
  digits_fuel (S (Z.to_nat (Z.log2 n))) n [].

Definition str_of_int (n : Z) : str :=
  if (n <? 0)%Z then lit "-" ++ str_of_nonneg (- n) else str_of_nonneg n.

(** [repr(s)] for a text: between single quotes, or between double quotes
    when the text holds a single quote and no double quote; the quote in
    use and the backslash are escaped, and so is every character that is
    not printable. *)
Definition hex_digit (d : N) : char :=
  (if d <? 10 then 48 + d else 87 + d)%N.

Fixpoint hex_fixed (width : nat) (n : N) : str :=
  match width with
  | O => []
  | S w => hex_fixed w (n / 16) ++ [hex_digit (n mod 16)]
  end.

Definition BACKSLASH : char := 92%N.

Definition repr_char (quote c : char) : str :=
  (if (c =? quote) || (c =? BACKSLASH) then [BACKSLASH; c]
   else if c =? 9 then [BACKSLASH; 116]
   else if c =? 10 then [BACKSLASH; 110]
   else if c =? 13 then [BACKSLASH; 114]
   else if (c <? 32) || (c =? 127) then [BACKSLASH; 120] ++ hex_fixed 2 c
   else if c <? 127 then [c]
   else if in_ranges printable_ranges c then [c]
   else if c <=? 255 then [BACKSLASH; 120] ++ hex_fixed 2 c
   else if c <=? 65535 then [BACKSLASH; 117] ++ hex_fixed 4 c
   else [BACKSLASH; 85] ++ hex_fixed 8 c)%N.

Definition repr (s : str) : str :=
  let quote :=
    if existsb (N.eqb 39) s && negb (existsb (N.eqb 34) s)
    then 34%N else 39%N in
  quote :: flat_map (repr_char quote) s ++ [quote].

End PyStr.

Import PyStr.

(** ** Exceptions *)

Module Py.

(** The exceptions the two modules can meet.  [Exception] is whatever an
    external call raised, with its text. *)
Inductive exn : Type :=
| ValueError (msg : str)
| KeyError (key : str)
| OverflowError (msg : str)
| IndexError (msg : str)
| Exception (msg : str).

(** [str(e)]: the text the exception was raised with; for a [KeyError]
    the [repr] of its key. *)
Definition str_of_exn (e : exn) : str :=
  match e with
  | ValueError m | OverflowError m | IndexError m | Exception m => m
  | KeyError k => repr k
  end.

Inductive result (A : Type) : Type :=
| Ok (a : A)
| Raise (e : exn).

Arguments Ok {A} a.
Arguments Raise {A} e.

Definition bind {A B : Type} (r : result A) (k : A -> result B) : result B :=
  match r with
  | Ok a => k a
  | Raise e => Raise e
  end.

(** [try: body  except Exception as e: handler(e)] *)
Definition try_except {A : Type} (body : result A) (handler : exn -> result A)
  : result A :=
  match body with
  | Ok a => Ok a
  | Raise e => handler e
  end.

End Py.

Import Py.

Notation "x <- c1 ;; c2" := (bind c1 (fun x => c2))
  (at level 61, c1 at next level, right associativity).

(** ** The regular expressions of the source

    Each pattern of the source is written as the function that decides a
    match at the start of a text; [sub] scans the text from left to right
    and replaces the matches it meets, none overlapping, as [re.sub] does.
    No pattern of the source matches the empty text. *)

Module Re.

Section Sub.

(** [m s]: the pattern matches a prefix of [s]; the result is the
    replacement and the length of the match, at least 1. *)
Variable m : str -> option (str * nat).

(** [skip] characters of an earlier match are still to be passed over. *)
Fixpoint sub_from (skip : nat) (s : str) : str :=
  match s with
  | [] => []
  | c :: s' =>
      match skip with
      | S k => sub_from k s'
      | O =>
          match m s with
          | Some (rep, n) => rep ++ sub_from (pred n) s'
          | None => c :: sub_from 0 s'
          end
      end
  end.

Definition sub (s : str) : str := sub_from 0 s.

End Sub.

Fixpoint takewhile (p : char -> bool) (s : str) : str :=
  match s with
  | c :: s' => if p c then c :: takewhile p s' else []
  | [] => []
  end.

(** [([^\n])\n([^\n])] replaced by [\1\n\n\2] *)
Definition m_single_break (s : str) : option (str * nat) :=
  match s with
  | a :: b :: c :: _ =>
      if (negb (a =? NL) && (b =? NL) && negb (c =? NL))%N
      then Some ([a; NL; NL; c], 3)
      else None
  | _ => None
  end.

(** The group [(.*?)] followed by the literal [close]: the shortest run of
    characters other than a newline after which [close] stands; the result
    is the group and the text after [close]. *)
Fixpoint lazy_until (close : str) (s : str) : option (str * str) :=
  if startswith close s then Some ([], skipn (length close) s)
  else
    match s with
    | [] => None
    | c :: s' =>
        if (c =? NL)%N then None
        else
          match lazy_until close s' with
          | Some (g, r) => Some (c :: g, r)
          | None => None
          end
    end.

(** [opn(.*?)cls] replaced by [ropn\1rcls] *)
Definition m_delimited (opn cls ropn rcls : str) (s : str)
  : option (str * nat) :=
  if startswith opn s then
    match lazy_until cls (skipn (length opn) s) with
    | Some (g, _) =>
        Some (ropn ++ g ++ rcls, length opn + length g + length cls)
    | None => None
    end
  else None.

(** [\*\*(.*?):\*\*] replaced by [*\1:*] *)
Definition m_bold_colon : str -> option (str * nat) :=
  m_delimited (lit "**") (lit ":**") (lit "*") (lit ":*").

(** [\*\*(.*?)\*\*] replaced by [*\1*] *)
Definition m_bold : str -> option (str * nat) :=
  m_delimited (lit "**") (lit "**") (lit "*") (lit "*").

(** [__(.*?)__] replaced by [_\1_] *)
Definition m_italic : str -> option (str * nat) :=
  m_delimited (lit "__") (lit "__") (lit "_") (lit "_").

(** [\*\*([\w\s]+):\*\*] replaced by [*\1:*].  The colon is outside the
    class, so the greedy group is the whole run of the class. *)
Definition m_bold_key (s : str) : option (str * nat) :=
  if startswith (lit "**") s then
    let body := skipn 2 s in
    let g := takewhile (fun c => isword c || isspace c) body in
    if (1 <=? length g) && startswith (lit ":**") (skipn (length g) body)
    then Some (lit "*" ++ g ++ lit ":*", 2 + length g + 3)
    else None
  else None.

(** [\n{3,}] replaced by [\n\n] *)
Definition m_blank_run (s : str) : option (str * nat) :=
  let run := takewhile (fun c => (c =? NL)%N) s in
  if 3 <=? length run then Some ([NL; NL], length run) else None.

Definition is_marker (c : char) : bool :=
  ((c =? 42) || (c =? 45) || (c =? 43))%N.

(** [re.match(r'^\s*[\*\-\+] ', line)] *)
Definition bullet_match (line : str) : bool :=
  match lstrip line with
  | mk :: sp :: _ => is_marker mk && (sp =? SP)%N
  | _ => false
  end.

(** [re.match(r'^\s*([\*\-\+])\s', line)] *)
Definition marker_match (line : str) : bool :=
  match lstrip line with
  | mk :: w :: _ => is_marker mk && isspace w
  | _ => false
  end.

(** [re.sub(r'^\s*[\*\-\+]\s', '', line)] *)
Definition strip_marker (line : str) : str :=
  match lstrip line with
  | mk :: w :: rest => if is_marker mk && isspace w then rest else line
  | _ => line
  end.

(** The text after [^\s*\d+\.\s], when the line starts so. *)
Definition after_number (line : str) : option str :=
  let r := lstrip line in
  let ds := takewhile isdigit r in
  match skipn (length ds) r with
  | dot :: w :: rest =>
      if (1 <=? length ds) && (dot =? 46)%N && isspace w then Some rest
      else None
  | _ => None
  end.

(** [re.match(r'^\s*\d+\.\s', line)] *)
Definition numbered_match (line : str) : bool :=
  match after_number line with Some _ => true | None => false end.

(** [re.sub(r'^\s*\d+\.\s', '', line)] *)
Definition strip_number (line : str) : str :=
  match after_number line with Some rest => rest | None => line end.

(** Group 1 of [re.match(r'^\s*(\d+)\.', line)] *)
Definition number_group (line : str) : option str :=
  let r := lstrip line in
  let ds := takewhile isdigit r in
  match skipn (length ds) r with
  | dot :: _ => if (1 <=? length ds) && (dot =? 46)%N then Some ds else None
  | [] => None
  end.

End Re.

(** ** [tools/slack_poster.py] *)

Module SlackPoster.

(** [_truncate_text(text, max_length)] *)
Definition _truncate_text (text : str) (max_length : Z) : str :=
  if (Z.of_nat (length text) <=? max_length)%Z then text
  else slice_to text (max_length - 3) ++ lit "...".

(** [_process_inline_formatting(text)] *)
Definition _process_inline_formatting (text : str) : str :=
  let text := Re.sub Re.m_bold_key text in
  let text := Re.sub Re.m_bold text in
  let text := Re.sub Re.m_italic text in
  text.

(** The bullet literal, spelled as the source file stores it: the three
    code points U+00E2 U+20AC U+00A2 (the unit test spells U+2022). *)
Definition bullet : str := [226; 8364; 162]%N.

(** The local variables of [_format_markdown_for_slack] that live across
    iterations of its loop. *)
Record state : Type := mkState {
  formatted_lines : list str;
  in_list : bool;
  list_indent : nat;
  prev_was_empty : bool
}.

Definition append (l : str) (st : state) : state :=
  mkState (formatted_lines st ++ [l]) (in_list st) (list_indent st)
    (prev_was_empty st).

Definition set_prev_was_empty (b : bool) (st : state) : state :=
  mkState (formatted_lines st) (in_list st) (list_indent st) b.

Definition set_in_list (b : bool) (st : state) : state :=
  mkState (formatted_lines st) b (list_indent st) (prev_was_empty st).

Definition set_list_indent (n : nat) (st : state) : state :=
  mkState (formatted_lines st) (in_list st) n (prev_was_empty st).

(** A string in a condition: true when not empty. *)
Definition truthy (s : str) : bool :=
  match s with [] => false | _ :: _ => true end.

(** [i+1 < len(lines) and lines[i+1].strip()] *)
Definition next_nonblank (rest : list str) : bool :=
  match rest with
  | l :: _ => truthy (strip l)
  | [] => false
  end.

Definition section_markers : list str :=
  map lit ["#"; "*"; "-"; "+"; "1."; "2."; "3."; "4."; "5."; "6."; "7.";
           "8."; "9."]%string.

(** [s.startswith((p1, p2, ...))] *)
Definition startswith_any (ps : list str) (s : str) : bool :=
  existsb (fun p => startswith p s) ps.

(** The test of the section-title branch. *)
Definition is_section_title (line : str) : bool :=
  truthy (strip line)
  && negb (startswith_any section_markers (strip line))
  && endswith (lit ":") (strip line)
  && (length (strip line) <? 50).

(** [title_text = line[k:].strip()], less one trailing colon. *)
Definition header_title (k : nat) (line : str) : str :=
  let title_text := strip (skipn k line) in
  if endswith (lit ":") title_text then removelast title_text
  else title_text.

(** The blank line appended after a title or header. *)
Definition pad_after (rest : list str) (st : state) : state :=
  if next_nonblank rest then append [] st else st.

(** [formatted_lines[-1]] *)
Definition last_line (st : state) : result str :=
  match rev (formatted_lines st) with
  | l :: _ => Ok l
  | [] => Raise (IndexError (lit "list index out of range"))
  end.

(** The final [else] of the loop body. *)
Definition other_line (st : state) (line : str) : result state :=
  let line := Re.sub Re.m_bold_colon line in
  let line := _process_inline_formatting line in
  st <- (if in_list st
            && negb (Re.bullet_match line || Re.numbered_match line)
         then
           if truthy (strip line) then
             let st := set_in_list false st in
             l <- last_line st ;;
             Ok (if negb (str_eqb l []) then append [] st else st)
           else Ok st
         else Ok st) ;;
  Ok (append line st).

(** One iteration of the loop on [line = lines[i]], [rest = lines[i+1:]]. *)
Definition step (st : state) (line : str) (rest : list str) : result state :=
  if negb (truthy (strip line)) then
    Ok (if negb (prev_was_empty st)
        then set_prev_was_empty true (append [] st)
        else st)
  else
    let st := set_prev_was_empty false st in
    if is_section_title line then
      Ok (pad_after rest (append (lit "*" ++ strip line ++ lit "*") st))
    else if startswith (lit "# ") line then
      Ok (pad_after rest
            (append (lit "*" ++ header_title 2 line ++ lit "*") st))
    else if startswith (lit "## ") line then
      Ok (pad_after rest
            (append (lit "*" ++ header_title 3 line ++ lit "*") st))
    else if startswith (lit "### ") line then
      Ok (pad_after rest
            (append (bullet ++ lit " *" ++ header_title 4 line ++ lit "*")
               st))
    else if Re.bullet_match line then
      let indent := length line - length (lstrip line) in
      if Re.marker_match line then
        let content := Re.strip_marker line in
        let content := Re.sub Re.m_bold_colon content in
        let content := _process_inline_formatting content in
        let b :=
          if list_indent st <? indent then lit "   " ++ bullet
          else if (indent <? list_indent st) && (0 <? indent)
               then lit " " ++ bullet
               else bullet in
        Ok (set_list_indent indent
              (set_in_list true (append (b ++ lit " " ++ content) st)))
      else
        Ok (append (_process_inline_formatting line) st)
    else if Re.numbered_match line then
      let content := Re.strip_number line in
      let content := Re.sub Re.m_bold_colon content in
      let content := _process_inline_formatting content in
      let st :=
        match Re.number_group line with
        | Some num =>
            let indent := length line - length (lstrip line) in
            append (repeat SP indent ++ num ++ lit ". " ++ content) st
        | None => append (_process_inline_formatting line) st
        end in
      Ok (set_in_list true st)
    else if startswith (lit "```") line then
      Ok (append line st)
    else if startswith (lit "`") line && endswith (lit "`") line
            && (2 <? length line) then
      Ok (append line st)
    else other_line st line.

(** [while i < len(lines)]: every path of the body ends in [i += 1]. *)
Fixpoint loop (st : state) (lines : list str) : result state :=
  match lines with
  | [] => Ok st
  | line :: rest => st' <- step st line rest ;; loop st' rest
  end.

Definition initial : state := mkState [] false 0 false.

(** [_format_markdown_for_slack(text)] *)
Definition _format_markdown_for_slack (text : str) : result str :=
  let text := Re.sub Re.m_single_break text in
  let lines := split_nl text in
  st <- loop initial lines ;;
  let result := join_nl (formatted_lines st) in
  Ok (Re.sub Re.m_blank_run result).

(** *** The message layout *)

(** The paper dictionary; [None] is an absent key. *)
Record paper : Type := mkPaper {
  p_title : option str;
  p_arxiv_id : option str;
  p_upvotes : option Z;
  p_pdf_url : option str;
  p_summary : option str;
  p_date : option str
}.

(** [paper.get(key, default)] *)
Definition get {A : Type} (v : option A) (default : A) : A :=
  match v with Some a => a | None => default end.

(** [f"{paper.get(key)}"] for a text value: a missing key prints [None]. *)
Definition fmt_get (v : option str) : str := get v (lit "None").

Inductive text_object : Type :=
| PlainText (text : str) (emoji : bool)
| Mrkdwn (text : str).

Inductive block : Type :=
| Header (text : text_object)
| Divider
| SectionFields (fields : list text_object)
| SectionText (text : text_object)
| Context (elements : list text_object).

(** The marker after the count, spelled as the source file stores it:
    U+00F0 U+0178 U+201D U+00A5. *)
Definition fire : str := [240; 376; 8221; 165]%N.

(** The six blocks [blocks] is initialised with. *)
Definition fixed_blocks (p : paper) : list block :=
  [ Header (PlainText
              (_truncate_text (get (p_title p) (lit "Unknown title")) 150)
              true);
    Divider;
    SectionFields
      [ Mrkdwn (lit "*Date:*" ++ NL :: get (p_date p) (lit "Unknown"));
        Mrkdwn (lit "*arXiv ID:*" ++ NL :: lit "<https://arxiv.org/abs/"
                ++ fmt_get (p_arxiv_id p) ++ lit "|"
                ++ fmt_get (p_arxiv_id p) ++ lit ">") ];
    SectionFields
      [ Mrkdwn (lit "*Upvotes:* " ++ str_of_int (get (p_upvotes p) 0%Z)
                ++ lit " "
                ++ (if (5 <? get (p_upvotes p) 0)%Z then fire else []));
        Mrkdwn (lit "*<" ++ get (p_pdf_url p) []
                ++ lit "|View the full paper PDF>*") ];
    Divider;
    SectionText (Mrkdwn (lit "*AI-Generated Summary:*")) ].

(** The block appended after the loop. *)
Definition context_block (p : paper) : block :=
  Context
    [ Mrkdwn (lit "<https://arxiv.org/abs/" ++ fmt_get (p_arxiv_id p)
              ++ lit "|View on arXiv> " ++ bullet
              ++ lit " Generated by AI Paper Agent") ].

Definition max_chars : nat := 1900.

(** A search result that counts: [found > start]. *)
Definition after (start : nat) (found : option nat) : option nat :=
  match found with
  | Some i => if start <? i then Some i else None
  | None => None
  end.

(** The value of [end] when the chunk is extracted. *)
Definition chunk_end (s : str) (start : nat) : nat :=
  let e := start + max_chars in
  if e <? length s then
    match after start (rfind [NL; NL] s start e) with
    | Some paragraph_break => paragraph_break + 2
    | None =>
        match after start (rfind [NL] s start e) with
        | Some newline => newline + 1
        | None =>
            match after start (rfind [SP] s start e) with
            | Some space => space + 1
            | None => e
            end
        end
    end
  else e.

(** [while start < len(formatted_summary)]: the chunks in order; [None]
    when [fuel] iterations do not finish the loop. *)
Fixpoint chunks_from (fuel : nat) (s : str) (start : nat)
  : option (list str) :=
  if start <? length s then
    match fuel with
    | O => None
    | S fuel' =>
        let e := chunk_end s start in
        match chunks_from fuel' s e with
        | Some cs => Some (slice s start e :: cs)
        | None => None
        end
    end
  else Some [].

Definition chunk_block (chunk : str) : block :=
  SectionText (Mrkdwn (_truncate_text chunk 1950)).

(** The loop of [_format_paper_blocks] from [start = 0], with as many
    iterations allowed as the text has characters. *)
Definition summary_chunks (s : str) : option (list str) :=
  chunks_from (length s) s 0.

(** [_format_paper_blocks(paper)]; [None] when the loop does not finish
    within its allowance. *)
Definition _format_paper_blocks (p : paper) : option (result (list block)) :=
  let summary := get (p_summary p) (lit "No summary available.") in
  match _format_markdown_for_slack summary with
  | Raise e => Some (Raise e)
  | Ok formatted_summary =>
      match summary_chunks formatted_summary with
      | Some cs =>
          Some (Ok (fixed_blocks p ++ map chunk_block cs
                    ++ [context_block p]))
      | None => None
      end
  end.

End SlackPoster.

Import SlackPoster.

(** ** [tools/top_paper_getter.py] *)

Module TopPaperGetter.

(** *** Dates

    A [datetime] at midnight is its proleptic Gregorian ordinal: day 1 is
    0001-01-01 and day 3652059 is 9999-12-31. *)

Definition date := Z.

Definition is_leap (y : Z) : bool :=
  ((y mod 4 =? 0) && (negb (y mod 100 =? 0) || (y mod 400 =? 0)))%Z.

Definition days_in_month (y m : Z) : Z :=
  if (m =? 2)%Z then (if is_leap y then 29 else 28)%Z
  else if ((m =? 4) || (m =? 6) || (m =? 9) || (m =? 11))%Z then 30%Z
  else 31%Z.

Definition days_before_year (y : Z) : Z :=
  ((y - 1) * 365 + (y - 1) / 4 - (y - 1) / 100 + (y - 1) / 400)%Z.

(** Days of the year before the first of month [m]. *)
Definition days_before_month (y m : Z) : Z :=
  fold_right Z.add 0%Z
    (map (fun k => days_in_month y (Z.of_nat k)) (seq 1 (Z.to_nat (m - 1)))).

Definition ymd2ord (y m d : Z) : date :=
  (days_before_year y + days_before_month y m + d)%Z.

(** The year, month and day of an ordinal. *)
Definition ord2ymd (n : date) : Z * Z * Z :=
  let n := (n - 1)%Z in
  let n400 := (n / 146097)%Z in
  let n := (n mod 146097)%Z in
  let n100 := (n / 36524)%Z in
  let n := (n mod 36524)%Z in
  let n4 := (n / 1461)%Z in
  let n := (n mod 1461)%Z in
  let n1 := (n / 365)%Z in
  let n := (n mod 365)%Z in
  let year := (n400 * 400 + 1 + n100 * 100 + n4 * 4 + n1)%Z in
  if ((n1 =? 4) || (n100 =? 4))%Z then ((year - 1)%Z, 12%Z, 31%Z)
  else
    let month := ((n + 50) / 32)%Z in
    let preceding := days_before_month year month in
    if (n <? preceding)%Z
    then (year, (month - 1)%Z,
          (n - (preceding - days_in_month year (month - 1)) + 1)%Z)
    else (year, month, (n - preceding + 1)%Z).

(** A number on at least [width] digits, zeros in front. *)
Definition zero_pad (width : nat) (n : Z) : str :=
  let ds := str_of_int n in
  repeat 48%N (width - length ds) ++ ds.

(** [d.strftime("%Y-%m-%d")].  The year is printed by the C library,
    which puts no zeros in front of it (glibc): year 999 is [999]. *)
Definition strftime (d : date) : str :=
  let '(y, m, dd) := ord2ymd d in
  str_of_int y ++ lit "-" ++ zero_pad 2 m ++ lit "-" ++ zero_pad 2 dd.

(** The pattern [_strptime] compiles for ["%Y-%m-%d"]:
    [(?P<Y>\d\d\d\d)-(?P<m>1[0-2]|0[1-9]|[1-9])-(?P<d>3[0-1]|[1-2]\d|0[1-9]|[1-9]| [1-9])] *)

Definition between (lo hi c : N) : bool := ((lo <=? c) && (c <=? hi))%N.

(** The group [d] at the start of [s], as the first alternative that
    matches: the day and the text after the group. *)
Definition match_day (s : str) : option (Z * str) :=
  match s with
  | a :: r =>
      let two :=
        match r with
        | b :: r' =>
            if (a =? 51)%N && between 48 49 b
               || between 49 50 a && isdigit b
               || (a =? 48)%N && between 49 57 b
            then Some (int_of_digits [a; b], r')
            else None
        | [] => None
        end in
      match two with
      | Some res => Some res
      | None =>
          if between 49 57 a then Some (int_of_digits [a], r)
          else
            match r with
            | b :: r' =>
                if (a =? SP)%N && between 49 57 b
                then Some (int_of_digits [b], r')
                else None
            | [] => None
            end
      end
  | [] => None
  end.

(** What follows the group [m] in the pattern: the hyphen and the
    group [d]. *)
Definition match_after_month (s : str) : option (Z * str) :=
  match s with
  | dash :: r => if (dash =? 45)%N then match_day r else None
  | [] => None
  end.

(** The group [m] at the start of [s] and what follows it: the first
    alternative after which the rest of the pattern matches. *)
Definition match_month (s : str) : option (Z * Z * str) :=
  let rest (m : str) (r : str) :=
    match match_after_month r with
    | Some (d, r') => Some (int_of_digits m, d, r')
    | None => None
    end in
  let two :=
    match s with
    | a :: b :: r =>
        if (a =? 49)%N && between 48 50 b || (a =? 48)%N && between 49 57 b
        then rest [a; b] r
        else None
    | _ => None
    end in
  match two, s with
  | Some res, _ => Some res
  | None, a :: r => if between 49 57 a then rest [a] r else None
  | None, [] => None
  end.

Definition strptime_error (s : str) : exn :=
  ValueError (lit "time data " ++ repr s
              ++ lit " does not match format '%Y-%m-%d'").

(** [datetime.strptime(s, "%Y-%m-%d")]: the pattern must match at the
    start of the text and leave nothing behind, and the numbers must be a
    date of the calendar. *)
Definition strptime (s : str) : result date :=
  match s with
  | y1 :: y2 :: y3 :: y4 :: dash :: r =>
      if isdigit y1 && isdigit y2 && isdigit y3 && isdigit y4
         && (dash =? 45)%N
      then
        match match_month r with
        | Some (m, d, c :: rest) =>
            Raise (ValueError (lit "unconverted data remains: " ++ c :: rest))
        | Some (m, d, []) =>
            let y := int_of_digits [y1; y2; y3; y4] in
            if (y =? 0)%Z
            then Raise (ValueError (lit "year 0 is out of range"))
            else if (d <=? days_in_month y m)%Z then Ok (ymd2ord y m d)
            else Raise (ValueError (lit "day is out of range for month"))
        | None => Raise (strptime_error s)
        end
      else Raise (strptime_error s)
  | _ => Raise (strptime_error s)
  end.

(** [d - timedelta(days=k)] *)
Definition minus_days (d : date) (k : Z) : result date :=
  if (d - k <? 1)%Z then Raise (OverflowError (lit "date value out of range"))
  else Ok (d - k)%Z.

(** *** Tables *)

(** A value [json.loads] returns. *)
#[warnings="-register-all"]
Inductive json : Type :=
| JNull
| JBool (b : bool)
| JNumber (text : str)
| JString (s : str)
| JArray (items : list json)
| JObject (members : list (str * json)).

(** The [authors] entry: a sequence of names or a text in the table, and
    after the coercion also a decoded value. *)
Inductive authors_value : Type :=
| AuthorsList (names : list str)
| AuthorsText (text : str)
| AuthorsJson (value : json).

(** A row of a table.  A field is read only when the table has the column
    of its name; text columns hold [str], the ranking columns [int]. *)
Record Row : Type := mkRow {
  r_paper_id : str;
  r_arxiv_id : str;
  r_title : str;
  r_authors : authors_value;
  r_upvotes : Z;
  r_score : Z;
  r_date : str;
  r_created : str
}.

Record DataFrame : Type := mkDataFrame {
  columns : list string;
  rows : list Row
}.

(** [name in df.columns] *)
Definition has_column (df : DataFrame) (name : string) : bool :=
  existsb (String.eqb name) (columns df).

(** Insertion into a list sorted from the highest key down, before the
    first row whose key is not higher. *)
Fixpoint insert_desc (key : Row -> Z) (r : Row) (l : list Row) : list Row :=
  match l with
  | [] => [r]
  | x :: l' =>
      if (key x <=? key r)%Z then r :: l else x :: insert_desc key r l'
  end.

(** The row at index [n] taken to the front. *)
Definition move_front (n : nat) (l : list Row) : list Row :=
  match nth_error l n with
  | Some r => r :: firstn n l ++ skipn (S n) l
  | None => l
  end.

(** [df.sort_values(by=key, ascending=False)].  pandas sorts the column
    with numpy's quick sort, which is not stable: the rows come out from
    the highest key down, those with equal keys in an order of its own.
    [tie_order] stands for the sorting routine: from the keys of the
    column it gives the moves to the front that are made before the rows
    are inserted one by one; whatever it gives the rows come out sorted,
    and every sorted order of the rows is the result for some moves. *)
Definition sort_values (tie_order : list Z -> list nat) (key : Row -> Z)
           (df : DataFrame) : DataFrame :=
  mkDataFrame (columns df)
    (fold_right (insert_desc key) []
       (fold_right move_front (rows df) (tie_order (map key (rows df))))).

(** The dictionary [row.to_dict()] of the selected row, which has one key
    for each column: the entries that are read later. *)
Record top_paper : Type := mkTopPaper {
  d_paper_id : option str;
  d_arxiv_id : option str;
  d_title : option str;
  d_authors : option authors_value;
  d_upvotes : option Z;
  d_date : option str
}.

Definition cell {A : Type} (df : DataFrame) (name : string) (v : A)
  : option A :=
  if has_column df name then Some v else None.

Definition to_dict (df : DataFrame) (r : Row) : top_paper :=
  mkTopPaper (cell df "paper_id" (r_paper_id r))
    (cell df "arxiv_id" (r_arxiv_id r))
    (cell df "title" (r_title r))
    (cell df "authors" (r_authors r))
    (cell df "upvotes" (r_upvotes r))
    (cell df "date" (r_date r)).

(** [x.split(sep)[0]]: the text before the first [sep]. *)
Fixpoint before (sep : char) (x : str) : str :=
  match x with
  | [] => []
  | c :: x' => if (c =? sep)%N then [] else c :: before sep x'
  end.

(** [x.split("T")[0] if "T" in x else x] *)
Definition created_day (x : str) : str :=
  if contains (lit "T") x then before 84%N x else x.

(** [text.split(sep)] *)
Fixpoint split_on (sep : char) (x : str) : list str :=
  match x with
  | [] => [[]]
  | c :: x' =>
      if (c =? sep)%N then [] :: split_on sep x'
      else match split_on sep x' with
           | p :: ps => (c :: p) :: ps
           | [] => [[c]]
           end
  end.

(** [text.replace] of every single quote (U+0027) by a double quote
    (U+0022) *)
Definition requote (x : str) : str :=
  map (fun c => if (c =? 39)%N then 34%N else c) x.

Section Resolver.

(** [json.loads]; [None] when it raises. *)
Variable json_loads : str -> option json.

(** The order numpy's quick sort leaves rows of equal keys in. *)
Variable tie_order : list Z -> list nat.

(** The coercion of the [authors] entry of the selected row. *)
Definition coerce_authors (p : top_paper) : top_paper :=
  match d_authors p with
  | Some (AuthorsText text) =>
      let authors :=
        match json_loads (requote text) with
        | Some value => AuthorsJson value
        | None => AuthorsList (map strip (split_on 44%N text))
        end in
      mkTopPaper (d_paper_id p) (d_arxiv_id p) (d_title p) (Some authors)
        (d_upvotes p) (d_date p)
  | _ => p
  end.

(** [date_papers] at the end of the two filters, as a list of rows; the
    empty list also stands for [None]. *)
Definition date_papers (df : DataFrame) (check_date_str : str) : list Row :=
  let by_date :=
    if has_column df "date"
    then filter (fun r => startswith check_date_str (r_date r)) (rows df)
    else [] in
  match by_date with
  | [] =>
      if has_column df "created"
      then filter (fun r => str_eqb (created_day (r_created r))
                                    check_date_str) (rows df)
      else by_date
  | _ :: _ => by_date
  end.

(** The loop [for days_back in range(max_days_to_look_back + 1)] over the
    offsets that are left; [Ok None] when it ends without a [return]. *)
Fixpoint look_back (df : DataFrame) (target_date_obj : date)
         (offsets : list nat) : result (option top_paper) :=
  match offsets with
  | [] => Ok None
  | days_back :: later =>
      check_date <- minus_days target_date_obj (Z.of_nat days_back) ;;
      match date_papers df (strftime check_date) with
      | top :: _ => Ok (Some (coerce_authors (to_dict df top)))
      | [] => look_back df target_date_obj later
      end
  end.

(** [range(max_days_to_look_back + 1)] *)
Definition offsets (max_days_to_look_back : Z) : list nat :=
  seq 0 (Z.to_nat (max_days_to_look_back + 1)).

Definition not_found (target_date : str) (max_days_to_look_back : Z) : exn :=
  ValueError (lit "No papers found within " ++ str_of_int max_days_to_look_back
              ++ lit " days of " ++ target_date).

(** What the calls of [load_dataset] give: [primary] is the two tables of
    the first [try] joined on [arxiv_id] by [pd.merge], or the exception
    one of the two loads raised; [legacy] is the table of the fallback. *)
Record sources : Type := mkSources {
  primary : result DataFrame;
  legacy : result DataFrame
}.

(** [_get_top_paper_from_legacy_dataset(target_date, max_days_to_look_back)] *)
Definition _get_top_paper_from_legacy_dataset (src : sources)
           (target_date : str) (max_days_to_look_back : Z)
  : result top_paper :=
  target_date_obj <- strptime target_date ;;
  df <- legacy src ;;
  let by_upvotes := has_column df "upvotes" in
  let df :=
    if by_upvotes then sort_values tie_order r_upvotes df
    else if has_column df "score" then sort_values tie_order r_score df
    else df in
  found <- look_back df target_date_obj (offsets max_days_to_look_back) ;;
  match found with
  | Some top => Ok top
  | None => Raise (not_found target_date max_days_to_look_back)
  end.

(** [_get_top_paper_by_date(target_date, max_days_to_look_back)] *)
Definition _get_top_paper_by_date (src : sources) (target_date : str)
           (max_days_to_look_back : Z) : result top_paper :=
  target_date_obj <- strptime target_date ;;
  match primary src with
  | Raise _ =>
      try_except
        (_get_top_paper_from_legacy_dataset src target_date
           max_days_to_look_back)
        (fun e2 =>
           Raise (ValueError (lit "Failed to load datasets: "
                              ++ str_of_exn e2)))
  | Ok merged_df =>
      merged_df <-
        (if has_column merged_df "upvotes"
         then Ok (sort_values tie_order r_upvotes merged_df)
         else Raise (KeyError (lit "upvotes"))) ;;
      found <- look_back merged_df target_date_obj
                 (offsets max_days_to_look_back) ;;
      match found with
      | Some top => Ok top
      | None => Raise (not_found target_date max_days_to_look_back)
      end
  end.

(** The dictionary [get_top_paper_pdf_url] returns. *)
Record paper_info : Type := mkPaperInfo {
  paper_id : str;
  title : str;
  authors : authors_value;
  upvotes : Z;
  date_of : str;
  pdf_url : str
}.

(** [ARXIV_PDF_URL_PATTERN.format(paper_id=paper_id)] *)
Definition arxiv_pdf_url (paper_id : str) : str :=
  lit "https://arxiv.org/pdf/" ++ paper_id.

(** [get_top_paper_pdf_url(date)]; [today] is [datetime.now()]. *)
Definition get_top_paper_pdf_url (src : sources) (today : date)
           (date_arg : option str) : result paper_info :=
  let date_text :=
    match date_arg with
    | Some (c :: d) => c :: d
    | _ => strftime today
    end in
  _ <- try_except (strptime date_text)
         (fun _ => Raise (ValueError (lit "Invalid date format: " ++ date_text
                                      ++ lit ". Expected YYYY-MM-DD."))) ;;
  top <- _get_top_paper_by_date src date_text 7 ;;
  let paper_id :=
    match d_paper_id top with
    | Some id => id
    | None => match d_arxiv_id top with Some id => id | None => [] end
    end in
  let paper_id :=
    if contains (lit "v") paper_id then before 118%N paper_id
    else paper_id in
  let pdf_url := arxiv_pdf_url paper_id in
  Ok (mkPaperInfo paper_id
        (match d_title top with Some t => t | None => [] end)
        (match d_authors top with Some a => a | None => AuthorsList [] end)
        (match d_upvotes top with Some u => u | None => 0%Z end)
        (match d_date top with Some d => d | None => [] end)
        pdf_url).

End Resolver.

End TopPaperGetter.

Import TopPaperGetter.

(** ** [post_paper_to_slack] of [tools/slack_poster.py] *)

Module SlackPost.

Definition DEFAULT_CHANNEL : str := lit "#ai-papers-and-research".

(** What [client.chat_postMessage] does: it returns a response, raises
    [SlackApiError], or raises another exception; each with its text. *)
Record response : Type := mkResponse {
  resp_channel : str;
  resp_ts : str
}.

Inductive api_outcome : Type :=
| Delivered (r : response)
| SlackApiError (text : str)
| OtherError (text : str).

(** The dictionary the tool returns. *)
Inductive post_result : Type :=
| Posted (channel message_ts message_url : str)
| NotPosted (error : str).

(** [text.replace('.', '')] *)
Definition without_dots (text : str) : str :=
  filter (fun c => negb (c =? 46)%N) text.

Section Post.

(** [os.environ.get("SLACK_API_TOKEN")] after [load_dotenv()]. *)
Variable slack_token : option str.

(** [datetime.now()] *)
Variable today : TopPaperGetter.date.

(** [WebClient(token=token).chat_postMessage(channel=..., blocks=...,
    text=...)] *)
Variable chat_postMessage : str -> str -> list block -> str -> api_outcome.

(** [post_paper_to_slack(title, arxiv_id, upvotes, pdf_url, summary,
    channel)]; [None] when the chunk loop of the layout does not finish
    within its allowance. *)
Definition post_paper_to_slack (title arxiv_id : str) (upvotes : Z)
           (pdf_url summary channel : str) : option post_result :=
  let channel := match channel with [] => DEFAULT_CHANNEL | _ :: _ => channel end in
  match slack_token with
  | None | Some [] =>
      Some (NotPosted (lit "SLACK_API_TOKEN environment variable not set"))
  | Some (c :: token) =>
      match _format_paper_blocks
              (mkPaper (Some title) (Some arxiv_id) (Some upvotes)
                 (Some pdf_url) (Some summary)
                 (Some (TopPaperGetter.strftime today))) with
      | None => None
      | Some (Raise e) =>
          Some (NotPosted (lit "Unexpected error: " ++ str_of_exn e))
      | Some (Ok blocks) =>
          match chat_postMessage (c :: token) channel blocks
                  (lit "New research paper: " ++ title) with
          | Delivered r =>
              Some (Posted channel (resp_ts r)
                      (lit "https://slack.com/archives/" ++ resp_channel r
                       ++ lit "/p" ++ without_dots (resp_ts r)))
          | SlackApiError text =>
              Some (NotPosted (lit "Error posting to Slack: " ++ text))
          | OtherError text =>
              Some (NotPosted (lit "Unexpected error: " ++ text))
          end
      end
  end.

End Post.

End SlackPost.

(** ** Python values *)

Module PyVal.

(** The values of the dictionaries the agent run hands back. *)
#[warnings="-register-all"]
Inductive pyval : Type :=
| PNone
| PBool (b : bool)
| PInt (z : Z)
| PStr (s : str)
| PList (items : list pyval)
| PDict (entries : list (str * pyval)).

Definition dict := list (str * pyval).

(** [d.get(key)]; [None] when the key is absent. *)
Fixpoint lookup (d : dict) (key : str) : option pyval :=
  match d with
  | [] => None
  | (k, v) :: d' => if str_eqb k key then Some v else lookup d' key
  end.

(** [d.get(key, default)] *)
Definition get_or (d : dict) (key : str) (default : pyval) : pyval :=
  match lookup d key with Some v => v | None => default end.

(** A value in a condition. *)
Definition truth (v : pyval) : bool :=
  match v with
  | PNone => false
  | PBool b => b
  | PInt z => negb (z =? 0)%Z
  | PStr s => match s with [] => false | _ :: _ => true end
  | PList items => match items with [] => false | _ :: _ => true end
  | PDict entries => match entries with [] => false | _ :: _ => true end
  end.

(** [v == text] for a text literal. *)
Definition is_text (v : pyval) (text : str) : bool :=
  match v with
  | PStr s => str_eqb s text
  | _ => false
  end.

(** The name of the type in the text of an [AttributeError]. *)
Definition type_name (v : pyval) : str :=
  match v with
  | PNone => lit "NoneType"
  | PBool _ => lit "bool"
  | PInt _ => lit "int"
  | PStr _ => lit "str"
  | PList _ => lit "list"
  | PDict _ => lit "dict"
  end.

(** A call that returns or raises [AttributeError]. *)
Inductive attempt (A : Type) : Type :=
| Returned (a : A)
| AttributeError (text : str).

Arguments Returned {A} a.
Arguments AttributeError {A} text.

Definition no_get (v : pyval) : str :=
  lit "'" ++ type_name v ++ lit "' object has no attribute 'get'".

(** [v.get(key, default)] on any value. *)
Definition get_attr (v : pyval) (key : str) (default : pyval)
  : attempt pyval :=
  match v with
  | PDict d => Returned (get_or d key default)
  | _ => AttributeError (no_get v)
  end.

End PyVal.

(** ** [agent_utils.py] *)

Module AgentUtils.

Import PyVal.

(** The three variables read from [os.environ] after [load_dotenv()];
    [None] is a variable that is not set. *)
Record environ : Type := mkEnviron {
  OPENAI_API_KEY : option str;
  SLACK_API_TOKEN : option str;
  SLACK_CHANNEL : option str
}.

Inductive env_result : Type :=
| EnvError (error : str)
| EnvOk (openai_api_key slack_api_token slack_channel : str).

(** A text or [None] in a condition. *)
Definition present (v : option str) : bool :=
  match v with
  | Some (_ :: _) => true
  | _ => false
  end.

(** [load_and_validate_env()] *)
Definition load_and_validate_env (env : environ) : env_result :=
  let slack_channel :=
    match SLACK_CHANNEL env with
    | Some channel => channel
    | None => lit "#ai-papers-and-research"
    end in
  match OPENAI_API_KEY env with
  | Some (c :: key) =>
      match SLACK_API_TOKEN env with
      | Some (c' :: token) => EnvOk (c :: key) (c' :: token) slack_channel
      | _ =>
          EnvError (lit "SLACK_API_TOKEN is required but not found in environment variables")
      end
  | _ =>
      EnvError (lit "OPENAI_API_KEY is required but not found in environment variables")
  end.

Section Initialize.

Variable assistant : Type.
Variable tool : Type.

(** [openai.OpenAI(api_key=api_key).beta.assistants.create(name=...,
    instructions=..., tools=..., model="gpt-4-turbo-preview")] *)
Variable create : str -> str -> str -> list tool -> str -> result assistant.

(** [initialize_agent(instructions, name, tools)] *)
Definition initialize_agent (env : environ) (instructions name : str)
           (tools : list tool) : result assistant :=
  match load_and_validate_env env with
  | EnvError error =>
      Raise (Exception (lit "Failed to initialize agent: " ++ error))
  | EnvOk api_key _ _ =>
      try_except
        (create api_key name instructions tools (lit "gpt-4-turbo-preview"))
        (fun e =>
           Raise (Exception (lit "Failed to initialize agent: "
                             ++ str_of_exn e)))
  end.

End Initialize.

(** An element of [result.new_items]: a dictionary or another object. *)
Inductive item : Type :=
| Dict (d : dict)
| Other.

(** The first loop of [check_slack_posting]: the first dictionary with
    [type == "tool_use"] whose [tool_use] names the Slack tool. *)
Fixpoint find_tool_call (items : list item) : attempt (option dict) :=
  match items with
  | [] => Returned None
  | Other :: later => find_tool_call later
  | Dict d :: later =>
      if is_text (get_or d (lit "type") PNone) (lit "tool_use") then
        match get_attr (get_or d (lit "tool_use") (PDict [])) (lit "name")
                PNone with
        | AttributeError text => AttributeError text
        | Returned name =>
            if is_text name (lit "post_paper_to_slack")
            then Returned (Some d)
            else find_tool_call later
        end
      else find_tool_call later
  end.

(** The second loop: the [tool_result] of the first dictionary with
    [type == "tool_result"] and [id == expected]. *)
Fixpoint find_tool_result (expected : str) (items : list item)
  : option pyval :=
  match items with
  | [] => None
  | Other :: later => find_tool_result expected later
  | Dict d :: later =>
      if is_text (get_or d (lit "type") PNone) (lit "tool_result")
         && is_text (get_or d (lit "id") PNone) expected
      then Some (get_or d (lit "tool_result") (PDict []))
      else find_tool_result expected later
  end.

(** The dictionary [check_slack_posting] returns. *)
Inductive check_result : Type :=
| PostFailed (error : pyval)
| PostSucceeded (message_url channel : pyval).

Section Check.

(** [str(v)] for a list or a dictionary. *)
Variable str_of_container : pyval -> str.

(** [f"{v}"] *)
Definition format_value (v : pyval) : str :=
  match v with
  | PNone => lit "None"
  | PBool true => lit "True"
  | PBool false => lit "False"
  | PInt z => str_of_int z
  | PStr s => s
  | _ => str_of_container v
  end.

(** [check_slack_posting(result)] on [result.new_items]. *)
Definition check_slack_posting (new_items : list item)
  : attempt check_result :=
  match find_tool_call new_items with
  | AttributeError text => AttributeError text
  | Returned None =>
      Returned (PostFailed (PStr (lit "No post_paper_to_slack tool call found")))
  | Returned (Some slack_post_tool_call) =>
      let tool_call_id := get_or slack_post_tool_call (lit "id") PNone in
      let slack_post_result :=
        match find_tool_result (format_value tool_call_id ++ lit "_result")
                new_items with
        | Some v => v
        | None => PNone
        end in
      let failed :=
        if negb (truth slack_post_result) then Returned true
        else
          match get_attr slack_post_result (lit "success") (PBool false) with
          | AttributeError text => AttributeError text
          | Returned success => Returned (negb (truth success))
          end in
      match failed with
      | AttributeError text => AttributeError text
      | Returned true =>
          match get_attr slack_post_result (lit "error")
                  (PStr (lit "Unknown error posting to Slack")) with
          | AttributeError text => AttributeError text
          | Returned error => Returned (PostFailed error)
          end
      | Returned false =>
          match get_attr slack_post_result (lit "message_url") (PStr []) with
          | AttributeError text => AttributeError text
          | Returned message_url =>
              match get_attr slack_post_result (lit "channel") (PStr []) with
              | AttributeError text => AttributeError text
              | Returned channel =>
                  Returned (PostSucceeded message_url channel)
              end
          end
      end
  end.

End Check.

End AgentUtils.

(** ** [check_slack_posting] of [agent_code.py] *)

Module AgentCode.

Import PyVal.

(** An element of [result.new_items]: the attributes [tool] and [raw],
    [None] for an attribute the object does not have. *)
Record run_item : Type := mkRunItem {
  tool : option pyval;
  raw : option pyval
}.

Record slack_info : Type := mkSlackInfo {
  slack_posted : bool;
  slack_result : pyval;
  slack_url : pyval
}.

(** The loop: [item.raw] of the first item that has both attributes and
    whose [tool] is the Slack tool. *)
Fixpoint first_slack_call (items : list run_item) : option pyval :=
  match items with
  | [] => None
  | it :: later =>
      match tool it, raw it with
      | Some t, Some r =>
          if is_text t (lit "post_paper_to_slack") then Some r
          else first_slack_call later
      | _, _ => first_slack_call later
      end
  end.

(** [check_slack_posting(result)] on [result.new_items]. *)
Definition check_slack_posting (new_items : list run_item) : slack_info :=
  match first_slack_call new_items with
  | Some r =>
      mkSlackInfo true r
        (match r with
         | PDict (e :: d) => get_or (e :: d) (lit "message_url") PNone
         | _ => PNone
         end)
  | None => mkSlackInfo false PNone PNone
  end.

End AgentCode.

(** ** [main.py] *)

Module Main.

(** [text.strip(chars)] *)
Fixpoint lstrip_chars (chars : list char) (s : str) : str :=
  match s with
  | c :: s' => if existsb (N.eqb c) chars then lstrip_chars chars s' else s
  | [] => []
  end.

Definition strip_chars (chars : list char) (s : str) : str :=
  rev (lstrip_chars chars (rev (lstrip_chars chars s))).

(** [text.split("=", 1)[1]]; [None] stands for the [IndexError] of a text
    without [=]. *)
Fixpoint after_equals (s : str) : option str :=
  match s with
  | [] => None
  | c :: s' => if (c =? 61)%N then Some s' else after_equals s'
  end.

Definition key_prefix : str := lit "OPENAI_API_KEY=".

(** The single and the double quote. *)
Definition quotes : list char := [39; 34]%N.

(** The loop over the lines of the file, up to its [break]; [api_key] is
    the value before the loop.  An exception in the body leaves the
    function through its [except] clause with [api_key] as it was. *)
Fixpoint scan_lines (api_key : option str) (lines : list str) : option str :=
  match lines with
  | [] => api_key
  | line :: later =>
      if startswith key_prefix line then
        match after_equals (strip line) with
        | Some value => Some (strip_chars quotes value)
        | None => api_key
        end
      else scan_lines api_key later
  end.

(** [get_api_key()]: [env_key] is [os.environ.get("OPENAI_API_KEY")],
    [dotenv] the lines of the file [.env] as the iteration yields them, or
    the exception of a file that cannot be read. *)
Definition get_api_key (env_key : option str) (dotenv : result (list str))
  : option str :=
  match env_key with
  | Some (c :: key) => Some (c :: key)
  | _ =>
      match dotenv with
      | Ok lines => scan_lines env_key lines
      | Raise _ => env_key
      end
  end.

(** The test of the main block: the agent is run. *)
Definition runs_agent (api_key : option str) : bool :=
  match api_key with
  | Some (c :: key) => negb (str_eqb (c :: key) (lit "your_api_key_here"))
  | _ => false
  end.

End Main.

(** * Properties *)

(** ** [_truncate_text] *)

Module TruncateSpec.

Lemma length_lit_dots : length (lit "...") = 3.
Proof. reflexivity. Qed.

Lemma slice_to_nonneg (s : str) (k : Z) :
  (0 <= k)%Z -> slice_to s k = firstn (Z.to_nat k) s.
Proof.
  intros Hk. unfold slice_to.
  destruct (Z.ltb_spec k 0) as [Hlt | _]; [lia | reflexivity].
Qed.

(** C9, the limit below 3: [text[:max_length-3]] counts a negative bound
    from the end, and the result is longer than the limit. *)
Lemma truncate_text_short_limit :
  (2 < Z.of_nat (length (lit "abcdef")))%Z /\
  _truncate_text (lit "abcdef") 2 = lit "abcde..." /\
  Z.of_nat (length (_truncate_text (lit "abcdef") 2)) <> 2%Z.
Proof. repeat split; vm_compute; congruence. Qed.

(** C9 (as amended): [_truncate_text text n] is [text] when
    [len(text) <= n]; when [len(text) > n] and [n >= 3] it has exactly [n]
    characters and its last three are [...]; and the case of the unit
    test. *)
Theorem truncate_text_spec (text : str) (n : Z) :
  ((Z.of_nat (length text) <= n)%Z -> _truncate_text text n = text) /\
  ((3 <= n)%Z -> (n < Z.of_nat (length text))%Z ->
     Z.of_nat (length (_truncate_text text n)) = n /\
     skipn (Z.to_nat (n - 3)) (_truncate_text text n) = lit "...") /\
  _truncate_text (lit "This is a very long text that should be truncated") 25
    = lit "This is a very long te...".
Proof.
  split; [| split].
  - intros Hle. unfold _truncate_text.
    destruct (Z.leb_spec (Z.of_nat (length text)) n); [reflexivity | lia].
  - intros H3 Hlt. unfold _truncate_text.
    destruct (Z.leb_spec (Z.of_nat (length text)) n) as [Hle | _]; [lia |].
    rewrite slice_to_nonneg by lia.
    assert (Hlen : length (firstn (Z.to_nat (n - 3)) text) = Z.to_nat (n - 3)).
    { apply firstn_length_le. lia. }
    split.
    + rewrite length_app, Hlen, length_lit_dots. lia.
    + rewrite <- Hlen at 1. rewrite skipn_app, skipn_all, Nat.sub_diag.
      reflexivity.
  - reflexivity.
Qed.

Lemma truncate_text_spec_witness :
  Z.of_nat (length (_truncate_text (lit "abcdefgh") 5)) = 5%Z /\
  skipn (Z.to_nat (5 - 3)) (_truncate_text (lit "abcdefgh") 5) = lit "...".
Proof.
  apply (proj1 (proj2 (truncate_text_spec (lit "abcdefgh") 5))).
  - lia.
  - vm_compute. reflexivity.
Defined.

End TruncateSpec.

(** ** The transducer never raises *)

Module TransducerTotal.

(** The invariant of the loop that keeps [formatted_lines[-1]] in bounds. *)
Definition list_inv (st : state) : Prop :=
  in_list st = true -> formatted_lines st <> [].

Definition emitted (st : state) : Prop := formatted_lines st <> [].

Lemma emitted_append (l : str) (st : state) : emitted (append l st).
Proof.
  unfold emitted, append; simpl.
  destruct (formatted_lines st); discriminate.
Qed.

Lemma emitted_pad_after (rest : list str) (st : state) :
  emitted st -> emitted (pad_after rest st).
Proof.
  unfold pad_after. destruct (next_nonblank rest); auto using emitted_append.
Qed.

Lemma emitted_inv (st : state) : emitted st -> list_inv st.
Proof. unfold list_inv; auto. Qed.

Lemma emitted_set_prev_was_empty (b : bool) (st : state) :
  emitted st -> emitted (set_prev_was_empty b st).
Proof. exact (fun H => H). Qed.

Lemma emitted_set_in_list (b : bool) (st : state) :
  emitted st -> emitted (set_in_list b st).
Proof. exact (fun H => H). Qed.

Lemma emitted_set_list_indent (n : nat) (st : state) :
  emitted st -> emitted (set_list_indent n st).
Proof. exact (fun H => H). Qed.

Create HintDb transducer.

#[local] Hint Resolve emitted_append emitted_pad_after emitted_inv
  emitted_set_prev_was_empty emitted_set_in_list emitted_set_list_indent
  : transducer.

Lemma last_line_emitted (st : state) :
  emitted st -> exists l, last_line st = Ok l.
Proof.
  unfold emitted, last_line. intros Hne.
  destruct (rev (formatted_lines st)) as [| l ls] eqn:E.
  - apply (f_equal (@rev str)) in E. rewrite rev_involutive in E.
    simpl in E. contradiction.
  - eauto.
Qed.

Lemma other_line_total (st : state) (line : str) :
  list_inv st ->
  exists st', other_line st line = Ok st' /\ emitted st'.
Proof.
  intros Hinv. unfold other_line.
  set (line' := _process_inline_formatting (Re.sub Re.m_bold_colon line)).
  destruct (in_list st) eqn:Hin; simpl.
  - destruct (negb (Re.bullet_match line' || Re.numbered_match line'));
      [| simpl; eauto with transducer].
    destruct (truthy (strip line')); [| simpl; eauto with transducer].
    destruct (last_line_emitted (set_in_list false st)) as [l Hl].
    { unfold emitted; simpl. auto. }
    rewrite Hl; simpl. eauto with transducer.
  - eauto with transducer.
Qed.

Lemma step_total (st : state) (line : str) (rest : list str) :
  list_inv st ->
  exists st', step st line rest = Ok st' /\ list_inv st'.
Proof.
  intros Hinv. unfold step.
  destruct (negb (truthy (strip line))).
  { destruct (negb (prev_was_empty st)); eauto 6 with transducer. }
  assert (Hinv' : list_inv (set_prev_was_empty false st)) by exact Hinv.
  repeat match goal with
         | |- context [if ?b then _ else _] => destruct b
         | |- context [match Re.number_group ?l with _ => _ end] =>
             destruct (Re.number_group l)
         end;
    try solve [eauto 8 with transducer].
  all: destruct (other_line_total _ line Hinv') as (st' & -> & He);
    eauto with transducer.
Qed.

Lemma loop_total (lines : list str) (st : state) :
  list_inv st -> exists st', loop st lines = Ok st'.
Proof.
  revert st. induction lines as [| line rest IH]; intros st Hinv; simpl.
  - eauto.
  - destruct (step_total _ line rest Hinv) as (st1 & -> & Hinv1). simpl.
    apply IH, Hinv1.
Qed.

Lemma list_inv_initial : list_inv initial.
Proof. unfold list_inv, initial; simpl. discriminate. Qed.

Lemma format_markdown_total (text : str) :
  exists out, _format_markdown_for_slack text = Ok out.
Proof.
  unfold _format_markdown_for_slack.
  destruct (loop_total (split_nl (Re.sub Re.m_single_break text)) _
              list_inv_initial) as [st ->].
  simpl. eauto.
Qed.

End TransducerTotal.

(** ** The chunk loop *)

Module ChunkerSpec.

(** [s[i:i+len(sub)] == sub] *)
Definition occurs_at (sub s : str) (i : nat) : Prop :=
  startswith sub (skipn i s) = true.

(** [i] is the last place strictly after [start] where [sub] lies inside
    the window [[start, start + max_chars)]. *)
Definition last_in_window (sub s : str) (start i : nat) : Prop :=
  start < i /\ i + length sub <= start + max_chars /\ occurs_at sub s i /\
  forall j, i < j -> j + length sub <= start + max_chars ->
            ~ occurs_at sub s j.

(** [sub] lies nowhere strictly after [start] inside the window. *)
Definition none_in_window (sub s : str) (start : nat) : Prop :=
  forall j, start < j -> j + length sub <= start + max_chars ->
            ~ occurs_at sub s j.

(** Where the chunk that starts at [start] ends. *)
Definition ends_by_rule (s : str) (start : nat) : Prop :=
  let e := chunk_end s start in
  (start + max_chars < length s ->
     (exists i, last_in_window [NL; NL] s start i /\ e = i + 2) \/
     (none_in_window [NL; NL] s start /\
      exists i, last_in_window [NL] s start i /\ e = i + 1) \/
     (none_in_window [NL; NL] s start /\ none_in_window [NL] s start /\
      exists i, last_in_window [SP] s start i /\ e = i + 1) \/
     (none_in_window [NL; NL] s start /\ none_in_window [NL] s start /\
      none_in_window [SP] s start /\ e = start + max_chars)) /\
  (length s <= start + max_chars -> e = start + max_chars).

Lemma rfind_down_some (sub s : str) (a n i : nat) :
  rfind_down sub s a n = Some i ->
  a <= i < a + n /\ occurs_at sub s i /\
  forall j, i < j < a + n -> ~ occurs_at sub s j.
Proof.
  induction n as [| n IH]; simpl; [discriminate |].
  destruct (startswith sub (skipn (a + n) s)) eqn:E.
  - intros [= <-]. split; [lia |]. split; [exact E |]. intros j Hj; lia.
  - intros H. destruct (IH H) as (Hr & Ho & Hm).
    split; [lia |]. split; [exact Ho |].
    intros j Hj. destruct (Nat.eq_dec j (a + n)) as [-> | Hne].
    + unfold occurs_at. rewrite E. discriminate.
    + apply Hm. lia.
Qed.

Lemma rfind_down_none (sub s : str) (a n : nat) :
  rfind_down sub s a n = None ->
  forall j, a <= j < a + n -> ~ occurs_at sub s j.
Proof.
  induction n as [| n IH]; simpl; intros H j Hj; [lia |].
  destruct (startswith sub (skipn (a + n) s)) eqn:E; [discriminate |].
  destruct (Nat.eq_dec j (a + n)) as [-> | Hne].
  - unfold occurs_at. rewrite E. discriminate.
  - apply IH; [exact H | lia].
Qed.

Lemma rfind_some (sub s : str) (a b i : nat) :
  b <= length s ->
  rfind sub s a b = Some i ->
  a <= i /\ i + length sub <= b /\ occurs_at sub s i /\
  forall j, i < j -> j + length sub <= b -> ~ occurs_at sub s j.
Proof.
  intros Hb. unfold rfind. rewrite Nat.min_l by exact Hb.
  destruct (Nat.leb_spec (a + length sub) b) as [Hle | Hgt]; [| discriminate].
  intros H. destruct (rfind_down_some _ _ _ _ _ H) as (Hr & Ho & Hm).
  split; [lia |]. split; [lia |]. split; [exact Ho |].
  intros j Hj1 Hj2. apply Hm. lia.
Qed.

Lemma rfind_none (sub s : str) (a b : nat) :
  b <= length s ->
  rfind sub s a b = None ->
  forall j, a <= j -> j + length sub <= b -> ~ occurs_at sub s j.
Proof.
  intros Hb. unfold rfind. rewrite Nat.min_l by exact Hb.
  destruct (Nat.leb_spec (a + length sub) b) as [Hle | Hgt].
  - intros H j Hj1 Hj2. apply (rfind_down_none _ _ _ _ H). lia.
  - intros _ j Hj1 Hj2. lia.
Qed.

Lemma after_some (sub s : str) (start i : nat) :
  start + max_chars <= length s ->
  after start (rfind sub s start (start + max_chars)) = Some i ->
  last_in_window sub s start i.
Proof.
  intros Hb. unfold after.
  destruct (rfind sub s start (start + max_chars)) as [k |] eqn:E;
    [| discriminate].
  destruct (Nat.ltb_spec start k) as [Hlt | Hge]; [| discriminate].
  intros [= <-]. destruct (rfind_some _ _ _ _ _ Hb E) as (_ & H2 & H3 & H4).
  unfold last_in_window. auto.
Qed.

Lemma after_none (sub s : str) (start : nat) :
  start + max_chars <= length s ->
  after start (rfind sub s start (start + max_chars)) = None ->
  none_in_window sub s start.
Proof.
  intros Hb. unfold after, none_in_window.
  destruct (rfind sub s start (start + max_chars)) as [k |] eqn:E.
  - destruct (Nat.ltb_spec start k) as [Hlt | Hge]; [discriminate |].
    intros _ j Hj1 Hj2.
    destruct (rfind_some _ _ _ _ _ Hb E) as (H1 & _ & _ & H4).
    apply H4; lia.
  - intros _ j Hj1 Hj2. apply (rfind_none _ _ _ _ Hb E); lia.
Qed.

Lemma chunk_end_rule (s : str) (start : nat) : ends_by_rule s start.
Proof.
  unfold ends_by_rule, chunk_end. split.
  - intros Hlt.
    destruct (Nat.ltb_spec (start + max_chars) (length s)) as [_ | Hge];
      [| lia].
    assert (Hb : start + max_chars <= length s) by lia.
    destruct (after start (rfind [NL; NL] s start (start + max_chars)))
      as [pb |] eqn:E2.
    { left. exists pb. split; [apply after_some; assumption | reflexivity]. }
    apply after_none in E2; [| exact Hb].
    destruct (after start (rfind [NL] s start (start + max_chars)))
      as [nl |] eqn:E1.
    { right; left. split; [exact E2 |]. exists nl.
      split; [apply after_some; assumption | reflexivity]. }
    apply after_none in E1; [| exact Hb].
    destruct (after start (rfind [SP] s start (start + max_chars)))
      as [sp |] eqn:E0.
    { right; right; left. repeat split; try assumption. exists sp.
      split; [apply after_some; assumption | reflexivity]. }
    apply after_none in E0; [| exact Hb].
    right; right; right. auto.
  - intros Hge.
    destruct (Nat.ltb_spec (start + max_chars) (length s)) as [Hlt | _];
      [lia | reflexivity].
Qed.

(** Every iteration moves [start] forward, by at most [max_chars]. *)
Lemma chunk_end_advances (s : str) (start : nat) :
  start < chunk_end s start <= start + max_chars.
Proof.
  destruct (chunk_end_rule s start) as [Hin Hout].
  destruct (Nat.lt_ge_cases (start + max_chars) (length s)) as [Hlt | Hge].
  - unfold last_in_window in Hin. simpl in Hin.
    destruct (Hin Hlt) as [(i & (H1 & H2 & _) & ->)
                          | [(_ & i & (H1 & H2 & _) & ->)
                            | [(_ & _ & i & (H1 & H2 & _) & ->)
                              | (_ & _ & _ & ->)]]];
      unfold max_chars in *; lia.
  - rewrite (Hout Hge). unfold max_chars. lia.
Qed.

Lemma chunks_from_done (fuel : nat) (s : str) (start : nat) :
  length s <= start -> chunks_from fuel s start = Some [].
Proof.
  intros Hge.
  destruct fuel; simpl;
    destruct (Nat.ltb_spec start (length s)); (lia || reflexivity).
Qed.

Lemma chunks_from_step (fuel : nat) (s : str) (start : nat) :
  start < length s ->
  chunks_from (S fuel) s start =
    match chunks_from fuel s (chunk_end s start) with
    | Some cs => Some (slice s start (chunk_end s start) :: cs)
    | None => None
    end.
Proof.
  intros Hlt. simpl.
  destruct (Nat.ltb_spec start (length s)); [reflexivity | lia].
Qed.

(** As many iterations as characters are left are enough. *)
Lemma chunks_from_total (fuel : nat) (s : str) (start : nat) :
  length s - start <= fuel -> exists cs, chunks_from fuel s start = Some cs.
Proof.
  revert start. induction fuel as [| fuel IH]; intros start Hfuel.
  - exists []. apply chunks_from_done. lia.
  - destruct (Nat.lt_ge_cases start (length s)) as [Hlt | Hge].
    + rewrite chunks_from_step by exact Hlt.
      destruct (IH (chunk_end s start)) as [cs ->]; [| eauto].
      pose proof (chunk_end_advances s start). lia.
    + exists []. apply chunks_from_done. exact Hge.
Qed.

Lemma slice_skipn (s : str) (a b : nat) :
  a <= b -> slice s a b ++ skipn b s = skipn a s.
Proof.
  intros Hab. unfold slice.
  replace b with ((b - a) + a) at 2 by lia.
  rewrite <- skipn_skipn. apply firstn_skipn.
Qed.

Lemma length_slice (s : str) (a b : nat) :
  b <= length s -> length (slice s a b) = b - a.
Proof.
  intros Hb. unfold slice. rewrite length_firstn, length_skipn. lia.
Qed.

(** The chunks put back together are the text from [start] on. *)
Lemma chunks_from_concat (fuel : nat) (s : str) (start : nat)
      (cs : list str) :
  chunks_from fuel s start = Some cs -> concat cs = skipn start s.
Proof.
  revert start cs. induction fuel as [| fuel IH]; intros start cs.
  - simpl. destruct (Nat.ltb_spec start (length s)); [discriminate |].
    intros [= <-]. simpl. symmetry. apply skipn_all2. assumption.
  - destruct (Nat.lt_ge_cases start (length s)) as [Hlt | Hge].
    + rewrite chunks_from_step by exact Hlt.
      destruct (chunks_from fuel s (chunk_end s start)) as [cs' |] eqn:E;
        [| discriminate].
      intros [= <-]. simpl. rewrite (IH _ _ E).
      apply slice_skipn. pose proof (chunk_end_advances s start). lia.
    + rewrite chunks_from_done by exact Hge.
      intros [= <-]. simpl. symmetry. apply skipn_all2. assumption.
Qed.

(** The chunk number [k] starts where the chunks before it end, and runs
    to [chunk_end] of that place. *)
Lemma chunks_from_nth (fuel : nat) (s : str) (start : nat) (cs : list str)
      (k : nat) (c : str) :
  chunks_from fuel s start = Some cs ->
  nth_error cs k = Some c ->
  let at_k := start + length (concat (firstn k cs)) in
  at_k < length s /\ c = slice s at_k (chunk_end s at_k).
Proof.
  revert start cs k. induction fuel as [| fuel IH]; intros start cs k.
  - simpl. destruct (Nat.ltb_spec start (length s)); [discriminate |].
    intros [= <-]. destruct k; discriminate.
  - destruct (Nat.lt_ge_cases start (length s)) as [Hlt | Hge].
    + rewrite chunks_from_step by exact Hlt.
      destruct (chunks_from fuel s (chunk_end s start)) as [cs' |] eqn:E;
        [| discriminate].
      intros [= <-]. destruct k as [| k]; simpl.
      * intros [= <-]. rewrite Nat.add_0_r. auto.
      * intros Hk.
        destruct (Nat.lt_ge_cases (length s) (chunk_end s start))
          as [Hover | Hin].
        { rewrite chunks_from_done in E by lia. injection E as <-.
          destruct k; discriminate. }
        rewrite length_app, length_slice by exact Hin.
        pose proof (chunk_end_advances s start) as Hadv.
        destruct (IH _ _ _ E Hk) as [H1 H2]. simpl in H1, H2.
        replace (start + (chunk_end s start - start
                          + length (concat (firstn k cs'))))
          with (chunk_end s start + length (concat (firstn k cs')))
          by lia.
        auto.
    + rewrite chunks_from_done by exact Hge.
      intros [= <-]. destruct k; discriminate.
Qed.

Lemma chunk_length (s : str) (start : nat) :
  start < length s ->
  1 <= length (slice s start (chunk_end s start)) <= max_chars.
Proof.
  intros Hlt. pose proof (chunk_end_advances s start) as Hadv.
  unfold slice. rewrite length_firstn, length_skipn. lia.
Qed.

(** A chunk passes [_truncate_text(chunk, 1950)] unchanged. *)
Lemma chunk_block_exact (c : str) :
  length c <= max_chars -> chunk_block c = SectionText (Mrkdwn c).
Proof.
  intros Hlen. unfold chunk_block, _truncate_text.
  destruct (Z.leb_spec (Z.of_nat (length c)) 1950) as [_ | Hgt];
    [reflexivity |].
  unfold max_chars in Hlen. lia.
Qed.

End ChunkerSpec.

(** ** The layout builder *)

Module LayoutSpec.

Import TransducerTotal ChunkerSpec.

Definition placeholder : str := lit "No summary available.".

Lemma summary_chunks_total (s : str) :
  exists cs, summary_chunks s = Some cs.
Proof. apply chunks_from_total. lia. Qed.

Lemma summary_chunks_nonempty (s : str) (cs : list str) :
  summary_chunks s = Some cs -> (s = [] <-> cs = []).
Proof.
  intros H. pose proof (chunks_from_concat _ _ _ _ H) as Hcat.
  simpl in Hcat. split; intros ->.
  - destruct cs as [| c cs]; [reflexivity |].
    destruct (chunks_from_nth _ _ _ _ 0 c H eq_refl) as [Hlt _].
    simpl in Hlt. lia.
  - symmetry. exact Hcat.
Qed.

(** C4: [_format_markdown_for_slack] returns for every text; the loop
    keeps "in a list, so a line was emitted", which every iteration
    preserves while raising nothing, so [formatted_lines[-1]] is in bounds;
    every iteration of the chunk loop moves [start] forward, and the loop
    ends within [len(formatted_summary)] iterations. *)
Theorem transducer_and_chunker_total :
  (forall text, exists out, _format_markdown_for_slack text = Ok out) /\
  list_inv initial /\
  (forall st line rest,
      list_inv st ->
      exists st', step st line rest = Ok st' /\ list_inv st') /\
  (forall st,
      list_inv st -> in_list st = true -> exists l, last_line st = Ok l) /\
  (forall s start, start < chunk_end s start) /\
  (forall s, exists cs, summary_chunks s = Some cs).
Proof.
  split; [exact format_markdown_total |].
  split; [exact list_inv_initial |].
  split; [exact step_total |].
  split.
  { intros st Hinv Hin. apply last_line_emitted, Hinv, Hin. }
  split; [| exact summary_chunks_total].
  intros s start. apply chunk_end_advances.
Qed.

Lemma transducer_and_chunker_total_witness :
  exists st', step initial (lit "* item") [lit "text"] = Ok st'
              /\ list_inv st'.
Proof.
  apply (proj1 (proj2 (proj2 transducer_and_chunker_total))).
  unfold list_inv. simpl. discriminate.
Defined.

Definition empty_summary_paper : paper :=
  mkPaper (Some (lit "Test Paper Title")) (Some (lit "2503.14456"))
    (Some 42%Z) (Some (lit "https://arxiv.org/pdf/2503.14456"))
    (Some []) (Some (lit "2025-03-20")).

(** The paper of [empty_summary_paper] without its [summary] key. *)
Definition no_summary_paper : paper :=
  mkPaper (Some (lit "Test Paper Title")) (Some (lit "2503.14456"))
    (Some 42%Z) (Some (lit "https://arxiv.org/pdf/2503.14456"))
    None (Some (lit "2025-03-20")).

(** C3: the summary that is present and empty.  The placeholder is the
    default of an absent key only: for the paper with the empty summary
    the loop adds no block, and the heading of the summary is followed by
    the context block, while the same paper without the key gets the
    placeholder for its body. *)
Lemma empty_summary_no_body_block :
  exists blocks,
    _format_paper_blocks empty_summary_paper = Some (Ok blocks) /\
    blocks = fixed_blocks empty_summary_paper
               ++ [context_block empty_summary_paper] /\
    (forall c, ~ In (SectionText (Mrkdwn c)) (skipn 6 blocks)) /\
    _format_paper_blocks no_summary_paper
    = Some (Ok (fixed_blocks no_summary_paper
                ++ [SectionText (Mrkdwn placeholder)]
                ++ [context_block no_summary_paper])).
Proof.
  eexists. split; [vm_compute; reflexivity |]. split; [reflexivity |].
  split; [| vm_compute; reflexivity].
  intros c [H | []]. discriminate.
Qed.

(** The shape of every layout: the six fixed blocks, one block per chunk
    of the transduced summary, and the context block: seven blocks and
    more; there is a body block as soon as the transduced summary is not
    empty, and none when it is empty; when the summary key is absent the
    body is the one block of the placeholder. *)
Theorem format_paper_blocks_shape (p : paper) :
  exists out cs,
    _format_markdown_for_slack (get (p_summary p) placeholder) = Ok out /\
    summary_chunks out = Some cs /\
    _format_paper_blocks p =
      Some (Ok (fixed_blocks p ++ map chunk_block cs ++ [context_block p])) /\
    length (fixed_blocks p ++ map chunk_block cs ++ [context_block p])
      = 7 + length cs /\
    (out = [] <-> cs = []) /\
    (p_summary p = None ->
       cs = [placeholder] /\
       map chunk_block cs = [SectionText (Mrkdwn placeholder)]).
Proof.
  destruct (format_markdown_total (get (p_summary p) placeholder))
    as [out Hout].
  destruct (summary_chunks_total out) as [cs Hcs].
  exists out, cs. split; [exact Hout |]. split; [exact Hcs |].
  split.
  { unfold _format_paper_blocks. fold placeholder. rewrite Hout, Hcs.
    reflexivity. }
  split.
  { rewrite !length_app, length_map. simpl. lia. }
  split; [apply summary_chunks_nonempty, Hcs |].
  intros Hnone. rewrite Hnone in Hout. simpl in Hout.
  assert (Hp : _format_markdown_for_slack placeholder = Ok placeholder)
    by (vm_compute; reflexivity).
  rewrite Hp in Hout. injection Hout as <-.
  assert (Hc : summary_chunks placeholder = Some [placeholder])
    by (vm_compute; reflexivity).
  rewrite Hc in Hcs. injection Hcs as <-.
  split; reflexivity.
Qed.

Lemma format_paper_blocks_shape_witness :
  exists out cs,
    _format_markdown_for_slack
      (get (p_summary (mkPaper None None None None None None)) placeholder)
      = Ok out /\
    summary_chunks out = Some cs /\ cs = [placeholder].
Proof.
  destruct (format_paper_blocks_shape
              (mkPaper None None None None None None))
    as (out & cs & H1 & H2 & _ & _ & _ & H6).
  exists out, cs. split; [exact H1 |]. split; [exact H2 |].
  apply H6. reflexivity.
Defined.

Definition two_paragraphs : str := lit "a" ++ [NL; NL] ++ lit "b".

(** C6, the last chunk: when at most [max_chars] characters are left they
    are one chunk, whatever breaks they hold. *)
Lemma final_chunk_not_split :
  _format_markdown_for_slack two_paragraphs = Ok two_paragraphs /\
  summary_chunks two_paragraphs = Some [two_paragraphs] /\
  last_in_window [NL; NL] two_paragraphs 0 1 /\
  chunk_end two_paragraphs 0 <> 1 + 2.
Proof.
  split; [vm_compute; reflexivity |].
  split; [vm_compute; reflexivity |].
  split; [| vm_compute; discriminate].
  unfold last_in_window, max_chars. simpl length.
  split; [lia |]. split; [lia |]. split; [reflexivity |].
  intros j Hj _. unfold occurs_at.
  do 4 (destruct j as [| j]; [lia || (simpl; discriminate) |]).
  simpl. rewrite skipn_nil. simpl. discriminate.
Qed.

(** C6 (as amended): the chunks of the transduced summary, put back
    together in order, are the transduced summary; chunk [k] starts where
    the chunks before it end and runs to [chunk_end] of that place, which
    is, when more than [max_chars] characters are left, just after the last
    double newline, else the last newline, else the last space strictly
    after the start inside the window, else the window boundary, and which
    takes all that is left when at most [max_chars] characters are left;
    a chunk has between 1 and 1900 characters and is the text of its
    block unchanged. *)
Theorem chunks_partition (summary : str) :
  exists out cs,
    _format_markdown_for_slack summary = Ok out /\
    summary_chunks out = Some cs /\
    concat cs = out /\
    forall k c,
      nth_error cs k = Some c ->
      let start := length (concat (firstn k cs)) in
      start < length out /\
      c = slice out start (chunk_end out start) /\
      ends_by_rule out start /\
      1 <= length c <= 1900 /\
      chunk_block c = SectionText (Mrkdwn c).
Proof.
  destruct (format_markdown_total summary) as [out Hout].
  destruct (summary_chunks_total out) as [cs Hcs].
  exists out, cs. split; [exact Hout |]. split; [exact Hcs |].
  split; [exact (chunks_from_concat _ _ _ _ Hcs) |].
  intros k c Hk.
  destruct (chunks_from_nth _ _ _ _ _ _ Hcs Hk) as [Hlt Hc].
  simpl in Hlt, Hc. simpl.
  pose proof (chunk_length out _ Hlt) as Hlen. rewrite <- Hc in Hlen.
  split; [exact Hlt |]. split; [exact Hc |].
  split; [apply chunk_end_rule |].
  split; [exact Hlen |].
  apply chunk_block_exact. lia.
Qed.

Lemma chunks_partition_witness :
  two_paragraphs = slice two_paragraphs 0 (chunk_end two_paragraphs 0) /\
  1 <= length two_paragraphs <= 1900.
Proof.
  destruct (chunks_partition two_paragraphs)
    as (out & cs & H1 & H2 & _ & H4).
  assert (E1 : _format_markdown_for_slack two_paragraphs = Ok two_paragraphs)
    by (vm_compute; reflexivity).
  rewrite E1 in H1. injection H1 as <-.
  assert (E2 : summary_chunks two_paragraphs = Some [two_paragraphs])
    by (vm_compute; reflexivity).
  rewrite E2 in H2. injection H2 as <-.
  destruct (H4 0 two_paragraphs eq_refl) as (_ & Hc & _ & Hlen & _).
  split; [exact Hc | exact Hlen].
Defined.

End LayoutSpec.

(** ** The transducer *)

Module TransducerSpec.

(** *** Substitution where the pattern matches nowhere *)

Lemma sub_never (m : str -> option (str * nat)) (s : str) :
  (forall k, m (skipn k s) = None) -> Re.sub m s = s.
Proof.
  unfold Re.sub. induction s as [| c s IH]; intros Hnone; simpl.
  - reflexivity.
  - pose proof (Hnone 0) as H0. simpl in H0. rewrite H0.
    f_equal. apply IH.
    intros k. exact (Hnone (S k)).
Qed.

Lemma contains_false_inv (p : str) (c : char) (s : str) :
  contains p (c :: s) = false ->
  startswith p (c :: s) = false /\ contains p s = false.
Proof. simpl contains. intros H. apply orb_false_iff in H. exact H. Qed.

Lemma contains_false_suffix (p s : str) (k : nat) :
  contains p s = false -> startswith p (skipn k s) = false.
Proof.
  revert k. induction s as [| c s IH]; intros k H.
  - rewrite skipn_nil. simpl in H. apply orb_false_iff in H. apply H.
  - apply contains_false_inv in H. destruct H as [H0 Hs].
    destruct k as [| k]; simpl; [exact H0 | apply IH, Hs].
Qed.

Lemma m_delimited_closed (opn cls ropn rcls s : str) :
  startswith opn s = false -> Re.m_delimited opn cls ropn rcls s = None.
Proof. unfold Re.m_delimited. intros ->. reflexivity. Qed.

Lemma m_bold_key_closed (s : str) :
  startswith (lit "**") s = false -> Re.m_bold_key s = None.
Proof. unfold Re.m_bold_key. intros ->. reflexivity. Qed.

Lemma notin_skipn (s : str) (k : nat) : ~ In NL s -> ~ In NL (skipn k s).
Proof.
  intros Hs Hin. apply Hs. rewrite <- (firstn_skipn k s).
  apply in_or_app. right. exact Hin.
Qed.

Lemma m_single_break_second (a b : char) (r : str) :
  b <> NL -> Re.m_single_break (a :: b :: r) = None.
Proof.
  intros Hb. destruct r as [| c r]; simpl; [reflexivity |].
  apply N.eqb_neq in Hb. rewrite Hb, andb_false_r. reflexivity.
Qed.

Lemma m_single_break_first (r : str) : Re.m_single_break (NL :: r) = None.
Proof. destruct r as [| b [| c r]]; reflexivity. Qed.

Lemma m_single_break_third (a : char) (r : str) :
  Re.m_single_break (a :: NL :: NL :: r) = None.
Proof. simpl. rewrite andb_false_r. reflexivity. Qed.

Lemma m_single_break_plain (s : str) :
  ~ In NL s -> Re.m_single_break s = None.
Proof.
  intros Hs. destruct s as [| a [| b r]]; try reflexivity.
  apply m_single_break_second. intros ->. apply Hs. simpl. auto.
Qed.

Lemma m_blank_run_plain (s : str) :
  ~ In NL s -> Re.m_blank_run s = None.
Proof.
  intros Hs. unfold Re.m_blank_run. destruct s as [| a r]; [reflexivity |].
  simpl. destruct (N.eqb_spec a NL) as [-> | _]; [| reflexivity].
  exfalso. apply Hs. simpl. auto.
Qed.

Lemma widen_plain (s : str) : ~ In NL s -> Re.sub Re.m_single_break s = s.
Proof.
  intros Hs. apply sub_never. intros k.
  apply m_single_break_plain, notin_skipn, Hs.
Qed.

Lemma collapse_plain (s : str) : ~ In NL s -> Re.sub Re.m_blank_run s = s.
Proof.
  intros Hs. apply sub_never. intros k.
  apply m_blank_run_plain, notin_skipn, Hs.
Qed.

Lemma split_nl_plain (s : str) : ~ In NL s -> split_nl s = [s].
Proof.
  induction s as [| c s IH]; intros Hs; simpl; [reflexivity |].
  destruct (N.eqb_spec c NL) as [-> | _].
  - exfalso. apply Hs. simpl. auto.
  - rewrite IH; [reflexivity |]. intros Hin. apply Hs. simpl. auto.
Qed.

(** *** The pass over single line breaks *)

(** A single break between two lines is doubled. *)
Lemma widen_single (s t : str) :
  s <> [] -> t <> [] -> ~ In NL s -> ~ In NL t ->
  Re.sub Re.m_single_break (s ++ NL :: t) = s ++ NL :: NL :: t.
Proof.
  intros Hs Ht Hns Hnt. unfold Re.sub.
  induction s as [| c s IH]; [contradiction |].
  destruct s as [| c' s].
  - destruct t as [| d t]; [contradiction |]. simpl.
    assert (Hc : (c =? NL)%N = false).
    { apply N.eqb_neq. intros ->. apply Hns. simpl. auto. }
    assert (Hd : (d =? NL)%N = false).
    { apply N.eqb_neq. intros ->. apply Hnt. simpl. auto. }
    rewrite Hc, Hd. simpl. do 4 f_equal.
    apply (widen_plain t). intros Hin. apply Hnt. simpl. auto.
  - change ((c :: c' :: s) ++ NL :: t) with (c :: c' :: (s ++ NL :: t)).
    cbn [Re.sub_from]. rewrite m_single_break_second.
    + change ((c :: c' :: s) ++ NL :: NL :: t)
        with (c :: ((c' :: s) ++ NL :: NL :: t)).
      f_equal. apply IH; [discriminate |].
      intros Hin. apply Hns. simpl. auto.
    + intros ->. apply Hns. simpl. auto.
Qed.

(** A double break is left as it is. *)
Lemma widen_double (s t : str) :
  s <> [] -> ~ In NL s -> ~ In NL t ->
  Re.sub Re.m_single_break (s ++ NL :: NL :: t) = s ++ NL :: NL :: t.
Proof.
  intros Hs Hns Hnt. unfold Re.sub.
  induction s as [| c s IH]; [contradiction |].
  destruct s as [| c' s].
  - change ([c] ++ NL :: NL :: t) with (c :: NL :: NL :: t).
    cbn [Re.sub_from]. rewrite m_single_break_third.
    rewrite m_single_break_first.
    f_equal. f_equal.
    destruct t as [| d t]; [reflexivity |].
    cbn [Re.sub_from]. rewrite m_single_break_first. f_equal.
    apply (widen_plain (d :: t)). exact Hnt.
  - change ((c :: c' :: s) ++ NL :: NL :: t)
      with (c :: c' :: (s ++ NL :: NL :: t)).
    cbn [Re.sub_from]. rewrite m_single_break_second.
    + f_equal. apply IH; [discriminate |].
      intros Hin. apply Hns. simpl. auto.
    + intros ->. apply Hns. simpl. auto.
Qed.

(** *** The output for two lines joined by one break *)

Lemma sub_from_skip (m : str -> option (str * nat)) (s : str) (k : nat) :
  Re.sub_from m k s = Re.sub_from m 0 (skipn k s).
Proof.
  revert k. induction s as [| c s IH]; intros k.
  - rewrite skipn_nil. reflexivity.
  - destruct k as [| k]; [reflexivity |]. simpl. apply IH.
Qed.

Lemma collapse_other (c : char) (y : str) :
  c <> NL ->
  Re.sub Re.m_blank_run (c :: y) = c :: Re.sub Re.m_blank_run y.
Proof.
  intros Hc. unfold Re.sub. simpl. unfold Re.m_blank_run. simpl.
  apply N.eqb_neq in Hc. rewrite Hc. reflexivity.
Qed.

Lemma collapse_break (y : str) :
  Re.sub Re.m_blank_run (NL :: y) =
    let run := Re.takewhile (fun c => (c =? NL)%N) y in
    if 3 <=? S (length run)
    then NL :: NL :: Re.sub Re.m_blank_run (skipn (length run) y)
    else NL :: Re.sub Re.m_blank_run y.
Proof.
  unfold Re.sub at 1. cbn [Re.sub_from]. unfold Re.m_blank_run at 1.
  cbn [Re.takewhile]. rewrite N.eqb_refl. cbn [length].
  destruct (3 <=? S (length (Re.takewhile (fun c => (c =? NL)%N) y)));
    [| reflexivity].
  cbn [pred app]. rewrite sub_from_skip. reflexivity.
Qed.

(** The output starts with a break when the input does. *)
Lemma collapse_head (y : str) :
  exists w, Re.sub Re.m_blank_run (NL :: y) = NL :: w.
Proof.
  rewrite collapse_break. cbn zeta.
  destruct (3 <=? S (length (Re.takewhile (fun c => (c =? NL)%N) y)));
    eauto.
Qed.

Lemma startswith_blank (a : char) (y : str) :
  startswith [NL; NL] (a :: y) = true -> a = NL /\ exists y', y = NL :: y'.
Proof.
  cbn [startswith]. intros H. apply andb_true_iff in H. destruct H as [Ha H].
  apply N.eqb_eq in Ha. split; [symmetry; exact Ha |].
  destruct y as [| b y]; [discriminate |].
  apply andb_true_iff in H. destruct H as [Hb _].
  apply N.eqb_eq in Hb. subst b. eauto.
Qed.

(** The output holds an empty line when the input does. *)
Lemma collapse_keeps_blank (y : str) :
  contains [NL; NL] y = true ->
  contains [NL; NL] (Re.sub Re.m_blank_run y) = true.
Proof.
  induction y as [| c y IH]; [discriminate |].
  intros Hc. cbn [contains] in Hc. apply orb_true_iff in Hc.
  destruct (N.eq_dec c NL) as [-> | Hne].
  - rewrite collapse_break. cbn zeta.
    destruct (3 <=? S (length (Re.takewhile (fun c => (c =? NL)%N) y)));
      [reflexivity |].
    destruct Hc as [Hc | Hc].
    + apply startswith_blank in Hc. destruct Hc as (_ & y' & ->).
      destruct (collapse_head y') as [w ->]. reflexivity.
    + cbn [contains]. apply orb_true_iff. right. apply IH, Hc.
  - rewrite collapse_other by exact Hne.
    destruct Hc as [Hc | Hc].
    + apply startswith_blank in Hc. destruct Hc as [Hc _]. contradiction.
    + cbn [contains]. apply orb_true_iff. right. apply IH, Hc.
Qed.

Lemma last_skipn (y : str) (k : nat) :
  skipn k y <> [] -> last (skipn k y) 0%N = last y 0%N.
Proof.
  revert k. induction y as [| c y IH]; intros k Hne.
  - rewrite skipn_nil in Hne. contradiction.
  - destruct k as [| k]; [reflexivity |]. simpl skipn in *.
    rewrite (IH k Hne). destruct y; [| reflexivity].
    rewrite skipn_nil in Hne. contradiction.
Qed.

(** The output ends with a break when the input does. *)
Lemma collapse_last (n : nat) (y : str) :
  length y <= n ->
  last y 0%N = NL -> last (Re.sub Re.m_blank_run y) 0%N = NL.
Proof.
  revert y. induction n as [| n IH]; intros y Hlen Hlast.
  - destruct y; [discriminate | simpl in Hlen; lia].
  - destruct y as [| c y]; [discriminate |]. simpl in Hlen.
    assert (Htail : y <> [] -> last (Re.sub Re.m_blank_run y) 0%N = NL).
    { intros Hy. apply IH; [lia |]. destruct y; [contradiction |].
      exact Hlast. }
    assert (Hcons : forall a w, last w 0%N = NL -> last (a :: w) 0%N = NL).
    { intros a w Hw. destruct w; [discriminate | exact Hw]. }
    destruct (N.eq_dec c NL) as [-> | Hne].
    + rewrite collapse_break. cbn zeta.
      set (run := Re.takewhile (fun c => (c =? NL)%N) y).
      destruct (3 <=? S (length run)).
      * destruct (skipn (length run) y) as [| d r] eqn:Er; [reflexivity |].
        apply Hcons, Hcons. apply IH.
        { rewrite <- Er, length_skipn. lia. }
        rewrite <- Er. rewrite last_skipn by (rewrite Er; discriminate).
        destruct y; [discriminate | exact Hlast].
      * destruct y as [| d y]; [reflexivity |].
        apply Hcons, Htail. discriminate.
    + rewrite collapse_other by exact Hne.
      destruct y as [| d y]; [simpl in Hlast; contradiction |].
      apply Hcons, Htail. discriminate.
Qed.

Lemma split_nl_joined (s r : str) :
  ~ In NL s -> split_nl (s ++ NL :: r) = s :: split_nl r.
Proof.
  induction s as [| c s IH]; intros Hs.
  - reflexivity.
  - simpl. destruct (N.eqb_spec c NL) as [-> | _].
    + exfalso. apply Hs. simpl. auto.
    + rewrite IH; [reflexivity |]. intros Hin. apply Hs. simpl. auto.
Qed.

(** An iteration only adds lines. *)
Definition extends (st st' : state) : Prop :=
  exists extra, formatted_lines st' = formatted_lines st ++ extra.

Lemma extends_refl (st : state) : extends st st.
Proof. exists []. symmetry. apply app_nil_r. Qed.

Lemma extends_append (l : str) (st st' : state) :
  extends st st' -> extends st (append l st').
Proof.
  intros [extra H]. exists (extra ++ [l]). simpl. rewrite H.
  symmetry. apply app_assoc.
Qed.

Lemma extends_pad_after (rest : list str) (st st' : state) :
  extends st st' -> extends st (pad_after rest st').
Proof.
  unfold pad_after. destruct (next_nonblank rest);
    auto using extends_append.
Qed.

Lemma extends_set_prev_was_empty (b : bool) (st st' : state) :
  extends st st' -> extends st (set_prev_was_empty b st').
Proof. exact (fun H => H). Qed.

Lemma extends_set_in_list (b : bool) (st st' : state) :
  extends st st' -> extends st (set_in_list b st').
Proof. exact (fun H => H). Qed.

Lemma extends_set_list_indent (n : nat) (st st' : state) :
  extends st st' -> extends st (set_list_indent n st').
Proof. exact (fun H => H). Qed.

Create HintDb lines.

#[local] Hint Resolve extends_refl extends_append extends_pad_after
  extends_set_prev_was_empty extends_set_in_list extends_set_list_indent
  : lines.

Lemma other_line_extends (st0 st st' : state) (line : str) :
  extends st0 st -> other_line st line = Ok st' -> extends st0 st'.
Proof.
  intros Hext. unfold other_line.
  set (line' := _process_inline_formatting (Re.sub Re.m_bold_colon line)).
  destruct (in_list st
            && negb (Re.bullet_match line' || Re.numbered_match line')).
  - destruct (truthy (strip line')).
    + destruct (last_line (set_in_list false st)) as [l | e];
        [| discriminate].
      simpl. destruct (negb (str_eqb l [])); intros [= <-];
        auto with lines.
    + simpl. intros [= <-]. auto with lines.
  - simpl. intros [= <-]. auto with lines.
Qed.

Lemma step_extends (st st' : state) (line : str) (rest : list str) :
  step st line rest = Ok st' -> extends st st'.
Proof.
  unfold step.
  repeat match goal with
         | |- context [if ?b then _ else _] => destruct b
         | |- context [match Re.number_group ?l with _ => _ end] =>
             destruct (Re.number_group l)
         end;
    try (intros [= <-]; auto 8 with lines).
  all: apply other_line_extends; auto with lines.
Qed.

(** The first line, when it is not blank and a blank line follows, gives
    one emitted line. *)
Lemma step_first_line (s : str) (rest : list str) :
  truthy (strip s) = true ->
  next_nonblank rest = false ->
  exists st x,
    step initial s rest = Ok st /\ formatted_lines st = [x] /\
    prev_was_empty st = false.
Proof.
  intros Htruthy Hnext. unfold step, pad_after, other_line.
  rewrite Htruthy, Hnext.
  cbn [negb in_list set_prev_was_empty initial andb bind].
  repeat match goal with
         | |- context [if ?b then _ else _] => destruct b
         | |- context [match Re.number_group ?l with _ => _ end] =>
             destruct (Re.number_group l)
         end;
    do 2 eexists; (split; [reflexivity | split; reflexivity]).
Qed.

Lemma plain_joined_no_blank (s t : str) :
  s <> [] -> ~ In NL s -> ~ In NL t ->
  contains [NL; NL] (s ++ NL :: t) = false.
Proof.
  intros Hs Hns Hnt. induction s as [| c s IH]; [contradiction |].
  assert (Hc : (NL =? c)%N = false).
  { apply N.eqb_neq. intros <-. apply Hns. simpl. auto. }
  cbn [app contains startswith]. rewrite Hc. cbn [andb orb].
  destruct s as [| c' s].
  - cbn [app contains startswith]. rewrite N.eqb_refl.
    destruct t as [| d t]; [reflexivity |].
    assert (Hd : (NL =? d)%N = false).
    { apply N.eqb_neq. intros <-. apply Hnt. simpl. auto. }
    cbn [andb orb startswith contains]. rewrite Hd. cbn [andb orb].
    apply not_true_iff_false. intros Hin.
    assert (Hall : forall u, ~ In NL u -> contains [NL; NL] u = false).
    { clear. induction u as [| a u IHu]; intros Hu; [reflexivity |].
      cbn [contains startswith].
      assert (Ha : (NL =? a)%N = false).
      { apply N.eqb_neq. intros <-. apply Hu. simpl. auto. }
      rewrite Ha. cbn [andb orb]. apply IHu. intros H. apply Hu.
      simpl. auto. }
    rewrite Hall in Hin; [discriminate |].
    intros H. apply Hnt. simpl. auto.
  - apply IH; [discriminate |]. intros H. apply Hns. simpl. auto.
Qed.

Lemma contains_blank_app (x z : str) :
  contains [NL; NL] (x ++ NL :: NL :: z) = true.
Proof.
  induction x as [| a x IH]; [reflexivity |].
  cbn [app contains]. rewrite IH. apply orb_true_r.
Qed.

(** Two lines joined by one break never come out as they went in. *)
Lemma joined_lines_changed (s t : str) :
  s <> [] -> t <> [] -> ~ In NL s -> ~ In NL t ->
  _format_markdown_for_slack (s ++ NL :: t) <> Ok (s ++ NL :: t).
Proof.
  intros Hs Ht Hns Hnt.
  unfold _format_markdown_for_slack.
  rewrite widen_single by assumption.
  rewrite split_nl_joined by assumption.
  change (split_nl (NL :: t)) with ([] :: split_nl t).
  rewrite split_nl_plain by assumption.
  cbn [loop].
  assert (Hfirst : exists c s', s = c :: s' /\ c <> NL).
  { destruct s as [| c s']; [contradiction |].
    exists c, s'. split; [reflexivity |]. intros ->. apply Hns.
    simpl. auto. }
  destruct Hfirst as (c & s' & Es & Hc).
  destruct (truthy (strip s)) eqn:Hblank.
  - destruct (step_first_line s [[]; t] Hblank eq_refl)
      as (st1 & x & -> & Hl1 & Hp1).
    cbn [bind]. unfold step at 1. cbn [strip rstrip lstrip rev truthy negb].
    rewrite Hp1. cbn [negb bind].
    destruct (step (set_prev_was_empty true (append [] st1)) t [])
      as [st3 | e] eqn:E3; [| discriminate].
    cbn [bind]. destruct (step_extends _ _ _ _ E3) as [extra Hl3].
    cbn [formatted_lines set_prev_was_empty append] in Hl3.
    rewrite Hl1 in Hl3. rewrite Hl3. cbn [app].
    intros [= Hout].
    destruct extra as [| y extra].
    + cbn [join_nl] in Hout.
      assert (Hlast : last (Re.sub Re.m_blank_run (x ++ [NL])) 0%N = NL).
      { apply (collapse_last (length (x ++ [NL]))); [lia |].
        apply last_last. }
      rewrite Hout in Hlast.
      destruct t as [| d t] using rev_ind; [contradiction |].
      change (s ++ NL :: t ++ [d]) with (s ++ (NL :: t) ++ [d]) in Hlast.
      rewrite app_assoc, last_last in Hlast. subst d.
      apply Hnt. apply in_or_app. right. simpl. auto.
    + assert (Hno : contains [NL; NL] (s ++ NL :: t) = false)
        by (apply plain_joined_no_blank; assumption).
      rewrite <- Hout in Hno. apply not_true_iff_false in Hno.
      apply Hno, collapse_keeps_blank.
      exact (contains_blank_app x (join_nl (y :: extra))).
  - assert (Estep : step initial s [[]; t]
                    = Ok (set_prev_was_empty true (append [] initial))).
    { unfold step. rewrite Hblank. reflexivity. }
    rewrite Estep. cbn [bind].
    unfold step at 1. cbn [strip rstrip lstrip rev truthy negb].
    cbn [prev_was_empty set_prev_was_empty negb bind].
    destruct (step (set_prev_was_empty true (append [] initial)) t [])
      as [st3 | e] eqn:E3; [| discriminate].
    cbn [bind]. destruct (step_extends _ _ _ _ E3) as [extra Hl3].
    cbn [formatted_lines set_prev_was_empty append initial app] in Hl3.
    rewrite Hl3. intros [= Hout]. rewrite Es in Hout.
    destruct extra as [| y extra].
    + cbn [join_nl] in Hout. discriminate.
    + change (join_nl ([] :: y :: extra))
        with (NL :: join_nl (y :: extra)) in Hout.
      destruct (collapse_head (join_nl (y :: extra))) as [w Hw].
      rewrite Hw in Hout. injection Hout as Hc' _. congruence.
Qed.

(** C10: two lines joined by one line break are transduced as the same
    two lines joined by two, because the first pass doubles the break; so
    the transducer is never the identity on two lines joined by one break,
    for instance on the plain lines [a] and [b]. *)
Theorem single_break_widened (s t : str) :
  s <> [] -> t <> [] -> ~ In NL s -> ~ In NL t ->
  Re.sub Re.m_single_break (s ++ NL :: t) = s ++ NL :: NL :: t /\
  _format_markdown_for_slack (s ++ NL :: t)
    = _format_markdown_for_slack (s ++ NL :: NL :: t) /\
  _format_markdown_for_slack (s ++ NL :: t) <> Ok (s ++ NL :: t) /\
  _format_markdown_for_slack (lit "a" ++ NL :: lit "b")
    = Ok (lit "a" ++ NL :: NL :: lit "b").
Proof.
  intros Hs Ht Hns Hnt.
  split; [apply widen_single; assumption |].
  split; [| split; [apply joined_lines_changed; assumption
                   | vm_compute; reflexivity]].
  unfold _format_markdown_for_slack.
  rewrite widen_single, widen_double by assumption. reflexivity.
Qed.

Lemma single_break_widened_witness :
  _format_markdown_for_slack (lit "first line" ++ NL :: lit "second line")
  = _format_markdown_for_slack
      (lit "first line" ++ NL :: NL :: lit "second line").
Proof.
  apply (single_break_widened (lit "first line") (lit "second line")).
  - vm_compute. discriminate.
  - vm_compute. discriminate.
  - vm_compute. intuition discriminate.
  - vm_compute. intuition discriminate.
Defined.

(** *** Section titles *)

Definition key_findings : str := lit "Key Findings:".

(** C5, the colon: the title is emitted with its colon, as the unit test
    of the section headers expects. *)
Lemma section_title_keeps_colon :
  strip key_findings <> [] /\
  startswith_any section_markers (strip key_findings) = false /\
  endswith (lit ":") (strip key_findings) = true /\
  length (strip key_findings) < 50 /\
  _format_markdown_for_slack key_findings = Ok (lit "*Key Findings:*") /\
  _format_markdown_for_slack key_findings <> Ok (lit "*Key Findings*").
Proof.
  repeat split; try (vm_compute; (reflexivity || discriminate || lia)).
Qed.

(** C5 (as amended): a line that is not blank, whose stripped text starts
    with none of the markers, ends with a colon and has fewer than 50
    characters, is emitted as its stripped text, colon kept, between two
    asterisks, followed by an empty line when the next line is not blank;
    the list state is left as it was. *)
Theorem section_title_bold (st : state) (line : str) (rest : list str) :
  strip line <> [] ->
  startswith_any section_markers (strip line) = false ->
  endswith (lit ":") (strip line) = true ->
  length (strip line) < 50 ->
  exists st',
    step st line rest = Ok st' /\
    formatted_lines st' =
      formatted_lines st ++ [lit "*" ++ strip line ++ lit "*"]
        ++ (if next_nonblank rest then [[]] else []) /\
    in_list st' = in_list st /\
    list_indent st' = list_indent st /\
    prev_was_empty st' = false.
Proof.
  intros Hne Hmark Hcolon Hlen.
  assert (Htruthy : truthy (strip line) = true).
  { destruct (strip line); [contradiction | reflexivity]. }
  assert (Htitle : is_section_title line = true).
  { unfold is_section_title. rewrite Htruthy, Hmark, Hcolon. simpl.
    apply Nat.ltb_lt. exact Hlen. }
  unfold step. rewrite Htruthy, Htitle. simpl.
  eexists. split; [reflexivity |].
  unfold pad_after. destruct (next_nonblank rest); simpl.
  - rewrite <- app_assoc. auto.
  - auto.
Qed.

Lemma section_title_bold_witness :
  exists st',
    step initial key_findings [lit "Transformers scale."] = Ok st' /\
    formatted_lines st' = [lit "*Key Findings:*"; []].
Proof.
  destruct (section_title_bold initial key_findings
              [lit "Transformers scale."])
    as (st' & Hstep & Hlines & _).
  - vm_compute. discriminate.
  - vm_compute. reflexivity.
  - vm_compute. reflexivity.
  - vm_compute. lia.
  - exists st'. split; [exact Hstep |]. rewrite Hlines. reflexivity.
Defined.

(** *** A second pass *)

(** The asterisks and underscores of a text, in order. *)
Definition markers (s : str) : str :=
  filter (fun c => (c =? 42) || (c =? 95))%N s.

(** C8: a second pass can add markers (a bullet line that ends with a
    colon becomes a bold title) and can remove markers (bold spans that
    touch are read as double asterisks). *)
Lemma second_pass_changes_markers :
  (_format_markdown_for_slack (lit "- Notes:") = Ok (bullet ++ lit " Notes:")
   /\ _format_markdown_for_slack (bullet ++ lit " Notes:")
      = Ok (lit "*" ++ bullet ++ lit " Notes:*")
   /\ markers (bullet ++ lit " Notes:") = []
   /\ markers (lit "*" ++ bullet ++ lit " Notes:*") = lit "**") /\
  (_format_markdown_for_slack (lit "**a****b****c**") = Ok (lit "*a**b**c*")
   /\ _format_markdown_for_slack (lit "*a**b**c*") = Ok (lit "*a*b*c*")
   /\ markers (lit "*a**b**c*") <> markers (lit "*a*b*c*")).
Proof.
  repeat split; vm_compute; (reflexivity || discriminate).
Qed.

Lemma inline_formatting_plain (s : str) :
  contains (lit "**") s = false ->
  contains (lit "__") s = false ->
  _process_inline_formatting s = s.
Proof.
  intros Hb Hi. unfold _process_inline_formatting.
  rewrite (sub_never Re.m_bold_key s).
  2: { intros k. apply m_bold_key_closed, contains_false_suffix, Hb. }
  rewrite (sub_never Re.m_bold s).
  2: { intros k. apply m_delimited_closed, contains_false_suffix, Hb. }
  apply sub_never.
  intros k. apply m_delimited_closed, contains_false_suffix, Hi.
Qed.

Lemma bold_colon_plain (s : str) :
  contains (lit "**") s = false -> Re.sub Re.m_bold_colon s = s.
Proof.
  intros Hb. apply sub_never.
  intros k. apply m_delimited_closed, contains_false_suffix, Hb.
Qed.

(** A text with no double asterisk and no double underscore is returned
    unchanged by [_process_inline_formatting]; when it is one line that is
    not blank and is neither a section title, a heading nor a list item,
    the transducer returns it unchanged. *)
Lemma plain_line_unchanged (s : str) :
  contains (lit "**") s = false ->
  contains (lit "__") s = false ->
  _process_inline_formatting s = s /\
  (~ In NL s ->
   strip s <> [] ->
   is_section_title s = false ->
   startswith (lit "# ") s = false ->
   startswith (lit "## ") s = false ->
   startswith (lit "### ") s = false ->
   Re.bullet_match s = false ->
   Re.numbered_match s = false ->
   _format_markdown_for_slack s = Ok s /\
   (r <- _format_markdown_for_slack s ;; _format_markdown_for_slack r)
     = _format_markdown_for_slack s).
Proof.
  intros Hb Hi. split; [apply inline_formatting_plain; assumption |].
  intros Hnl Hne Htitle H1 H2 H3 Hbul Hnum.
  assert (Hfix : _format_markdown_for_slack s = Ok s).
  { assert (Htruthy : truthy (strip s) = true).
    { destruct (strip s); [contradiction | reflexivity]. }
    unfold _format_markdown_for_slack.
    rewrite widen_plain, split_nl_plain by exact Hnl.
    assert (Hstep : exists st, step initial s [] = Ok st
                               /\ formatted_lines st = [s]).
    { unfold step. rewrite Htruthy. cbn [negb].
      rewrite Htitle, H1, H2, H3, Hbul, Hnum.
      destruct (startswith (lit "```") s);
        [eexists; split; reflexivity |].
      destruct (startswith (lit "`") s && endswith (lit "`") s
                && (2 <? length s));
        [eexists; split; reflexivity |].
      unfold other_line.
      rewrite bold_colon_plain, inline_formatting_plain by assumption.
      eexists; split; reflexivity. }
    destruct Hstep as (st & Hst & Hlines).
    simpl loop. rewrite Hst. simpl. rewrite Hlines. simpl.
    rewrite collapse_plain by exact Hnl. reflexivity. }
  split; [exact Hfix |]. rewrite Hfix. simpl. exact Hfix.
Qed.

End TransducerSpec.

(** ** The resolver *)

Module ResolverSpec.

(** *** Sorting *)

(** [a] is ranked no lower than [b]. *)
Definition ranked (key : Row -> Z) (a b : Row) : Prop := (key b <= key a)%Z.

Lemma insert_desc_perm (key : Row -> Z) (r : Row) (l : list Row) :
  Permutation (insert_desc key r l) (r :: l).
Proof.
  induction l as [| x l IH]; simpl.
  - apply Permutation_refl.
  - destruct (key x <=? key r)%Z.
    + apply Permutation_refl.
    + apply perm_trans with (x :: r :: l).
      * apply perm_skip, IH.
      * apply perm_swap.
Qed.

Lemma move_front_split (l1 l2 : list Row) (a : Row) :
  move_front (length l1) (l1 ++ a :: l2) = a :: l1 ++ l2.
Proof.
  unfold move_front.
  rewrite nth_error_app2, Nat.sub_diag by lia. simpl nth_error.
  rewrite firstn_app, firstn_all, Nat.sub_diag, firstn_O, app_nil_r.
  rewrite skipn_app, skipn_all2 by lia.
  replace (S (length l1) - length l1) with 1 by lia. reflexivity.
Qed.

Lemma move_front_perm (n : nat) (l : list Row) :
  Permutation (move_front n l) l.
Proof.
  destruct (nth_error l n) as [r |] eqn:E.
  - apply nth_error_split in E. destruct E as (l1 & l2 & -> & <-).
    rewrite move_front_split. apply Permutation_middle.
  - unfold move_front. rewrite E. apply Permutation_refl.
Qed.

Lemma moves_perm (moves : list nat) (l : list Row) :
  Permutation (fold_right move_front l moves) l.
Proof.
  induction moves as [| n moves IH]; simpl; [apply Permutation_refl |].
  eapply perm_trans; [apply move_front_perm | exact IH].
Qed.

Lemma insertions_perm (key : Row -> Z) (l : list Row) :
  Permutation (fold_right (insert_desc key) [] l) l.
Proof.
  induction l as [| r l IH]; simpl; [apply Permutation_refl |].
  apply perm_trans with (r :: fold_right (insert_desc key) [] l).
  - apply insert_desc_perm.
  - apply perm_skip, IH.
Qed.

Lemma sort_values_perm (tie_order : list Z -> list nat) (key : Row -> Z)
      (df : DataFrame) :
  Permutation (rows (sort_values tie_order key df)) (rows df).
Proof.
  unfold sort_values. simpl.
  eapply perm_trans; [apply insertions_perm | apply moves_perm].
Qed.

Lemma insert_desc_sorted (key : Row -> Z) (r : Row) (l : list Row) :
  StronglySorted (ranked key) l ->
  StronglySorted (ranked key) (insert_desc key r l).
Proof.
  induction l as [| x l IH]; intros Hs; simpl.
  - constructor; constructor.
  - apply StronglySorted_inv in Hs. destruct Hs as [Hl Hx].
    destruct (Z.leb_spec (key x) (key r)) as [Hle | Hgt].
    + constructor.
      * constructor; assumption.
      * constructor; [exact Hle |].
        eapply Forall_impl; [| exact Hx].
        unfold ranked. intros a Ha. lia.
    + constructor; [apply IH, Hl |].
      eapply Permutation_Forall.
      * apply Permutation_sym, insert_desc_perm.
      * constructor; [unfold ranked; lia | exact Hx].
Qed.

Lemma insertions_sorted (key : Row -> Z) (l : list Row) :
  StronglySorted (ranked key) (fold_right (insert_desc key) [] l).
Proof.
  induction l as [| r l IH]; simpl; [constructor |].
  apply insert_desc_sorted, IH.
Qed.

Lemma sort_values_sorted (tie_order : list Z -> list nat) (key : Row -> Z)
      (df : DataFrame) :
  StronglySorted (ranked key) (rows (sort_values tie_order key df)).
Proof. unfold sort_values. simpl. apply insertions_sorted. Qed.

(** Rows that are sorted already are inserted where they stand. *)
Lemma insertions_of_sorted (key : Row -> Z) (l : list Row) :
  StronglySorted (ranked key) l -> fold_right (insert_desc key) [] l = l.
Proof.
  induction 1 as [| r l Hs IH Hall]; simpl; [reflexivity |].
  rewrite IH. destruct l as [| x l]; [reflexivity |]. simpl.
  apply Forall_inv in Hall. unfold ranked in Hall.
  destruct (Z.leb_spec (key x) (key r)); [reflexivity | lia].
Qed.

(** Every order of some of the rows can be brought to the front. *)
Lemma moves_reach (s rest l : list Row) :
  Permutation l (s ++ rest) ->
  exists moves l1,
    fold_right move_front l moves = s ++ l1 /\ Permutation l1 rest.
Proof.
  revert rest. induction s as [| a s IH]; intros rest Hp.
  - exists [], l. split; [reflexivity | exact Hp].
  - assert (Hp' : Permutation l (s ++ a :: rest)).
    { eapply perm_trans; [exact Hp |]. apply Permutation_middle. }
    destruct (IH _ Hp') as (moves & l1 & Hm & Hl1).
    assert (Hin : In a l1).
    { apply (Permutation_in _ (Permutation_sym Hl1)). left. reflexivity. }
    apply in_split in Hin. destruct Hin as (x & y & ->).
    exists ((length s + length x) :: moves), (x ++ y). split.
    + simpl. rewrite Hm, (app_assoc s x (a :: y)), <- length_app.
      rewrite move_front_split. rewrite app_assoc. reflexivity.
    + apply Permutation_sym, Permutation_cons_app_inv with a.
      apply Permutation_sym, Hl1.
Qed.

(** Every order of the rows from the highest key down is what
    [sort_values] returns for some routine. *)
Lemma sort_values_any (key : Row -> Z) (df : DataFrame)
      (sorted : list Row) :
  Permutation (rows df) sorted ->
  StronglySorted (ranked key) sorted ->
  exists tie_order, rows (sort_values tie_order key df) = sorted.
Proof.
  intros Hp Hs.
  destruct (moves_reach sorted [] (rows df)) as (moves & l1 & Hm & Hl1).
  { rewrite app_nil_r. exact Hp. }
  apply Permutation_sym, Permutation_nil in Hl1. subst l1.
  rewrite app_nil_r in Hm.
  exists (fun _ => moves). unfold sort_values. simpl.
  rewrite Hm. apply insertions_of_sorted, Hs.
Qed.

Lemma filter_sorted (key : Row -> Z) (f : Row -> bool) (l : list Row) :
  StronglySorted (ranked key) l -> StronglySorted (ranked key) (filter f l).
Proof.
  induction l as [| x l IH]; intros Hs; simpl; [constructor |].
  apply StronglySorted_inv in Hs. destruct Hs as [Hl Hx].
  destruct (f x); [| apply IH, Hl].
  constructor; [apply IH, Hl |].
  apply Forall_forall. intros a Ha. apply filter_In in Ha.
  rewrite Forall_forall in Hx. apply Hx, Ha.
Qed.

Lemma filter_perm (f : Row -> bool) (l l' : list Row) :
  Permutation l l' -> Permutation (filter f l) (filter f l').
Proof.
  induction 1 as [| x l l' _ IH | x y l | l l' l'' _ IH1 _ IH2]; simpl.
  - constructor.
  - destruct (f x); [apply perm_skip |]; exact IH.
  - destruct (f x), (f y); try apply Permutation_refl. apply perm_swap.
  - eapply perm_trans; eassumption.
Qed.

Lemma has_column_sort (tie_order : list Z -> list nat) (key : Row -> Z) (df : DataFrame) (name : string) :
  has_column (sort_values tie_order key df) name = has_column df name.
Proof. reflexivity. Qed.

Lemma to_dict_sort (tie_order : list Z -> list nat) (key : Row -> Z) (df : DataFrame) (r : Row) :
  to_dict (sort_values tie_order key df) r = to_dict df r.
Proof. reflexivity. Qed.

(** *** The rows of one day *)

Lemma date_papers_sort_perm (tie_order : list Z -> list nat) (key : Row -> Z) (df : DataFrame) (day : str) :
  Permutation (date_papers (sort_values tie_order key df) day) (date_papers df day).
Proof.
  unfold date_papers. rewrite !has_column_sort.
  set (by_date := fun r => startswith day (r_date r)).
  set (by_created := fun r => str_eqb (created_day (r_created r)) day).
  pose proof (sort_values_perm tie_order key df) as Hp.
  pose proof (filter_perm by_date _ _ Hp) as Hd.
  pose proof (filter_perm by_created _ _ Hp) as Hc.
  destruct (has_column df "date").
  - destruct (filter by_date (rows (sort_values tie_order key df))) as [| a l] eqn:Ea;
      destruct (filter by_date (rows df)) as [| b l'] eqn:Eb.
    + destruct (has_column df "created"); [exact Hc | constructor].
    + apply Permutation_nil in Hd. discriminate.
    + apply Permutation_sym, Permutation_nil in Hd. discriminate.
    + exact Hd.
  - destruct (has_column df "created"); [exact Hc | constructor].
Qed.

Lemma date_papers_sort_sorted (tie_order : list Z -> list nat) (key : Row -> Z) (df : DataFrame) (day : str) :
  StronglySorted (ranked key) (date_papers (sort_values tie_order key df) day).
Proof.
  unfold date_papers.
  pose proof (sort_values_sorted tie_order key df) as Hs.
  destruct (has_column (sort_values tie_order key df) "date").
  - destruct (filter _ (rows (sort_values tie_order key df))) as [| a l] eqn:Ea.
    + destruct (has_column (sort_values tie_order key df) "created");
        [apply filter_sorted, Hs | constructor].
    + rewrite <- Ea. apply filter_sorted, Hs.
  - destruct (has_column (sort_values tie_order key df) "created");
      [apply filter_sorted, Hs | constructor].
Qed.

(** The first row of the day in the sorted table is a row of the day with
    the highest key. *)
Lemma date_papers_sort_head (tie_order : list Z -> list nat) (key : Row -> Z) (df : DataFrame) (day : str)
      (top : Row) (others : list Row) :
  date_papers (sort_values tie_order key df) day = top :: others ->
  In top (date_papers df day) /\
  forall r, In r (date_papers df day) -> (key r <= key top)%Z.
Proof.
  intros Hd.
  pose proof (date_papers_sort_perm tie_order key df day) as Hp.
  pose proof (date_papers_sort_sorted tie_order key df day) as Hs.
  rewrite Hd in Hp, Hs. split.
  - eapply Permutation_in; [exact Hp | simpl; auto].
  - intros r Hr.
    apply (Permutation_in _ (Permutation_sym Hp)) in Hr.
    apply StronglySorted_inv in Hs. destruct Hs as [_ Hall].
    destruct Hr as [<- | Hr]; [lia |].
    rewrite Forall_forall in Hall. apply Hall, Hr.
Qed.

(** *** The look-back loop *)

Section WithJson.

Variable json_loads : str -> option json.
Variable tie_order : list Z -> list nat.

(** The loop returns at the first offset whose day has rows. *)
Lemma look_back_nearest (df : DataFrame) (D : date) (n a k : nat)
      (top : Row) (others : list Row) :
  a <= k < a + n ->
  (1 <= D - Z.of_nat k)%Z ->
  (forall j, a <= j < k -> date_papers df (strftime (D - Z.of_nat j)%Z) = []) ->
  date_papers df (strftime (D - Z.of_nat k)%Z) = top :: others ->
  look_back json_loads df D (seq a n)
  = Ok (Some (coerce_authors json_loads (to_dict df top))).
Proof.
  revert a. induction n as [| n IH]; intros a Hk HD Hnone Hday; [lia |].
  simpl. unfold minus_days.
  destruct (Z.ltb_spec (D - Z.of_nat a) 1) as [Hlt | _]; [lia |]. simpl.
  destruct (Nat.eq_dec a k) as [-> | Hne].
  - rewrite Hday. reflexivity.
  - rewrite (Hnone a) by lia.
    apply IH; try assumption; [lia |].
    intros j Hj. apply Hnone. lia.
Qed.

(** The loop ends without a row when no day of the window has one. *)
Lemma look_back_none (df : DataFrame) (D : date) (n a : nat) :
  (forall j, a <= j < a + n ->
             (1 <= D - Z.of_nat j)%Z /\
             date_papers df (strftime (D - Z.of_nat j)%Z) = []) ->
  look_back json_loads df D (seq a n) = Ok None.
Proof.
  revert a. induction n as [| n IH]; intros a Hnone; [reflexivity |].
  simpl. unfold minus_days.
  destruct (Hnone a) as [Hrange Hday]; [lia |].
  destruct (Z.ltb_spec (D - Z.of_nat a) 1) as [Hlt | _]; [lia |]. simpl.
  rewrite Hday.
  apply IH. intros j Hj. apply Hnone. lia.
Qed.

(** *** The examples *)

Definition row_far : Row :=
  mkRow [] (lit "2403.00002v1") (lit "Far") (AuthorsList [lit "B"])
    100 0 (lit "2024-03-09") [].

Definition row_near : Row :=
  mkRow [] (lit "2403.00001v2") (lit "Near") (AuthorsList [lit "A"])
    5 0 (lit "2024-03-10") [].

Definition two_days : DataFrame :=
  mkDataFrame ["arxiv_id"; "title"; "authors"; "upvotes"; "date"]%string
    [row_far; row_near].

Definition both_loaded : sources := mkSources (Ok two_days) (Ok two_days).

Definition legacy_only : sources :=
  mkSources (Raise (Exception (lit "Dataset not found"))) (Ok two_days).

(** The scan of a table sorted by [key] returns, at the nearest day with
    rows, a row of that day with the highest key. *)
Lemma look_back_sorted (key : Row -> Z) (df : DataFrame) (D : date) (W : Z)
      (k : nat) :
  (Z.of_nat k <= W)%Z ->
  (1 <= D - Z.of_nat k)%Z ->
  date_papers df (strftime (D - Z.of_nat k)%Z) <> [] ->
  (forall j, j < k -> date_papers df (strftime (D - Z.of_nat j)%Z) = []) ->
  exists top,
    look_back json_loads (sort_values tie_order key df) D (offsets W)
    = Ok (Some (coerce_authors json_loads (to_dict df top))) /\
    In top (date_papers df (strftime (D - Z.of_nat k)%Z)) /\
    forall r, In r (date_papers df (strftime (D - Z.of_nat k)%Z)) ->
              (key r <= key top)%Z.
Proof.
  intros Hk Hrange Hday Hnone.
  set (sorted := sort_values tie_order key df).
  assert (Hnone' : forall j, 0 <= j < k ->
             date_papers sorted (strftime (D - Z.of_nat j)%Z) = []).
  { intros j Hj. apply Permutation_nil, Permutation_sym.
    rewrite <- (Hnone j) by lia. apply date_papers_sort_perm. }
  destruct (date_papers sorted (strftime (D - Z.of_nat k)%Z))
    as [| top others] eqn:Etop.
  { exfalso. apply Hday. apply Permutation_nil.
    rewrite <- Etop. apply date_papers_sort_perm. }
  exists top. split.
  - unfold offsets.
    rewrite (look_back_nearest sorted D (Z.to_nat (W + 1)) 0 k top others);
      try assumption; [reflexivity | lia].
  - apply (date_papers_sort_head tie_order key df _ top others Etop).
Qed.

(** The entries of the dictionary of a row: one for each column of the
    table, with the value of the row; the coercion touches [authors]
    only, and leaves a list of names as it is. *)
Lemma returned_entries (df : DataFrame) (top : Row) :
  let p := coerce_authors json_loads (to_dict df top) in
  d_paper_id p
  = (if has_column df "paper_id" then Some (r_paper_id top) else None) /\
  d_arxiv_id p
  = (if has_column df "arxiv_id" then Some (r_arxiv_id top) else None) /\
  d_title p = (if has_column df "title" then Some (r_title top) else None) /\
  d_upvotes p
  = (if has_column df "upvotes" then Some (r_upvotes top) else None) /\
  d_date p = (if has_column df "date" then Some (r_date top) else None) /\
  (forall names,
      has_column df "authors" = true ->
      r_authors top = AuthorsList names ->
      d_authors p = Some (AuthorsList names)).
Proof.
  unfold coerce_authors, to_dict, cell. simpl.
  destruct (has_column df "authors").
  - destruct (r_authors top) as [names | text | value]; simpl;
      repeat split; try reflexivity; intros names' _ H; try discriminate;
      congruence.
  - simpl. repeat split; intros names' H; discriminate.
Qed.

(** The search over the primary tables. *)
Lemma primary_nearest (src : sources) (target_date : str) (W : Z)
      (D : date) (df : DataFrame) (k : nat) :
  strptime target_date = Ok D ->
  primary src = Ok df ->
  has_column df "upvotes" = true ->
  (Z.of_nat k <= W)%Z ->
  (1 <= D - Z.of_nat k)%Z ->
  date_papers df (strftime (D - Z.of_nat k)%Z) <> [] ->
  (forall j, j < k -> date_papers df (strftime (D - Z.of_nat j)%Z) = []) ->
  exists top,
    _get_top_paper_by_date json_loads tie_order src target_date W
    = Ok (coerce_authors json_loads (to_dict df top)) /\
    In top (date_papers df (strftime (D - Z.of_nat k)%Z)) /\
    forall r, In r (date_papers df (strftime (D - Z.of_nat k)%Z)) ->
              (r_upvotes r <= r_upvotes top)%Z.
Proof.
  intros HD Hsrc Hup Hk Hrange Hday Hnone.
  destruct (look_back_sorted r_upvotes df D W k Hk Hrange Hday Hnone)
    as (top & Hlook & Hin & Hmax).
  exists top. split; [| split; assumption].
  unfold _get_top_paper_by_date. rewrite HD, Hsrc, Hup. simpl.
  rewrite Hlook. reflexivity.
Qed.

(** The dictionary of the paper of 2024-03-10 in the example. *)
Definition paper_near : top_paper :=
  mkTopPaper None (Some (lit "2403.00001v2")) (Some (lit "Near"))
    (Some (AuthorsList [lit "A"])) (Some 5%Z) (Some (lit "2024-03-10")).

(** C1: the table is sorted by upvotes, highest first, before the scan;
    when [D - k] is the nearest day of the window with rows, the resolver
    returns the dictionary of a row of that day with the highest upvotes
    of the day, whatever the days before it hold: its upvotes are those of
    that row, and so are its identifiers, title and date for the columns
    the table has, and its authors when they are a list of names.  With
    100 upvotes on 2024-03-09 and 5 on 2024-03-10 the paper of 2024-03-10
    is returned, with its 5 upvotes. *)
Theorem nearest_date_top_paper (src : sources) (target_date : str) (W : Z)
        (D : date) (df : DataFrame) (k : nat) :
  strptime target_date = Ok D ->
  primary src = Ok df ->
  has_column df "upvotes" = true ->
  (Z.of_nat k <= W)%Z ->
  (1 <= D - Z.of_nat k)%Z ->
  date_papers df (strftime (D - Z.of_nat k)%Z) <> [] ->
  (forall j, j < k -> date_papers df (strftime (D - Z.of_nat j)%Z) = []) ->
  StronglySorted (ranked r_upvotes)
    (rows (sort_values tie_order r_upvotes df)) /\
  (exists top p,
      _get_top_paper_by_date json_loads tie_order src target_date W = Ok p /\
      p = coerce_authors json_loads (to_dict df top) /\
      In top (date_papers df (strftime (D - Z.of_nat k)%Z)) /\
      (forall r, In r (date_papers df (strftime (D - Z.of_nat k)%Z)) ->
                 (r_upvotes r <= r_upvotes top)%Z) /\
      d_upvotes p = Some (r_upvotes top) /\
      d_paper_id p
      = (if has_column df "paper_id" then Some (r_paper_id top) else None) /\
      d_arxiv_id p
      = (if has_column df "arxiv_id" then Some (r_arxiv_id top) else None) /\
      d_title p
      = (if has_column df "title" then Some (r_title top) else None) /\
      d_date p
      = (if has_column df "date" then Some (r_date top) else None) /\
      (forall names,
          has_column df "authors" = true ->
          r_authors top = AuthorsList names ->
          d_authors p = Some (AuthorsList names))) /\
  (_get_top_paper_by_date json_loads tie_order both_loaded
     (lit "2024-03-10") 7
   = Ok paper_near /\
   d_upvotes paper_near = Some 5%Z /\
   In row_far (date_papers two_days (lit "2024-03-09")) /\
   r_upvotes row_far = 100%Z).
Proof.
  intros HD Hsrc Hup Hk Hrange Hday Hnone.
  split; [apply sort_values_sorted |]. split.
  - destruct (primary_nearest src target_date W D df k HD Hsrc Hup Hk
                Hrange Hday Hnone) as (top & Hres & Hin & Hmax).
    destruct (returned_entries df top) as (H1 & H2 & H3 & H4 & H5 & H6).
    rewrite Hup in H4.
    exists top, (coerce_authors json_loads (to_dict df top)).
    repeat (split; [assumption || reflexivity |]). exact H6.
  - split; [| repeat split; vm_compute; auto].
    destruct (primary_nearest both_loaded (lit "2024-03-10") 7 738955%Z
                two_days 0) as (top & Hres & Hin & _).
    + vm_compute. reflexivity.
    + reflexivity.
    + vm_compute. reflexivity.
    + simpl. lia.
    + simpl. lia.
    + vm_compute. discriminate.
    + intros j Hj. lia.
    + assert (Htop : top = row_near).
      { vm_compute in Hin. destruct Hin as [H | []]. symmetry. exact H. }
      rewrite Hres, Htop. reflexivity.
Qed.

(** The same over the fallback table, ranked by [upvotes] when it has the
    column and else by [score]; what the fallback returns passes through
    [_get_top_paper_by_date] unchanged. *)
Lemma legacy_nearest_date_top_paper (src : sources) (target_date : str)
      (W : Z) (D : date) (e : exn) (df : DataFrame) (k : nat) :
  strptime target_date = Ok D ->
  primary src = Raise e ->
  legacy src = Ok df ->
  has_column df "upvotes" || has_column df "score" = true ->
  (Z.of_nat k <= W)%Z ->
  (1 <= D - Z.of_nat k)%Z ->
  date_papers df (strftime (D - Z.of_nat k)%Z) <> [] ->
  (forall j, j < k -> date_papers df (strftime (D - Z.of_nat j)%Z) = []) ->
  let key := if has_column df "upvotes" then r_upvotes else r_score in
  exists top,
    _get_top_paper_by_date json_loads tie_order src target_date W
    = Ok (coerce_authors json_loads (to_dict df top)) /\
    In top (date_papers df (strftime (D - Z.of_nat k)%Z)) /\
    forall r, In r (date_papers df (strftime (D - Z.of_nat k)%Z)) ->
              (key r <= key top)%Z.
Proof.
  intros HD Hsrc Hleg Hcol Hk Hrange Hday Hnone key.
  destruct (look_back_sorted key df D W k Hk Hrange Hday Hnone)
    as (top & Hlook & Hin & Hmax).
  exists top. split; [| split; assumption].
  unfold _get_top_paper_by_date, _get_top_paper_from_legacy_dataset.
  rewrite HD, Hsrc, Hleg. cbn [bind try_except].
  subst key. destruct (has_column df "upvotes").
  - rewrite Hlook. reflexivity.
  - simpl in Hcol. rewrite Hcol, Hlook. reflexivity.
Qed.

(** *** Nothing in the window *)

Lemma primary_not_found (src : sources) (target_date : str) (W : Z)
      (D : date) (df : DataFrame) :
  strptime target_date = Ok D ->
  primary src = Ok df ->
  has_column df "upvotes" = true ->
  (forall j, (Z.of_nat j <= W)%Z ->
             (1 <= D - Z.of_nat j)%Z /\
             date_papers df (strftime (D - Z.of_nat j)%Z) = []) ->
  _get_top_paper_by_date json_loads tie_order src target_date W
  = Raise (not_found target_date W).
Proof.
  intros HD Hsrc Hup Hnone.
  unfold _get_top_paper_by_date. rewrite HD, Hsrc, Hup. simpl.
  unfold offsets. rewrite look_back_none; [reflexivity |].
  intros j Hj. destruct (Hnone j) as [Hrange Hday]; [lia |].
  split; [exact Hrange |].
  apply Permutation_nil, Permutation_sym.
  rewrite <- Hday. apply date_papers_sort_perm.
Qed.

Lemma legacy_not_found (src : sources) (target_date : str) (W : Z)
      (D : date) (df : DataFrame) :
  strptime target_date = Ok D ->
  legacy src = Ok df ->
  (forall j, (Z.of_nat j <= W)%Z ->
             (1 <= D - Z.of_nat j)%Z /\
             date_papers df (strftime (D - Z.of_nat j)%Z) = []) ->
  _get_top_paper_from_legacy_dataset json_loads tie_order src target_date W
  = Raise (not_found target_date W).
Proof.
  intros HD Hleg Hnone.
  unfold _get_top_paper_from_legacy_dataset. rewrite HD, Hleg.
  cbn [bind]. unfold offsets. rewrite look_back_none; [reflexivity |].
  intros j Hj. destruct (Hnone j) as [Hrange Hday]; [lia |].
  split; [exact Hrange |].
  destruct (has_column df "upvotes"); [| destruct (has_column df "score")];
    try exact Hday;
    apply Permutation_nil, Permutation_sym;
    rewrite <- Hday; apply date_papers_sort_perm.
Qed.

(** Whatever the fallback raises reaches the caller as a load failure. *)
Lemma legacy_failure_wrapped (src : sources) (target_date : str) (W : Z)
      (D : date) (e e2 : exn) :
  strptime target_date = Ok D ->
  primary src = Raise e ->
  _get_top_paper_from_legacy_dataset json_loads tie_order src target_date W = Raise e2 ->
  _get_top_paper_by_date json_loads tie_order src target_date W
  = Raise (ValueError (lit "Failed to load datasets: " ++ str_of_exn e2)).
Proof.
  intros HD Hsrc Hleg. unfold _get_top_paper_by_date.
  rewrite HD, Hsrc, Hleg. reflexivity.
Qed.

(** C2: with no paper within 7 days of 2025-03-20, the search over the
    primary tables raises the error of the empty window; the same search
    over the fallback table raises it too, and [_get_top_paper_by_date]
    turns it into the error of a failed load. *)
Theorem legacy_not_found_reported_as_load_failure :
  _get_top_paper_by_date json_loads tie_order both_loaded (lit "2025-03-20") 7
  = Raise (ValueError (lit "No papers found within 7 days of 2025-03-20")) /\
  _get_top_paper_from_legacy_dataset json_loads tie_order legacy_only
    (lit "2025-03-20") 7
  = Raise (not_found (lit "2025-03-20") 7) /\
  _get_top_paper_by_date json_loads tie_order legacy_only (lit "2025-03-20") 7
  = Raise (ValueError (lit "Failed to load datasets: No papers found within 7 days of 2025-03-20")) /\
  _get_top_paper_by_date json_loads tie_order legacy_only (lit "2025-03-20") 7
  <> Raise (not_found (lit "2025-03-20") 7).
Proof.
  assert (Hnone : forall j,
             (Z.of_nat j <= 7)%Z ->
             (1 <= 739330 - Z.of_nat j)%Z /\
             date_papers two_days (strftime (739330 - Z.of_nat j)%Z) = []).
  { intros j Hj. split; [lia |].
    do 8 (destruct j as [| j]; [vm_compute; reflexivity |]). lia. }
  assert (Hdate : strptime (lit "2025-03-20") = Ok 739330%Z)
    by (vm_compute; reflexivity).
  assert (Hleg : _get_top_paper_from_legacy_dataset json_loads tie_order
                   legacy_only (lit "2025-03-20") 7
                 = Raise (not_found (lit "2025-03-20") 7)).
  { exact (legacy_not_found legacy_only (lit "2025-03-20") 7 739330%Z
             two_days Hdate eq_refl Hnone). }
  assert (Hwrap : _get_top_paper_by_date json_loads tie_order legacy_only
                    (lit "2025-03-20") 7
                  = Raise (ValueError
                             (lit "Failed to load datasets: "
                              ++ str_of_exn
                                   (not_found (lit "2025-03-20") 7)))).
  { exact (legacy_failure_wrapped legacy_only (lit "2025-03-20") 7
             739330%Z _ _ Hdate eq_refl Hleg). }
  split.
  { exact (primary_not_found both_loaded (lit "2025-03-20") 7 739330%Z
             two_days Hdate eq_refl eq_refl Hnone). }
  split; [exact Hleg |]. split; [exact Hwrap |].
  rewrite Hwrap. intros H. injection H as H. vm_compute in H.
  discriminate H.
Qed.

(** *** The returned record *)

Definition has_version_suffix (id : str) : Prop :=
  exists stem digits,
    id = stem ++ 118%N :: digits /\ digits <> [] /\
    Forall (fun c => isdigit c = true) digits.

Lemma contains_char (c : char) (s : str) :
  contains [c] s = true <-> In c s.
Proof.
  induction s as [| a s IH]; simpl.
  - split; [discriminate | contradiction].
  - rewrite orb_true_iff, IH, andb_true_r, N.eqb_eq.
    split; intros [H | H]; auto.
Qed.

Lemma before_notin (sep : char) (x : str) : ~ In sep (before sep x).
Proof.
  induction x as [| c x IH]; simpl; [auto |].
  destruct (N.eqb_spec c sep) as [-> | Hne]; simpl; [auto |].
  intros [H | H]; [exact (Hne H) | exact (IH H)].
Qed.

Lemma no_v_no_suffix (id : str) : ~ In 118%N id -> ~ has_version_suffix id.
Proof.
  intros Hv (stem & digits & -> & _). apply Hv.
  apply in_or_app. right. simpl. auto.
Qed.

(** The identifier of the selected row. *)
Definition selected_id (top : top_paper) : str :=
  match d_paper_id top with
  | Some id => id
  | None => match d_arxiv_id top with Some id => id | None => [] end
  end.

(** The text before the first [sep] is followed by [sep] in the text. *)
Lemma before_split (sep : char) (x : str) :
  In sep x -> exists rest, x = before sep x ++ sep :: rest.
Proof.
  induction x as [| c x IH]; simpl; [contradiction |].
  destruct (N.eqb_spec c sep) as [-> | Hne].
  - intros _. exists x. reflexivity.
  - intros [H | H]; [contradiction |].
    destruct (IH H) as [rest Hrest]. exists rest. simpl.
    f_equal. exact Hrest.
Qed.

(** C7: in every record [get_top_paper_pdf_url] returns, [paper_id] holds
    no [v], hence no version suffix, and [pdf_url] is the fixed prefix
    followed by that [paper_id].  The record comes from the paper found
    for the date asked for (today's when none is given): when the
    identifier of that paper (its [paper_id], else its [arxiv_id], else
    the empty text) holds a [v], it is the returned [paper_id] followed by
    a [v] and a rest, so that [paper_id] is what stands before its first
    [v]; when it holds none, [paper_id] is all of it. *)
Theorem returned_record_invariant (src : sources) (today : date)
        (date_arg : option str) (info : paper_info) :
  get_top_paper_pdf_url json_loads tie_order src today date_arg = Ok info ->
  ~ In 118%N (paper_id info) /\
  ~ has_version_suffix (paper_id info) /\
  pdf_url info = lit "https://arxiv.org/pdf/" ++ paper_id info /\
  exists top,
    _get_top_paper_by_date json_loads tie_order src
      (match date_arg with
       | Some (c :: d) => c :: d
       | _ => strftime today
       end) 7 = Ok top /\
    (In 118%N (selected_id top) ->
     paper_id info = before 118%N (selected_id top) /\
     exists rest, selected_id top = paper_id info ++ 118%N :: rest) /\
    (~ In 118%N (selected_id top) -> paper_id info = selected_id top).
Proof.
  unfold get_top_paper_pdf_url.
  set (date_text := match date_arg with
                    | Some (c :: d) => c :: d
                    | _ => strftime today
                    end).
  destruct (strptime date_text) as [D | e]; simpl; [| discriminate].
  destruct (_get_top_paper_by_date json_loads tie_order src date_text 7)
    as [top | e] eqn:Etop; simpl; [| discriminate].
  fold (selected_id top). intros [= <-]. simpl.
  assert (Hid : ~ In 118%N
                  (if contains (lit "v") (selected_id top)
                   then before 118%N (selected_id top)
                   else selected_id top)).
  { destruct (contains (lit "v") (selected_id top)) eqn:Ev.
    - apply before_notin.
    - intros Hin. apply (contains_char 118%N) in Hin.
      apply not_true_iff_false in Ev. apply Ev. exact Hin. }
  split; [exact Hid |]. split; [apply no_v_no_suffix, Hid |].
  split; [reflexivity |].
  exists top. split; [reflexivity |].
  split; intros Hv.
  - pose proof (before_split 118%N _ Hv) as Hsplit.
    apply (contains_char 118%N) in Hv.
    change (contains (lit "v") (selected_id top) = true) in Hv.
    rewrite Hv. split; [reflexivity | exact Hsplit].
  - destruct (contains (lit "v") (selected_id top)) eqn:Ev; [| reflexivity].
    apply (contains_char 118%N) in Ev. contradiction.
Qed.

End WithJson.

(** A decoder that rejects every text: enough where [authors] is a list. *)
Definition no_json (text : str) : option json := None.

(** The sorting routine that moves no row: rows of equal keys stay in the
    order of the table. *)
Definition stable (keys : list Z) : list nat := [].

Lemma nearest_date_top_paper_witness :
  exists top p,
    _get_top_paper_by_date no_json stable both_loaded (lit "2024-03-10") 7
    = Ok p /\
    In top (date_papers two_days (strftime (738955 - Z.of_nat 0)%Z)) /\
    d_upvotes p = Some (r_upvotes top) /\
    d_title p = Some (r_title top).
Proof.
  destruct (proj1 (proj2
             (nearest_date_top_paper no_json stable both_loaded
                (lit "2024-03-10") 7 738955%Z two_days 0
                ltac:(vm_compute; reflexivity) eq_refl
                ltac:(vm_compute; reflexivity) ltac:(simpl; lia)
                ltac:(simpl; lia) ltac:(vm_compute; discriminate)
                ltac:(intros j Hj; lia))))
    as (top & p & H1 & _ & H3 & _ & H5 & _ & _ & H8 & _).
  exists top, p. repeat split; assumption.
Defined.

Definition info_near : paper_info :=
  mkPaperInfo (lit "2403.00001") (lit "Near") (AuthorsList [lit "A"]) 5
    (lit "2024-03-10") (lit "https://arxiv.org/pdf/2403.00001").

Lemma returned_record_invariant_witness :
  ~ In 118%N (paper_id info_near) /\
  pdf_url info_near = lit "https://arxiv.org/pdf/" ++ paper_id info_near /\
  exists rest, lit "2403.00001v2" = paper_id info_near ++ 118%N :: rest.
Proof.
  destruct (returned_record_invariant no_json stable both_loaded 738955%Z
              (Some (lit "2024-03-10")) info_near)
    as (H1 & _ & H3 & top & Htop & Hv & _).
  - vm_compute. reflexivity.
  - split; [exact H1 |]. split; [exact H3 |].
    assert (Hp : top = paper_near).
    { vm_compute in Htop. injection Htop as <-. reflexivity. }
    subst top. apply Hv. vm_compute. auto 20.
Defined.

End ResolverSpec.

(** ** More on the resolver *)

Module ResolverMore.

Import ResolverSpec.

(** The rows of a day are rows of the table that carry the day, in the
    [date] column or in the [created] column. *)
Lemma date_papers_in (df : DataFrame) (day : str) (r : Row) :
  In r (date_papers df day) ->
  In r (rows df) /\
  ((has_column df "date" = true /\ startswith day (r_date r) = true) \/
   (has_column df "created" = true /\ created_day (r_created r) = day)).
Proof.
  unfold date_papers.
  assert (Hcreated :
    In r (filter (fun r => str_eqb (created_day (r_created r)) day) (rows df))
    -> In r (rows df) /\ created_day (r_created r) = day).
  { intros Hin. apply filter_In in Hin. destruct Hin as [Hin Heq].
    split; [exact Hin |]. unfold str_eqb in Heq.
    destruct (list_eq_dec N.eq_dec (created_day (r_created r)) day);
      [assumption | discriminate]. }
  destruct (has_column df "date") eqn:Hd.
  - destruct (filter (fun r => startswith day (r_date r)) (rows df))
      as [| a l] eqn:Ef.
    + destruct (has_column df "created") eqn:Hc; [| contradiction].
      intros Hin. destruct (Hcreated Hin). auto.
    + rewrite <- Ef. intros Hin. apply filter_In in Hin.
      destruct Hin. auto.
  - destruct (has_column df "created") eqn:Hc; [| contradiction].
    intros Hin. destruct (Hcreated Hin). auto.
Qed.

Section WithJson.

Variable json_loads : str -> option json.
Variable tie_order : list Z -> list nat.

(** What the loop returned is the first row of a day of the window. *)
Lemma look_back_found (df : DataFrame) (D : date) (n a : nat)
      (p : top_paper) :
  look_back json_loads df D (seq a n) = Ok (Some p) ->
  exists k top others,
    a <= k < a + n /\ (1 <= D - Z.of_nat k)%Z /\
    date_papers df (strftime (D - Z.of_nat k)%Z) = top :: others /\
    p = coerce_authors json_loads (to_dict df top).
Proof.
  revert a. induction n as [| n IH]; intros a; simpl; [discriminate |].
  unfold minus_days.
  destruct (Z.ltb_spec (D - Z.of_nat a) 1) as [Hlt | Hge]; simpl;
    [discriminate |].
  destruct (date_papers df (strftime (D - Z.of_nat a)%Z))
    as [| top others] eqn:Eday.
  - intros H. destruct (IH _ H) as (k & top & others & Hk & Hr & Hd & Hp).
    exists k, top, others. repeat split; try assumption; lia.
  - intros [= <-]. exists a, top, others.
    repeat split; try assumption; lia.
Qed.


(** X1: a paper [_get_top_paper_by_date] returns is the selected row of
    the table that served the search (the primary one, or the fallback
    when the primary load raised), and that row carries, in its [date] or
    else its [created] column, a day [D - k] of the window, [0 <= k <= W]. *)
Theorem returned_paper_in_window (src : sources) (target_date : str)
        (W : Z) (p : top_paper) :
  _get_top_paper_by_date json_loads tie_order src target_date W = Ok p ->
  exists D df k top,
    strptime target_date = Ok D /\
    (primary src = Ok df \/
     (exists e, primary src = Raise e) /\ legacy src = Ok df) /\
    (Z.of_nat k <= W)%Z /\ (1 <= D - Z.of_nat k)%Z /\
    In top (rows df) /\
    ((has_column df "date" = true /\
      startswith (strftime (D - Z.of_nat k)%Z) (r_date top) = true) \/
     (has_column df "created" = true /\
      created_day (r_created top) = strftime (D - Z.of_nat k)%Z)) /\
    p = coerce_authors json_loads (to_dict df top).
Proof.
  unfold _get_top_paper_by_date.
  destruct (strptime target_date) as [D | e] eqn:HD; simpl; [| discriminate].
  assert (Hscan : forall df df',
    columns df' = columns df -> Permutation (rows df') (rows df) ->
    (forall day, Permutation (date_papers df' day) (date_papers df day)) ->
    forall found,
      look_back json_loads df' D (offsets W) = Ok (Some found) ->
      exists k top,
        (Z.of_nat k <= W)%Z /\ (1 <= D - Z.of_nat k)%Z /\
        In top (rows df) /\
        ((has_column df "date" = true /\
          startswith (strftime (D - Z.of_nat k)%Z) (r_date top) = true) \/
         (has_column df "created" = true /\
          created_day (r_created top) = strftime (D - Z.of_nat k)%Z)) /\
        found = coerce_authors json_loads (to_dict df top)).
  { intros df df' Hcols Hrows Hdays found Hlook.
    unfold offsets in Hlook.
    destruct (look_back_found _ _ _ _ _ Hlook)
      as (k & top & others & Hk & Hr & Hd & ->).
    assert (Hin : In top (date_papers df (strftime (D - Z.of_nat k)%Z))).
    { eapply Permutation_in; [apply Hdays |]. rewrite Hd. simpl. auto. }
    destruct (date_papers_in _ _ _ Hin) as [Hrow Hday].
    exists k, top. split; [lia |]. split; [exact Hr |].
    split; [exact Hrow |]. split; [exact Hday |].
    unfold to_dict, cell, has_column. rewrite Hcols. reflexivity. }
  assert (Hsorted : forall key df found,
    look_back json_loads (sort_values tie_order key df) D (offsets W) = Ok (Some found)
    -> exists k top,
        (Z.of_nat k <= W)%Z /\ (1 <= D - Z.of_nat k)%Z /\
        In top (rows df) /\
        ((has_column df "date" = true /\
          startswith (strftime (D - Z.of_nat k)%Z) (r_date top) = true) \/
         (has_column df "created" = true /\
          created_day (r_created top) = strftime (D - Z.of_nat k)%Z)) /\
        found = coerce_authors json_loads (to_dict df top)).
  { intros key df found. apply Hscan.
    - reflexivity.
    - apply sort_values_perm.
    - intros day. apply date_papers_sort_perm. }
  destruct (primary src) as [df | e] eqn:Hsrc.
  - destruct (has_column df "upvotes"); simpl; [| discriminate].
    destruct (look_back json_loads (sort_values tie_order r_upvotes df) D (offsets W))
      as [[found |] | e] eqn:Hlook; simpl; try discriminate.
    intros [= <-]. destruct (Hsorted _ _ _ Hlook) as (k & top & H).
    exists D, df, k, top. split; [reflexivity |]. split; [auto |]. exact H.
  - unfold _get_top_paper_from_legacy_dataset. rewrite HD. simpl.
    destruct (legacy src) as [df | e2] eqn:Hleg; simpl; [| discriminate].
    set (df' := if has_column df "upvotes" then sort_values tie_order r_upvotes df
                else if has_column df "score" then sort_values tie_order r_score df
                     else df).
    assert (Hdf' : forall found,
      look_back json_loads df' D (offsets W) = Ok (Some found) ->
      exists k top,
        (Z.of_nat k <= W)%Z /\ (1 <= D - Z.of_nat k)%Z /\
        In top (rows df) /\
        ((has_column df "date" = true /\
          startswith (strftime (D - Z.of_nat k)%Z) (r_date top) = true) \/
         (has_column df "created" = true /\
          created_day (r_created top) = strftime (D - Z.of_nat k)%Z)) /\
        found = coerce_authors json_loads (to_dict df top)).
    { subst df'. destruct (has_column df "upvotes"); [apply Hsorted |].
      destruct (has_column df "score"); [apply Hsorted |].
      intros found. apply Hscan; auto. }
    destruct (look_back json_loads df' D (offsets W))
      as [[found |] | e3] eqn:Hlook; simpl; try discriminate.
    intros [= <-]. destruct (Hdf' _ eq_refl) as (k & top & H).
    exists D, df, k, top. split; [reflexivity |].
    split; [right; split; [eauto | reflexivity] |]. exact H.
Qed.


(** X3: a negative window searches no day, not even the target date,
    whatever rows the table holds.  Over the primary tables the resolver
    raises the not-found error (the table is sorted before the scan, so
    one without an [upvotes] column raises [KeyError] first, whatever the
    window); over the fallback table [_get_top_paper_from_legacy_dataset]
    raises the not-found error, which the resolver reports, as it does
    every failure of the fallback, as a failed load. *)
Theorem negative_window_searches_nothing (src : sources) (target_date : str)
        (W : Z) (D : date) :
  (W < 0)%Z ->
  strptime target_date = Ok D ->
  (forall df,
      primary src = Ok df ->
      has_column df "upvotes" = true ->
      _get_top_paper_by_date json_loads tie_order src target_date W
      = Raise (not_found target_date W)) /\
  (forall df,
      primary src = Ok df ->
      has_column df "upvotes" = false ->
      _get_top_paper_by_date json_loads tie_order src target_date W
      = Raise (KeyError (lit "upvotes"))) /\
  (forall df,
      legacy src = Ok df ->
      _get_top_paper_from_legacy_dataset json_loads tie_order src
        target_date W
      = Raise (not_found target_date W)) /\
  (forall e df,
      primary src = Raise e ->
      legacy src = Ok df ->
      _get_top_paper_by_date json_loads tie_order src target_date W
      = Raise (ValueError (lit "Failed to load datasets: "
                           ++ lit "No papers found within " ++ str_of_int W
                           ++ lit " days of " ++ target_date))).
Proof.
  intros HW HD.
  assert (Hoff : offsets W = []).
  { unfold offsets. replace (Z.to_nat (W + 1)) with 0 by lia. reflexivity. }
  assert (Hleg : forall df,
             legacy src = Ok df ->
             _get_top_paper_from_legacy_dataset json_loads tie_order src
               target_date W
             = Raise (not_found target_date W)).
  { intros df Hl. unfold _get_top_paper_from_legacy_dataset.
    rewrite HD, Hl, Hoff. reflexivity. }
  split; [| split; [| split; [exact Hleg |]]].
  - intros df Hsrc Hup. unfold _get_top_paper_by_date.
    rewrite HD, Hsrc, Hup, Hoff. reflexivity.
  - intros df Hsrc Hup. unfold _get_top_paper_by_date.
    rewrite HD, Hsrc, Hup. reflexivity.
  - intros e df Hsrc Hl. unfold _get_top_paper_by_date.
    rewrite HD, Hsrc, (Hleg df Hl). reflexivity.
Qed.

(** X4: when the primary load raises, every failure of the fallback
    reaches the caller as a [ValueError] whose text starts with
    [Failed to load datasets: ]; when the fallback load raises too, the
    text ends with the text of that exception, whatever the window. *)
Theorem fallback_failure_is_load_failure (src : sources) (target_date : str)
        (W : Z) (D : date) (e : exn) :
  strptime target_date = Ok D ->
  primary src = Raise e ->
  (forall e2,
      legacy src = Raise e2 ->
      _get_top_paper_by_date json_loads tie_order src target_date W
      = Raise (ValueError (lit "Failed to load datasets: "
                           ++ str_of_exn e2))) /\
  (forall err,
      _get_top_paper_by_date json_loads tie_order src target_date W = Raise err ->
      exists text,
        err = ValueError (lit "Failed to load datasets: " ++ text)).
Proof.
  intros HD Hsrc. split.
  - intros e2 Hleg.
    apply (legacy_failure_wrapped json_loads tie_order src target_date W D e e2 HD Hsrc).
    unfold _get_top_paper_from_legacy_dataset. rewrite HD, Hleg. reflexivity.
  - intros err. unfold _get_top_paper_by_date. rewrite HD, Hsrc. simpl.
    destruct (_get_top_paper_from_legacy_dataset json_loads tie_order src target_date W)
      as [top | e2]; simpl; [discriminate |].
    intros [= <-]. eauto.
Qed.



(** X7: over a fallback table with a [score] column and no [upvotes]
    column the rows are ranked by score: the row returned for the nearest
    day with rows has the highest score of that day; with neither column
    the table is left in its order and the first row of that day in table
    order is returned. *)
Theorem fallback_ranking (src : sources) (target_date : str) (W : Z)
        (D : date) (e : exn) (df : DataFrame) (k : nat) :
  strptime target_date = Ok D ->
  primary src = Raise e ->
  legacy src = Ok df ->
  has_column df "upvotes" = false ->
  (Z.of_nat k <= W)%Z ->
  (1 <= D - Z.of_nat k)%Z ->
  date_papers df (strftime (D - Z.of_nat k)%Z) <> [] ->
  (forall j, j < k -> date_papers df (strftime (D - Z.of_nat j)%Z) = []) ->
  exists top,
    _get_top_paper_by_date json_loads tie_order src target_date W
    = Ok (coerce_authors json_loads (to_dict df top)) /\
    (has_column df "score" = true ->
     In top (date_papers df (strftime (D - Z.of_nat k)%Z)) /\
     forall r, In r (date_papers df (strftime (D - Z.of_nat k)%Z)) ->
               (r_score r <= r_score top)%Z) /\
    (has_column df "score" = false ->
     exists others,
       date_papers df (strftime (D - Z.of_nat k)%Z) = top :: others).
Proof.
  intros HD Hsrc Hleg Hup Hk Hrange Hday Hnone.
  unfold _get_top_paper_by_date, _get_top_paper_from_legacy_dataset.
  rewrite HD, Hsrc, Hleg. cbn [bind try_except]. rewrite Hup.
  destruct (has_column df "score") eqn:Hscore.
  - destruct (look_back_sorted json_loads tie_order r_score df D W k Hk Hrange Hday
                Hnone) as (top & Hlook & Hin & Hmax).
    exists top. rewrite Hlook. split; [reflexivity |].
    split; [auto | discriminate].
  - destruct (date_papers df (strftime (D - Z.of_nat k)%Z))
      as [| top others] eqn:Etop; [contradiction |].
    exists top. unfold offsets.
    rewrite (look_back_nearest json_loads df D (Z.to_nat (W + 1)) 0 k top
               others); try assumption; try lia.
    + split; [reflexivity |]. split; [discriminate | eauto].
    + intros j Hj. apply Hnone. lia.
Qed.

End WithJson.


Lemma negative_window_searches_nothing_witness :
  _get_top_paper_by_date no_json stable both_loaded (lit "2024-03-10") (-1)
  = Raise (not_found (lit "2024-03-10") (-1)) /\
  _get_top_paper_by_date no_json stable legacy_only (lit "2024-03-10") (-1)
  = Raise (ValueError (lit "Failed to load datasets: "
                       ++ lit "No papers found within " ++ str_of_int (-1)
                       ++ lit " days of " ++ lit "2024-03-10")).
Proof.
  destruct (negative_window_searches_nothing no_json stable both_loaded
              (lit "2024-03-10") (-1) 738955%Z
              ltac:(lia) ltac:(vm_compute; reflexivity))
    as (H1 & _).
  destruct (negative_window_searches_nothing no_json stable legacy_only
              (lit "2024-03-10") (-1) 738955%Z
              ltac:(lia) ltac:(vm_compute; reflexivity))
    as (_ & _ & _ & H4).
  split.
  - apply (H1 two_days); [reflexivity | vm_compute; reflexivity].
  - apply (H4 (Exception (lit "Dataset not found")) two_days); reflexivity.
Defined.

Definition both_failed : sources :=
  mkSources (Raise (Exception (lit "Dataset not found")))
    (Raise (Exception (lit "Connection refused"))).

Lemma fallback_failure_is_load_failure_witness :
  _get_top_paper_by_date no_json stable both_failed (lit "2024-03-10") 7
  = Raise (ValueError (lit "Failed to load datasets: Connection refused")).
Proof.
  apply (proj1 (fallback_failure_is_load_failure no_json stable both_failed
                  (lit "2024-03-10") 7 738955%Z
                  (Exception (lit "Dataset not found"))
                  ltac:(vm_compute; reflexivity) eq_refl)
           (Exception (lit "Connection refused"))).
  reflexivity.
Defined.



Definition row_low : Row :=
  mkRow [] (lit "2403.00003") (lit "Low") (AuthorsList []) 0 3
    (lit "2024-03-10") [].

Definition row_high : Row :=
  mkRow [] (lit "2403.00004") (lit "High") (AuthorsList []) 0 9
    (lit "2024-03-10") [].

Definition scored : DataFrame :=
  mkDataFrame ["arxiv_id"; "title"; "authors"; "score"; "date"]%string
    [row_low; row_high].

Definition scored_fallback : sources :=
  mkSources (Raise (Exception (lit "Dataset not found"))) (Ok scored).

Lemma fallback_ranking_witness :
  exists top,
    _get_top_paper_by_date no_json stable scored_fallback (lit "2024-03-10") 7
    = Ok (coerce_authors no_json (to_dict scored top)) /\
    forall r, In r (date_papers scored (strftime (738955 - Z.of_nat 0)%Z)) ->
              (r_score r <= r_score top)%Z.
Proof.
  destruct (fallback_ranking no_json stable scored_fallback (lit "2024-03-10") 7
              738955%Z (Exception (lit "Dataset not found")) scored 0)
    as (top & Hres & Hscore & _).
  - vm_compute. reflexivity.
  - reflexivity.
  - reflexivity.
  - vm_compute. reflexivity.
  - lia.
  - simpl. lia.
  - vm_compute. discriminate.
  - intros j Hj. lia.
  - exists top. split; [exact Hres |]. apply Hscore. vm_compute. reflexivity.
Defined.

Lemma returned_paper_in_window_witness :
  exists D df k top,
    strptime (lit "2024-03-10") = Ok D /\
    (primary both_loaded = Ok df \/
     (exists e, primary both_loaded = Raise e) /\ legacy both_loaded = Ok df)
    /\ (Z.of_nat k <= 7)%Z /\ (1 <= D - Z.of_nat k)%Z /\
    In top (rows df) /\
    ((has_column df "date" = true /\
      startswith (strftime (D - Z.of_nat k)%Z) (r_date top) = true) \/
     (has_column df "created" = true /\
      created_day (r_created top) = strftime (D - Z.of_nat k)%Z)) /\
    to_dict two_days row_near = coerce_authors no_json (to_dict df top).
Proof.
  apply (returned_paper_in_window no_json stable both_loaded (lit "2024-03-10") 7).
  vm_compute. reflexivity.
Defined.

(** *** The authors entry *)

Lemma lstrip_head (s : str) (c : char) (r : str) :
  lstrip s = c :: r -> isspace c = false.
Proof.
  induction s as [| a s IH]; simpl; [discriminate |].
  destruct (isspace a) eqn:Ea; [exact IH |].
  intros [= <- _]. exact Ea.
Qed.

Lemma lstrip_fixed (c : char) (r : str) :
  isspace c = false -> lstrip (c :: r) = c :: r.
Proof. intros H. simpl. rewrite H. reflexivity. Qed.

Lemma lstrip_suffix (s : str) : exists a, s = a ++ lstrip s.
Proof.
  induction s as [| c s [a IH]]; [exists []; reflexivity |].
  simpl. destruct (isspace c).
  - exists (c :: a). simpl. f_equal. exact IH.
  - exists []. reflexivity.
Qed.










End ResolverMore.

(** ** More on the formatter *)

Module FormatterMore.

Import TransducerTotal ChunkerSpec LayoutSpec TransducerSpec.

(** *** Runs of line breaks in the output *)

(** [y] does not start with a line break. *)
Definition no_break_first (y : str) : Prop := forall r, y <> NL :: r.

Lemma collapse_nil : Re.sub Re.m_blank_run [] = [].
Proof. reflexivity. Qed.

Lemma collapse_no_break_first (y : str) :
  no_break_first y -> no_break_first (Re.sub Re.m_blank_run y).
Proof.
  intros Hy. destruct y as [| c y]; [intros r; discriminate |].
  assert (Hc : c <> NL) by (intros ->; exact (Hy y eq_refl)).
  rewrite collapse_other by exact Hc. intros r [= H _]. exact (Hc H).
Qed.

Lemma contains_cons (p : str) (a : char) (s : str) :
  contains p (a :: s) = startswith p (a :: s) || contains p s.
Proof. reflexivity. Qed.

Lemma no_triple_one (w : str) :
  no_break_first w -> contains [NL; NL; NL] w = false ->
  contains [NL; NL; NL] (NL :: w) = false.
Proof.
  intros Hw Hc. rewrite contains_cons, Hc, orb_false_r.
  destruct w as [| a w]; [reflexivity |].
  cbn [startswith]. rewrite N.eqb_refl. cbn [andb].
  destruct (N.eqb_spec NL a) as [<- | _]; [| reflexivity].
  exfalso. exact (Hw w eq_refl).
Qed.

Lemma no_triple_two (w : str) :
  no_break_first w -> contains [NL; NL; NL] w = false ->
  contains [NL; NL; NL] (NL :: NL :: w) = false.
Proof.
  intros Hw Hc. rewrite contains_cons, (no_triple_one w Hw Hc), orb_false_r.
  destruct w as [| a w]; [reflexivity |].
  cbn [startswith]. rewrite !N.eqb_refl. cbn [andb].
  destruct (N.eqb_spec NL a) as [<- | _]; [| reflexivity].
  exfalso. exact (Hw w eq_refl).
Qed.

Lemma takewhile_rest (y : str) :
  no_break_first
    (skipn (length (Re.takewhile (fun c => (c =? NL)%N) y)) y).
Proof.
  induction y as [| c y IH]; simpl; [intros r; discriminate |].
  destruct (N.eqb_spec c NL) as [-> | Hne]; simpl; [exact IH |].
  intros r [= H _]. exact (Hne H).
Qed.

Lemma collapse_no_triple (n : nat) (y : str) :
  length y <= n -> contains [NL; NL; NL] (Re.sub Re.m_blank_run y) = false.
Proof.
  revert y. induction n as [| n IH]; intros y Hlen.
  - destruct y; [reflexivity | simpl in Hlen; lia].
  - destruct y as [| c y]; [reflexivity |]. simpl in Hlen.
    destruct (N.eq_dec c NL) as [-> | Hne].
    + rewrite collapse_break. cbn zeta.
      set (run := Re.takewhile (fun c => (c =? NL)%N) y).
      destruct (3 <=? S (length run)) eqn:E3.
      * apply no_triple_two.
        -- apply collapse_no_break_first, takewhile_rest.
        -- apply IH. rewrite length_skipn. lia.
      * apply Nat.leb_gt in E3.
        destruct y as [| d y].
        { reflexivity. }
        destruct (N.eq_dec d NL) as [-> | Hd].
        -- assert (Hy : no_break_first y).
           { subst run. simpl in E3.
             destruct y as [| a y]; [intros r; discriminate |].
             cbn [Re.takewhile] in E3.
             destruct (N.eqb_spec a NL) as [-> | Ha];
               [simpl in E3; lia |].
             intros r [= H _]. exact (Ha H). }
           rewrite collapse_break. cbn zeta.
           destruct y as [| a y].
           ++ reflexivity.
           ++ assert (Ha : a <> NL) by (intros ->; exact (Hy y eq_refl)).
              cbn [Re.takewhile]. apply N.eqb_neq in Ha. rewrite Ha.
              cbn [length Nat.leb]. apply N.eqb_neq in Ha.
              apply no_triple_two.
              ** apply collapse_no_break_first. intros r [= H _].
                 exact (Ha H).
              ** apply IH. simpl in Hlen |- *. lia.
        -- apply no_triple_one.
           ++ apply collapse_no_break_first. intros r [= H _]. exact (Hd H).
           ++ apply IH. lia.
    + rewrite collapse_other by exact Hne.
      rewrite contains_cons, IH by lia. rewrite orb_false_r.
      cbn [startswith]. apply N.eqb_neq in Hne. rewrite N.eqb_sym in Hne.
      rewrite Hne. reflexivity.
Qed.

(** X9: the text the transducer returns never holds three line breaks in
    a row: at most one empty line separates two lines of the output. *)
Theorem output_has_no_triple_break (text out : str) :
  _format_markdown_for_slack text = Ok out ->
  contains [NL; NL; NL] out = false.
Proof.
  unfold _format_markdown_for_slack.
  destruct (loop initial (split_nl (Re.sub Re.m_single_break text)))
    as [st | e]; simpl; [| discriminate].
  intros [= <-]. apply (collapse_no_triple _ _ (Nat.le_refl _)).
Qed.

Lemma output_has_no_triple_break_witness :
  contains [NL; NL; NL]
    (lit "a" ++ [NL; NL] ++ lit "b" ++ [NL] ++ lit "c" ++ [NL; NL]
     ++ lit "d") = false.
Proof.
  apply (output_has_no_triple_break
           (lit "a" ++ [NL] ++ lit "b" ++ [NL] ++ lit "c"
            ++ [NL; NL; NL; NL] ++ lit "d")).
  vm_compute. reflexivity.
Defined.

(** *** Text of white space only *)

Definition all_space (s : str) : Prop := Forall (fun c => isspace c = true) s.

Lemma all_space_blank (s : str) : all_space s -> strip s = [].
Proof.
  intros Hs. unfold strip.
  assert (H : lstrip s = []).
  { induction Hs as [| c s Hc _ IH]; [reflexivity |].
    simpl. rewrite Hc. exact IH. }
  rewrite H. reflexivity.
Qed.

Lemma widen_all_space (s : str) (k : nat) :
  all_space s -> all_space (Re.sub_from Re.m_single_break k s).
Proof.
  revert k. induction s as [| a s IH]; intros k Hs; [constructor |].
  assert (Htail : all_space s) by (inversion Hs; assumption).
  assert (Ha : isspace a = true) by (inversion Hs; assumption).
  destruct k as [| k]; cbn [Re.sub_from]; [| apply IH, Htail].
  destruct (Re.m_single_break (a :: s)) as [[rep n] |] eqn:Em.
  - unfold Re.m_single_break in Em.
    destruct s as [| b [| c s]]; try discriminate.
    destruct (negb (a =? NL)%N && (b =? NL)%N && negb (c =? NL)%N);
      [| discriminate].
    injection Em as <- <-.
    assert (Hc : isspace c = true).
    { inversion Htail as [| ? ? _ Hs']. inversion Hs'. assumption. }
    repeat constructor; try assumption.
    apply IH, Htail.
  - constructor; [exact Ha | apply IH, Htail].
Qed.

Lemma split_nl_all_space (s : str) :
  all_space s -> Forall all_space (split_nl s).
Proof.
  induction 1 as [| c s Hc Hs IH]; simpl; [repeat constructor |].
  destruct (c =? NL)%N; [constructor; [constructor | exact IH] |].
  destruct (split_nl s) as [| l ls]; [repeat constructor; assumption |].
  inversion IH; subst. constructor; [constructor |]; assumption.
Qed.

Lemma split_nl_nonempty (s : str) : split_nl s <> [].
Proof.
  destruct s as [| c s]; simpl; [discriminate |].
  destruct (c =? NL)%N; [discriminate |].
  destruct (split_nl s); discriminate.
Qed.

(** Blank lines add one empty line, unless one was just emitted. *)
Lemma loop_blank_lines (lines : list str) (st : state) :
  Forall all_space lines ->
  exists st',
    loop st lines = Ok st' /\
    formatted_lines st' =
      formatted_lines st
        ++ (if prev_was_empty st then []
            else match lines with [] => [] | _ :: _ => [[]] end).
Proof.
  intros Hall. revert st.
  induction Hall as [| l lines Hl _ IH]; intros st.
  - exists st. split; [reflexivity |].
    destruct (prev_was_empty st); symmetry; apply app_nil_r.
  - cbn [loop]. unfold step. rewrite (all_space_blank l Hl). cbn [truthy negb].
    destruct (prev_was_empty st) eqn:Hp; cbn [negb bind].
    + destruct (IH st) as (st' & Hloop & Hlines). exists st'.
      split; [exact Hloop |]. rewrite Hlines, Hp. reflexivity.
    + destruct (IH (set_prev_was_empty true (append [] st)))
        as (st' & Hloop & Hlines).
      exists st'. split; [exact Hloop |]. rewrite Hlines. simpl.
      apply app_nil_r.
Qed.

(** X10: a text made of white space only (the empty text too) is
    transduced to the empty text, and a paper whose summary is such a text
    gets no body block: the six fixed blocks and the context block. *)
Theorem blank_summary_gives_no_body (text : str) :
  all_space text ->
  _format_markdown_for_slack text = Ok [] /\
  forall p,
    p_summary p = Some text ->
    _format_paper_blocks p
    = Some (Ok (fixed_blocks p ++ [context_block p])).
Proof.
  intros Hs.
  assert (Hout : _format_markdown_for_slack text = Ok []).
  { unfold _format_markdown_for_slack.
    pose proof (split_nl_all_space _ (widen_all_space text 0 Hs)) as Hlines.
    fold (Re.sub Re.m_single_break text) in Hlines.
    destruct (loop_blank_lines _ initial Hlines) as (st & -> & Hfl).
    simpl in Hfl.
    destruct (split_nl (Re.sub Re.m_single_break text)) as [| l ls] eqn:E.
    - exfalso. exact (split_nl_nonempty _ E).
    - cbn [bind]. rewrite Hfl. reflexivity. }
  split; [exact Hout |].
  intros p Hp. unfold _format_paper_blocks. rewrite Hp. simpl get.
  rewrite Hout. reflexivity.
Qed.

Lemma blank_summary_gives_no_body_witness :
  _format_markdown_for_slack ([SP; 9%N; NL; NL; SP] : str) = Ok [].
Proof.
  apply (blank_summary_gives_no_body [SP; 9%N; NL; NL; SP]).
  repeat constructor.
Defined.

(** *** A summary that fits in one block *)

Lemma single_chunk (s : str) :
  1 <= length s <= max_chars -> summary_chunks s = Some [s].
Proof.
  intros Hlen. unfold summary_chunks.
  destruct (length s) as [| n] eqn:En; [lia |].
  rewrite chunks_from_step by lia.
  assert (He : chunk_end s 0 = max_chars).
  { unfold chunk_end.
    destruct (Nat.ltb_spec (0 + max_chars) (length s)); [lia | reflexivity]. }
  rewrite He, chunks_from_done by lia.
  unfold slice. simpl skipn. rewrite Nat.sub_0_r, firstn_all2 by lia.
  reflexivity.
Qed.

(** X11: when the transduced summary has between 1 and 1900 characters,
    the layout is the six fixed blocks, one section that holds the whole
    transduced summary unchanged, and the context block. *)
Theorem short_summary_one_block (p : paper) (out : str) :
  _format_markdown_for_slack (get (p_summary p) (lit "No summary available."))
  = Ok out ->
  1 <= length out <= 1900 ->
  _format_paper_blocks p
  = Some (Ok (fixed_blocks p ++ [SectionText (Mrkdwn out)]
              ++ [context_block p])).
Proof.
  intros Hout Hlen. unfold _format_paper_blocks.
  rewrite Hout, (single_chunk out Hlen). cbn [map].
  rewrite chunk_block_exact by (unfold max_chars; lia). reflexivity.
Qed.

Lemma short_summary_one_block_witness :
  _format_paper_blocks empty_summary_paper
  = Some (Ok (fixed_blocks empty_summary_paper
              ++ [context_block empty_summary_paper])) /\
  _format_paper_blocks
    (mkPaper None None None None (Some (lit "One *bold* claim.")) None)
  = Some (Ok (fixed_blocks
                (mkPaper None None None None (Some (lit "One *bold* claim."))
                   None)
              ++ [SectionText (Mrkdwn (lit "One *bold* claim."))]
              ++ [context_block
                    (mkPaper None None None None
                       (Some (lit "One *bold* claim.")) None)])).
Proof.
  split; [vm_compute; reflexivity |].
  apply (short_summary_one_block
           (mkPaper None None None None (Some (lit "One *bold* claim.")) None)
           (lit "One *bold* claim.")).
  - vm_compute. reflexivity.
  - vm_compute. lia.
Defined.

(** *** The header block *)

(** X12: the first block of every layout is the header; its text has at
    most 150 characters; it is the title itself when the title has at most
    150 characters, [Unknown title] when the paper has no title, and else
    the first 147 characters of the title followed by three dots. *)
Theorem header_within_limit (p : paper) :
  exists text rest,
    _format_paper_blocks p = Some (Ok (Header (PlainText text true) :: rest))
    /\ length text <= 150 /\
    (p_title p = None -> text = lit "Unknown title") /\
    (forall t, p_title p = Some t ->
       (length t <= 150 -> text = t) /\
       (150 < length t -> text = firstn 147 t ++ lit "...")).
Proof.
  destruct (format_markdown_total
              (get (p_summary p) (lit "No summary available.")))
    as [out Hout].
  destruct (summary_chunks_total out) as [cs Hcs].
  set (title := get (p_title p) (lit "Unknown title")).
  exists (_truncate_text title 150),
         (tl (fixed_blocks p) ++ map chunk_block cs ++ [context_block p]).
  split.
  { unfold _format_paper_blocks. rewrite Hout, Hcs. reflexivity. }
  assert (Hcases :
    (length title <= 150 -> _truncate_text title 150 = title) /\
    (150 < length title ->
     _truncate_text title 150 = firstn 147 title ++ lit "...")).
  { unfold _truncate_text.
    destruct (Z.leb_spec (Z.of_nat (length title)) 150) as [Hle | Hgt].
    - split; [reflexivity | lia].
    - split; [lia |]. intros _.
      rewrite TruncateSpec.slice_to_nonneg by lia. reflexivity. }
  destruct Hcases as [Hshort Hlong].
  split.
  { destruct (Nat.le_gt_cases (length title) 150) as [Hle | Hgt].
    - rewrite (Hshort Hle). exact Hle.
    - rewrite (Hlong Hgt), length_app, length_firstn.
      change (length (lit "...")) with 3. lia. }
  split.
  { intros Hnone. subst title. rewrite Hnone. reflexivity. }
  intros t Ht. subst title. rewrite Ht in *. simpl get in *. auto.
Qed.

Lemma header_within_limit_witness :
  exists text rest,
    _format_paper_blocks (mkPaper None None None None None None)
    = Some (Ok (Header (PlainText text true) :: rest)) /\
    text = lit "Unknown title".
Proof.
  destruct (header_within_limit (mkPaper None None None None None None))
    as (text & rest & H1 & _ & H3 & _).
  exists text, rest. split; [exact H1 | apply H3; reflexivity].
Defined.

(** *** Headings and list items *)

Lemma lstrip_snoc (x : str) (c : char) :
  isspace c = false -> exists a, lstrip (x ++ [c]) = a ++ [c].
Proof.
  intros Hc. induction x as [| b x [a IH]].
  - exists []. simpl. rewrite Hc. reflexivity.
  - simpl. destruct (isspace b).
    + exists a. exact IH.
    + exists (b :: x). reflexivity.
Qed.

(** Stripping keeps a first character that is not white space. *)
Lemma strip_head (c : char) (r : str) :
  isspace c = false -> exists r', strip (c :: r) = c :: r'.
Proof.
  intros Hc. unfold strip. rewrite ResolverMore.lstrip_fixed by exact Hc.
  unfold rstrip. simpl rev.
  destruct (lstrip_snoc (rev r) c Hc) as [a Ha]. rewrite Ha.
  exists (rev a). rewrite rev_app_distr. reflexivity.
Qed.

(** A line that starts with [#], [*], [-] or [+] is not a blank line and
    not a section title. *)
Lemma marked_line_not_title (c : char) (r : str) :
  (c = 35 \/ c = 42 \/ c = 45 \/ c = 43)%N ->
  truthy (strip (c :: r)) = true /\ is_section_title (c :: r) = false.
Proof.
  intros Hc.
  assert (Hsp : isspace c = false)
    by (destruct Hc as [-> | [-> | [-> | ->]]]; reflexivity).
  destruct (strip_head c r Hsp) as [r' Hr]. unfold is_section_title.
  rewrite Hr. split; [reflexivity |].
  assert (Hm : startswith_any section_markers (c :: r') = true)
    by (destruct Hc as [-> | [-> | [-> | ->]]]; reflexivity).
  rewrite Hm. reflexivity.
Qed.

Definition heading_prefix (level : nat) : str := repeat 35%N level ++ [SP].

Lemma startswith_cons_inv (a : char) (p s : str) :
  startswith (a :: p) s = true ->
  exists s', s = a :: s' /\ startswith p s' = true.
Proof.
  destruct s as [| c s]; [discriminate |]. cbn [startswith].
  intros H. apply andb_true_iff in H. destruct H as [Ha Hp].
  apply N.eqb_eq in Ha. subst c. eauto.
Qed.

(** X13: a line that starts with one, two or three [#] and a space is
    emitted as its title between asterisks, after a bullet and a space at
    level three, where the title is the stripped rest of the line less one
    trailing colon; an empty line follows when the next line is not blank.
    Such a line is never taken for a section title, and the list state is
    left as it was. *)
Theorem heading_rendered (level : nat) (st : state) (line : str)
        (rest : list str) :
  1 <= level <= 3 ->
  startswith (heading_prefix level) line = true ->
  exists st',
    step st line rest = Ok st' /\
    formatted_lines st' =
      formatted_lines st
        ++ [(if level =? 3 then bullet ++ lit " " else [])
            ++ lit "*" ++ header_title (S level) line ++ lit "*"]
        ++ (if next_nonblank rest then [[]] else []) /\
    in_list st' = in_list st /\
    list_indent st' = list_indent st /\
    prev_was_empty st' = false.
Proof.
  intros Hlevel Hstart.
  destruct line as [| c r]; [destruct level; discriminate |].
  assert (Hc : c = 35%N).
  { destruct level as [| level]; [lia |]. cbn [heading_prefix repeat app] in Hstart.
    cbn [startswith] in Hstart. apply andb_true_iff in Hstart.
    destruct Hstart as [H _]. apply N.eqb_eq in H. auto. }
  subst c.
  destruct (marked_line_not_title 35%N r (or_introl eq_refl))
    as [Htruthy Htitle].
  unfold step. rewrite Htruthy, Htitle. cbn [negb].
  assert (Hdone : forall (emitted : str) (st0 : state),
    exists st',
      Ok (pad_after rest (append emitted st0)) = Ok st' /\
      formatted_lines st' =
        formatted_lines st0 ++ [emitted]
          ++ (if next_nonblank rest then [[]] else []) /\
      in_list st' = in_list st0 /\ list_indent st' = list_indent st0 /\
      prev_was_empty st' = prev_was_empty st0).
  { intros emitted st0. eexists. split; [reflexivity |].
    unfold pad_after. destruct (next_nonblank rest); simpl.
    - rewrite <- app_assoc. auto.
    - auto. }
  destruct level as [| [| [| [| level]]]]; try lia.
  - change (heading_prefix 1) with (lit "# ") in Hstart.
    rewrite Hstart. apply (Hdone _ (set_prev_was_empty false st)).
  - assert (H1 : startswith (lit "# ") (@cons char 35%N r) = false).
    { change (heading_prefix 2) with (35%N :: 35%N :: lit " ") in Hstart.
      apply startswith_cons_inv in Hstart. destruct Hstart as (r1 & E1 & H).
      injection E1 as <-.
      apply startswith_cons_inv in H. destruct H as (r2 & -> & _).
      reflexivity. }
    change (heading_prefix 2) with (lit "## ") in Hstart.
    rewrite H1, Hstart. apply (Hdone _ (set_prev_was_empty false st)).
  - assert (H12 : startswith (lit "# ") (@cons char 35%N r) = false /\
                  startswith (lit "## ") (@cons char 35%N r) = false).
    { change (heading_prefix 3) with (35%N :: 35%N :: 35%N :: lit " ")
        in Hstart.
      apply startswith_cons_inv in Hstart. destruct Hstart as (r1 & E1 & H).
      injection E1 as <-.
      apply startswith_cons_inv in H. destruct H as (r2 & -> & H).
      apply startswith_cons_inv in H. destruct H as (r3 & -> & _).
      split; reflexivity. }
    destruct H12 as [H1 H2].
    change (heading_prefix 3) with (lit "### ") in Hstart.
    rewrite H1, H2, Hstart.
    cbn [Nat.eqb].
    replace ((bullet ++ lit " ") ++ lit "*"
             ++ header_title 4 (@cons char 35%N r) ++ lit "*")
      with (bullet ++ lit " *" ++ header_title 4 (@cons char 35%N r)
            ++ lit "*")
      by (rewrite <- app_assoc; reflexivity).
    apply (Hdone _ (set_prev_was_empty false st)).
Qed.

Lemma heading_rendered_witness :
  exists st',
    step initial (lit "## Methods:") [lit "We train."] = Ok st' /\
    formatted_lines st' = [lit "*Methods*"; []].
Proof.
  destruct (heading_rendered 2 initial (lit "## Methods:") [lit "We train."])
    as (st' & Hstep & Hlines & _).
  - lia.
  - vm_compute. reflexivity.
  - exists st'. split; [exact Hstep |]. rewrite Hlines. reflexivity.
Defined.

Lemma lstrip_skipn (line : str) :
  skipn (length line - length (lstrip line)) line = lstrip line.
Proof.
  destruct (ResolverMore.lstrip_suffix line) as [a Ha].
  rewrite Ha at 1 3. rewrite length_app.
  replace (length a + length (lstrip line) - length (lstrip line))
    with (length a + 0) by lia.
  rewrite skipn_app, Nat.add_0_r, skipn_all.
  replace (length a - length a) with 0 by lia. reflexivity.
Qed.

(** X14: a line that matches the bullet pattern is emitted as a list
    item: the bullet, a space, and the formatted text that follows the
    marker and its space, behind three spaces when the line is indented
    more than the item before, one space when it is indented less but not
    at the margin, and none otherwise; the transducer is then in a list at
    the indentation of the line.  Such a line is never taken for a section
    title or a heading, and the branch for a marker without match is never
    run. *)
Theorem bullet_item_rendered (st : state) (line : str) (rest : list str) :
  Re.bullet_match line = true ->
  let indent := length line - length (lstrip line) in
  exists st',
    step st line rest = Ok st' /\
    formatted_lines st' =
      formatted_lines st
        ++ [(if list_indent st <? indent then lit "   "
             else if (indent <? list_indent st) && (0 <? indent)
                  then lit " " else [])
            ++ bullet ++ lit " "
            ++ _process_inline_formatting
                 (Re.sub Re.m_bold_colon (skipn (indent + 2) line))] /\
    in_list st' = true /\
    list_indent st' = indent.
Proof.
  intros Hbul indent.
  unfold Re.bullet_match in Hbul.
  destruct (lstrip line) as [| mk [| sp r]] eqn:El; try discriminate.
  apply andb_true_iff in Hbul. destruct Hbul as [Hmk Hsp].
  apply N.eqb_eq in Hsp. subst sp.
  assert (Hmk' : (mk = 35 \/ mk = 42 \/ mk = 45 \/ mk = 43)%N).
  { unfold Re.is_marker in Hmk. apply orb_true_iff in Hmk.
    destruct Hmk as [Hmk | Hmk]; [apply orb_true_iff in Hmk;
      destruct Hmk as [Hmk | Hmk] |]; apply N.eqb_eq in Hmk; auto. }
  assert (Hnot : mk <> 35%N).
  { intros ->. discriminate. }
  assert (Hstrip : strip line = strip (mk :: SP :: r)).
  { unfold strip. rewrite El.
    rewrite ResolverMore.lstrip_fixed; [reflexivity |].
    destruct Hmk' as [-> | [-> | [-> | ->]]]; reflexivity. }
  destruct (marked_line_not_title mk (SP :: r) Hmk') as [Htruthy Htitle].
  unfold is_section_title in Htitle. rewrite <- Hstrip in Htruthy, Htitle.
  fold (is_section_title line) in Htitle.
  assert (Hhead : forall p, startswith (35%N :: p) line = false).
  { intros p. destruct line as [| c l]; [reflexivity |].
    cbn [startswith]. destruct (N.eqb_spec 35 c) as [<- | _];
      [| reflexivity].
    exfalso. simpl in El. injection El as Hc _. exact (Hnot (eq_sym Hc)). }
  assert (Hskip : skipn (indent + 2) line = r).
  { pose proof (lstrip_skipn line) as Hs. rewrite El in Hs.
    subst indent. rewrite Nat.add_comm, <- skipn_skipn, Hs. reflexivity. }
  unfold step. rewrite Htruthy, Htitle. cbn [negb].
  change (lit "# ") with (35%N :: lit " ").
  change (lit "## ") with (35%N :: lit "# ").
  change (lit "### ") with (35%N :: lit "## ").
  rewrite !Hhead.
  unfold Re.bullet_match, Re.marker_match, Re.strip_marker. rewrite El.
  rewrite Hmk. cbn [andb]. change (SP =? SP)%N with true.
  change (isspace SP) with true. cbv iota.
  fold indent. rewrite Hskip.
  eexists. split; [reflexivity |]. cbn [formatted_lines set_list_indent
    set_in_list append set_prev_was_empty in_list list_indent].
  split; [| split; reflexivity].
  do 2 f_equal.
  destruct (list_indent st <? indent); [rewrite <- app_assoc; reflexivity |].
  destruct ((indent <? list_indent st) && (0 <? indent));
    [rewrite <- app_assoc; reflexivity | reflexivity].
Qed.

Lemma bullet_item_rendered_witness :
  exists st',
    step initial (lit "  * **Nested** item") [] = Ok st' /\
    formatted_lines st' = [lit "   " ++ bullet ++ lit " *Nested* item"] /\
    in_list st' = true /\ list_indent st' = 2.
Proof.
  destruct (bullet_item_rendered initial (lit "  * **Nested** item") [])
    as (st' & Hstep & Hlines & Hin & Hind).
  - vm_compute. reflexivity.
  - exists st'. split; [exact Hstep |]. split; [| split; assumption].
    rewrite Hlines. vm_compute. reflexivity.
Defined.

(** *** Double markers *)

Lemma sub_from_all (m : str -> option (str * nat)) (s : str) (k : nat) :
  length s <= k -> Re.sub_from m k s = [].
Proof.
  revert k. induction s as [| c s IH]; intros k Hk; [reflexivity |].
  destruct k as [| k]; [simpl in Hk; lia |].
  simpl. apply IH. simpl in Hk. lia.
Qed.

(** A match of the whole text is replaced as a whole. *)
Lemma sub_whole (m : str -> option (str * nat)) (s rep : str) :
  s <> [] -> m s = Some (rep, length s) -> Re.sub m s = rep.
Proof.
  intros Hs Hm. destruct s as [| c s]; [contradiction |].
  unfold Re.sub. cbn [Re.sub_from]. rewrite Hm. cbn [length pred].
  rewrite sub_from_all by lia. apply app_nil_r.
Qed.

Lemma startswith_app (p r : str) : startswith p (p ++ r) = true.
Proof.
  induction p as [| a p IH]; [reflexivity |].
  simpl. rewrite N.eqb_refl. exact IH.
Qed.

Lemma lazy_until_eq (cls s : str) :
  Re.lazy_until cls s =
    if startswith cls s then Some ([], skipn (length cls) s)
    else
      match s with
      | [] => None
      | c :: s' =>
          if (c =? NL)%N then None
          else
            match Re.lazy_until cls s' with
            | Some (g, r) => Some (c :: g, r)
            | None => None
            end
      end.
Proof. destruct s; reflexivity. Qed.

(** The lazy group runs to the first closing marker. *)
Lemma lazy_until_plain (d : char) (cls x r : str) :
  ~ In d x -> ~ In NL x ->
  Re.lazy_until (d :: cls) (x ++ (d :: cls) ++ r) = Some (x, r).
Proof.
  intros Hd Hnl. induction x as [| c x IH].
  - cbn [app]. rewrite lazy_until_eq.
    change (d :: cls ++ r) with ((d :: cls) ++ r).
    rewrite startswith_app, skipn_app, skipn_all, Nat.sub_diag.
    reflexivity.
  - assert (Hc : (d =? c)%N = false).
    { apply N.eqb_neq. intros ->. apply Hd. simpl. auto. }
    assert (Hn : (c =? NL)%N = false).
    { apply N.eqb_neq. intros ->. apply Hnl. simpl. auto. }
    rewrite lazy_until_eq.
    change ((c :: x) ++ (d :: cls) ++ r) with (c :: (x ++ (d :: cls) ++ r)).
    cbn [startswith]. rewrite Hc, Hn. cbn [andb].
    rewrite IH; [reflexivity | |]; intros H; [apply Hd | apply Hnl];
      simpl; auto.
Qed.

Lemma no_char_no_pair (d : char) (s : str) :
  ~ In d s -> contains [d; d] s = false.
Proof.
  induction s as [| c s IH]; intros Hd; [reflexivity |].
  rewrite contains_cons, IH by (intros H; apply Hd; simpl; auto).
  rewrite orb_false_r. cbn [startswith].
  destruct (N.eqb_spec d c) as [-> | _]; [| reflexivity].
  exfalso. apply Hd. simpl. auto.
Qed.

(** Two markers around a text that has none do not make a pair. *)
Lemma wrapped_no_pair (d : char) (x : str) :
  x <> [] -> ~ In d x -> contains [d; d] (d :: x ++ [d]) = false.
Proof.
  intros Hx Hd. destruct x as [| c x]; [contradiction |].
  assert (Hc : (d =? c)%N = false).
  { apply N.eqb_neq. intros ->. apply Hd. simpl. auto. }
  rewrite contains_cons. cbn [app startswith]. rewrite Hc, andb_false_r.
  cbn [orb].
  clear Hx. revert c Hd Hc. induction x as [| b x IH]; intros c Hd Hc.
  - cbn [app]. rewrite contains_cons. cbn [startswith]. rewrite Hc.
    cbn [andb orb]. rewrite contains_cons. cbn [startswith contains].
    rewrite N.eqb_refl. reflexivity.
  - cbn [app]. rewrite contains_cons. cbn [startswith]. rewrite Hc.
    cbn [andb orb]. apply IH.
    + intros [H | H]; apply Hd; simpl; auto.
    + apply N.eqb_neq. intros ->. apply Hd. simpl. auto.
Qed.

Lemma first_split (d : char) (a a' b b' : str) :
  ~ In d a -> ~ In d a' -> a ++ d :: b = a' ++ d :: b' -> a = a' /\ b = b'.
Proof.
  revert a'. induction a as [| c a IH]; intros a' Ha Ha' E.
  - destruct a' as [| c' a']; [injection E as <-; auto |].
    injection E as <- _. exfalso. apply Ha'. simpl. auto.
  - destruct a' as [| c' a'].
    + injection E as -> _. exfalso. apply Ha. simpl. auto.
    + injection E as <- E.
      destruct (IH a') as [<- <-]; auto;
        intros H; [apply Ha | apply Ha']; simpl; auto.
Qed.

Lemma takewhile_split (f : char -> bool) (s : str) :
  s = Re.takewhile f s ++ skipn (length (Re.takewhile f s)) s /\
  forall c, In c (Re.takewhile f s) -> f c = true.
Proof.
  induction s as [| a s [IH1 IH2]]; [split; [reflexivity | contradiction] |].
  simpl. destruct (f a) eqn:Ea; [| split; [reflexivity | contradiction]].
  split; [simpl; f_equal; exact IH1 |].
  intros c [<- | H]; auto.
Qed.

(** A match of the bold key pattern spans four asterisks. *)
Lemma m_bold_key_shape (s rep : str) (n : nat) :
  Re.m_bold_key s = Some (rep, n) ->
  exists g r,
    s = lit "**" ++ g ++ lit ":**" ++ r /\ g <> [] /\ ~ In 42%N g /\
    rep = lit "*" ++ g ++ lit ":*" /\ n = 2 + length g + 3.
Proof.
  unfold Re.m_bold_key.
  destruct (startswith (lit "**") s) eqn:Es; [| discriminate].
  change (lit "**") with (42%N :: 42%N :: []) in Es.
  apply startswith_cons_inv in Es. destruct Es as (s1 & -> & Es).
  apply startswith_cons_inv in Es. destruct Es as (body & -> & _).
  cbn [skipn].
  set (f := fun c => isword c || isspace c).
  destruct (takewhile_split f body) as [Hsplit Hall].
  set (g := Re.takewhile f body) in *.
  destruct ((1 <=? length g)
            && startswith (lit ":**") (skipn (length g) body)) eqn:Ec;
    [| discriminate].
  apply andb_true_iff in Ec. destruct Ec as [Hlen Hcolon].
  apply Nat.leb_le in Hlen.
  change (lit ":**") with (58%N :: 42%N :: 42%N :: []) in Hcolon.
  apply startswith_cons_inv in Hcolon. destruct Hcolon as (r1 & E1 & H).
  apply startswith_cons_inv in H. destruct H as (r2 & -> & H).
  apply startswith_cons_inv in H. destruct H as (r3 & -> & _).
  intros [= <- <-]. exists g, r3.
  split; [rewrite Hsplit at 1; rewrite E1; reflexivity |].
  split; [destruct g; [simpl in Hlen; lia | discriminate] |].
  split; [| split; reflexivity].
  intros Hin. apply Hall in Hin. discriminate.
Qed.

Lemma count_skipn (d : char) (s : str) (k : nat) :
  count_occ N.eq_dec (skipn k s) d <= count_occ N.eq_dec s d.
Proof.
  revert k. induction s as [| c s IH]; intros k.
  - rewrite skipn_nil. simpl. lia.
  - destruct k as [| k]; [apply Nat.le_refl |]. simpl skipn.
    specialize (IH k). simpl. destruct (N.eq_dec c d); lia.
Qed.

Lemma count_wrapped (x : str) :
  ~ In 42%N x -> count_occ N.eq_dec (42%N :: x ++ [42%N; 42%N]) 42%N = 3.
Proof.
  intros H. induction x as [| c x IH]; [reflexivity |].
  assert (IH' := IH (fun Hin => H (or_intror Hin))).
  simpl in *. destruct (N.eq_dec c 42%N) as [-> | _]; [| exact IH'].
  exfalso. apply H. auto.
Qed.

(** X15: around a text [x] without asterisk, underscore or line break,
    [_process_inline_formatting] turns the double asterisks into single
    ones and the double underscores into single ones, and keeps [x] as it
    is, a final colon of [x] included. *)
Theorem double_markers_converted (x : str) :
  ~ In 42%N x -> ~ In 95%N x -> ~ In NL x ->
  _process_inline_formatting (lit "**" ++ x ++ lit "**")
  = lit "*" ++ x ++ lit "*" /\
  _process_inline_formatting (lit "__" ++ x ++ lit "__")
  = lit "_" ++ x ++ lit "_".
Proof.
  intros Hstar Hunder Hnl.
  assert (Hno_under : forall y, ~ In 95%N y ->
            Re.sub Re.m_italic y = y).
  { intros y Hy. apply sub_never. intros k.
    apply m_delimited_closed, contains_false_suffix.
    apply (no_char_no_pair 95%N), Hy. }
  assert (Hstar_x : ~ In 95%N (lit "*" ++ x ++ lit "*")).
  { intros H. apply in_app_or in H. destruct H as [[H | []] | H];
      [discriminate |].
    apply in_app_or in H. destruct H as [H | [H | []]];
      [exact (Hunder H) | discriminate]. }
  split.
  - unfold _process_inline_formatting.
    set (text := lit "**" ++ x ++ lit "**").
    assert (Hbold : Re.sub Re.m_bold text = lit "*" ++ x ++ lit "*").
    { apply sub_whole; [discriminate |].
      unfold Re.m_bold, Re.m_delimited, text.
      rewrite startswith_app.
      change (skipn (length (lit "**")) (lit "**" ++ x ++ lit "**"))
        with (x ++ lit "**" ++ []).
      assert (Hl : Re.lazy_until (lit "**") (x ++ lit "**" ++ [])
                   = Some (x, []))
        by exact (lazy_until_plain 42%N [42%N] x [] Hstar Hnl).
      rewrite Hl.
      rewrite !length_app; simpl; repeat f_equal; lia. }
    destruct (Re.m_bold_key text) as [[rep n] |] eqn:Ekey.
    + destruct (m_bold_key_shape _ _ _ Ekey)
        as (g & r & Etext & Hg & Hgstar & -> & ->).
      assert (Esplit : x = g ++ [58%N] /\ [42%N] = 42%N :: r).
      { apply (first_split 42%N).
        - exact Hstar.
        - intros H. apply in_app_or in H.
          destruct H as [H | [H | []]]; [exact (Hgstar H) | discriminate].
        - unfold text in Etext. injection Etext as Etext.
          rewrite <- app_assoc. exact Etext. }
      destruct Esplit as [Ex Er]. injection Er as <-.
      assert (Hkey : Re.sub Re.m_bold_key text = lit "*" ++ x ++ lit "*").
      { apply sub_whole; [discriminate |]. rewrite Ekey.
        rewrite Ex. do 2 f_equal.
        - rewrite <- app_assoc. reflexivity.
        - unfold text. rewrite Ex, !length_app. simpl. lia. }
      rewrite Hkey.
      rewrite (sub_never Re.m_bold).
      * apply Hno_under, Hstar_x.
      * intros k. apply m_delimited_closed, contains_false_suffix.
        apply (wrapped_no_pair 42%N x); [| exact Hstar].
        rewrite Ex. destruct g; discriminate.
    + rewrite (sub_never Re.m_bold_key text).
      * rewrite Hbold. apply Hno_under, Hstar_x.
      * intros k. destruct k as [| k]; [exact Ekey |].
        destruct (Re.m_bold_key (skipn (S k) text)) as [[rep n] |] eqn:E;
          [| reflexivity].
        exfalso. destruct (m_bold_key_shape _ _ _ E)
          as (g & r & Esuf & _ & _ & _ & _).
        assert (Hfour : 4 <= count_occ N.eq_dec (skipn (S k) text) 42%N).
        { rewrite Esuf. rewrite !count_occ_app. simpl. lia. }
        assert (Hthree : count_occ N.eq_dec (skipn (S k) text) 42%N <= 3).
        { change (skipn (S k) text) with (skipn k (42%N :: x ++ lit "**")).
          etransitivity; [apply count_skipn |].
          apply Nat.eq_le_incl. exact (count_wrapped x Hstar). }
        lia.
  - unfold _process_inline_formatting.
    set (text := lit "__" ++ x ++ lit "__").
    assert (Hnostar : ~ In 42%N text).
    { unfold text. intros H. apply in_app_or in H.
      destruct H as [[H | [H | []]] | H]; try discriminate.
      apply in_app_or in H. destruct H as [H | [H | [H | []]]];
        [exact (Hstar H) | discriminate | discriminate]. }
    rewrite (sub_never Re.m_bold_key text).
    2: { intros k. apply m_bold_key_closed, contains_false_suffix.
         apply (no_char_no_pair 42%N), Hnostar. }
    rewrite (sub_never Re.m_bold text).
    2: { intros k. apply m_delimited_closed, contains_false_suffix.
         apply (no_char_no_pair 42%N), Hnostar. }
    apply sub_whole; [discriminate |].
    unfold Re.m_italic, Re.m_delimited, text.
    rewrite startswith_app.
    change (skipn (length (lit "__")) (lit "__" ++ x ++ lit "__"))
      with (x ++ lit "__" ++ []).
    assert (Hl : Re.lazy_until (lit "__") (x ++ lit "__" ++ [])
                 = Some (x, []))
      by exact (lazy_until_plain 95%N [95%N] x [] Hunder Hnl).
    rewrite Hl.
    rewrite !length_app; simpl; repeat f_equal; lia.
Qed.

Lemma double_markers_converted_witness :
  _process_inline_formatting (lit "**" ++ lit "Key:" ++ lit "**")
  = lit "*" ++ lit "Key:" ++ lit "*" /\
  _process_inline_formatting (lit "__" ++ lit "Key:" ++ lit "__")
  = lit "_" ++ lit "Key:" ++ lit "_".
Proof.
  apply (double_markers_converted (lit "Key:"));
    vm_compute; intuition discriminate.
Defined.

End FormatterMore.

(** ** Posting to Slack *)

Module PostSpec.

Import SlackPost TransducerTotal LayoutSpec.

(** The dictionary [post_paper_to_slack] hands to the layout. *)
Definition posted_paper (today : TopPaperGetter.date) (title arxiv_id : str)
           (upvotes : Z) (pdf_url summary : str) : paper :=
  mkPaper (Some title) (Some arxiv_id) (Some upvotes) (Some pdf_url)
    (Some summary) (Some (TopPaperGetter.strftime today)).

Lemma blocks_total (p : paper) :
  exists blocks,
    _format_paper_blocks p = Some (Ok blocks) /\ 7 <= length blocks.
Proof.
  destruct (format_markdown_total
              (get (p_summary p) (lit "No summary available.")))
    as [out Hout].
  destruct (summary_chunks_total out) as [cs Hcs].
  exists (fixed_blocks p ++ map chunk_block cs ++ [context_block p]).
  split.
  - unfold _format_paper_blocks. rewrite Hout, Hcs. reflexivity.
  - rewrite !length_app, length_map. simpl. lia.
Qed.

Lemma without_dots_clean (text : str) : ~ In 46%N (without_dots text).
Proof.
  unfold without_dots. intros H. apply filter_In in H.
  destruct H as [_ H]. rewrite N.eqb_refl in H. discriminate.
Qed.

Section Post.

Variable today : TopPaperGetter.date.
Variable chat_postMessage : str -> str -> list block -> str -> api_outcome.
Variables title arxiv_id pdf_url summary channel : str.
Variable upvotes : Z.

(** X16: [post_paper_to_slack] always returns a dictionary, and it reports
    success only when the token is not empty and the client delivered the
    layout of the paper, with the fallback text [New research paper: ] and
    the title, to the channel asked for, or to the default channel when
    none was asked for; the time stamp is the one of the response, and the
    address of the message is built from the channel of the response and
    that time stamp with its dots removed. *)
Theorem posted_only_when_delivered (slack_token : option str) :
  exists r,
    post_paper_to_slack slack_token today chat_postMessage title arxiv_id
      upvotes pdf_url summary channel = Some r /\
    forall ch ts url,
      r = Posted ch ts url ->
      exists token blocks resp,
        slack_token = Some token /\ token <> [] /\
        _format_paper_blocks
          (posted_paper today title arxiv_id upvotes pdf_url summary)
        = Some (Ok blocks) /\
        chat_postMessage token ch blocks (lit "New research paper: " ++ title)
        = Delivered resp /\
        (channel = [] -> ch = DEFAULT_CHANNEL) /\
        (channel <> [] -> ch = channel) /\
        ts = resp_ts resp /\
        url = lit "https://slack.com/archives/" ++ resp_channel resp
              ++ lit "/p" ++ without_dots ts /\
        ~ In 46%N (without_dots ts).
Proof.
  destruct (blocks_total
              (posted_paper today title arxiv_id upvotes pdf_url summary))
    as (blocks & Hb & _).
  unfold post_paper_to_slack. fold (posted_paper today title arxiv_id
                                      upvotes pdf_url summary).
  destruct slack_token as [[| c token] |].
  - eexists. split; [reflexivity |]. intros ch ts url H. discriminate.
  - rewrite Hb.
    set (ch0 := match channel with [] => DEFAULT_CHANNEL | _ :: _ => channel end).
    destruct (chat_postMessage (c :: token) ch0 blocks
                (lit "New research paper: " ++ title)) as [r | t | t] eqn:E.
    + eexists. split; [reflexivity |]. intros ch ts url [= <- <- <-].
      exists (c :: token), blocks, r.
      split; [reflexivity |]. split; [discriminate |].
      split; [reflexivity |]. split; [exact E |].
      split; [intros ->; reflexivity |].
      split; [subst ch0; destruct channel; [congruence | reflexivity] |].
      split; [reflexivity |]. split; [reflexivity |].
      apply without_dots_clean.
    + eexists. split; [reflexivity |]. intros ch ts url H. discriminate.
    + eexists. split; [reflexivity |]. intros ch ts url H. discriminate.
  - eexists. split; [reflexivity |]. intros ch ts url H. discriminate.
Qed.

(** X17: the answer is the error
    [SLACK_API_TOKEN environment variable not set] exactly when the token
    is missing (the variable is not set, or is empty), whatever the paper
    and whatever the client would do: without a token no request is made,
    and with a token no failure of the request is reported under that
    text. *)
Theorem no_token_no_request (slack_token : option str) :
  post_paper_to_slack slack_token today chat_postMessage title arxiv_id
    upvotes pdf_url summary channel
  = Some (NotPosted (lit "SLACK_API_TOKEN environment variable not set"))
  <-> slack_token = None \/ slack_token = Some [].
Proof.
  split; [| intros [-> | ->]; reflexivity].
  destruct slack_token as [[| c token] |]; [auto | | auto].
  destruct (blocks_total
              (posted_paper today title arxiv_id upvotes pdf_url summary))
    as (blocks & Hb & _).
  unfold post_paper_to_slack. fold (posted_paper today title arxiv_id
                                      upvotes pdf_url summary).
  rewrite Hb.
  destruct (chat_postMessage (c :: token) _ blocks _) as [r | t | t];
    intros H; exfalso; try discriminate H;
    injection H as H; cbn in H; discriminate H.
Qed.


End Post.

Definition day_of_post : TopPaperGetter.date := 739000%Z.

Definition refusing_client (token ch : str) (blocks : list block)
           (fallback : str) : api_outcome :=
  SlackApiError (lit "channel_not_found").

Lemma no_token_no_request_witness :
  post_paper_to_slack (Some []) day_of_post refusing_client (lit "A title")
    (lit "2503.14456") 42 (lit "https://arxiv.org/pdf/2503.14456")
    (lit "A summary.") []
  = Some (NotPosted (lit "SLACK_API_TOKEN environment variable not set")).
Proof.
  apply (proj2 (no_token_no_request day_of_post refusing_client
                  (lit "A title") (lit "2503.14456")
                  (lit "https://arxiv.org/pdf/2503.14456")
                  (lit "A summary.") [] 42 (Some []))).
  right. reflexivity.
Defined.


End PostSpec.

(** ** The environment and the run of the agent *)

Module AgentUtilsSpec.

Import PyVal AgentUtils.

Definition openai_missing : str :=
  lit "OPENAI_API_KEY is required but not found in environment variables".

Definition slack_missing : str :=
  lit "SLACK_API_TOKEN is required but not found in environment variables".

Lemma present_some (v : option str) :
  present v = true <-> exists c r, v = Some (c :: r).
Proof.
  destruct v as [[| c r] |]; simpl; split; try discriminate; eauto.
  all: intros (c' & r' & H); discriminate.
Qed.

Lemma env_ok_inv (env : environ) (key token channel : str) :
  load_and_validate_env env = EnvOk key token channel ->
  OPENAI_API_KEY env = Some key /\ key <> [] /\
  SLACK_API_TOKEN env = Some token /\ token <> [].
Proof.
  destruct env as [k t c]. unfold load_and_validate_env. simpl.
  destruct k as [[| a k] |]; try discriminate.
  destruct t as [[| b t] |]; try discriminate.
  intros [= <- <- <-]. repeat split; discriminate.
Qed.

(** X19: the environment is accepted exactly when the OpenAI key and the
    Slack token are both set and not empty; then they are returned as they
    are, with the channel variable as it is set, the empty text included,
    and the default channel only when that variable is not set.  A missing
    OpenAI key is the error reported, whatever the Slack token is. *)
Theorem env_validation (env : environ) :
  (present (OPENAI_API_KEY env) = false ->
   load_and_validate_env env = EnvError openai_missing) /\
  (present (OPENAI_API_KEY env) = true ->
   present (SLACK_API_TOKEN env) = false ->
   load_and_validate_env env = EnvError slack_missing) /\
  (forall key token channel,
      load_and_validate_env env = EnvOk key token channel <->
      OPENAI_API_KEY env = Some key /\ key <> [] /\
      SLACK_API_TOKEN env = Some token /\ token <> [] /\
      (SLACK_CHANNEL env = Some channel \/
       SLACK_CHANNEL env = None /\
       channel = lit "#ai-papers-and-research")).
Proof.
  destruct env as [k t c]. unfold load_and_validate_env. simpl.
  split; [| split].
  - destruct k as [[| a k] |]; simpl; intros H;
      [reflexivity | discriminate | reflexivity].
  - destruct k as [[| a k] |]; simpl; intros H; try discriminate.
    destruct t as [[| b t] |]; simpl; intros H';
      [reflexivity | discriminate | reflexivity].
  - intros key token channel. split.
    + destruct k as [[| a k] |]; try discriminate.
      destruct t as [[| b t] |]; try discriminate.
      intros [= <- <- <-].
      split; [reflexivity |]. split; [discriminate |].
      split; [reflexivity |]. split; [discriminate |].
      destruct c; [left; reflexivity | right; split; reflexivity].
    + intros (-> & Hk & -> & Ht & Hc).
      destruct key as [| a key]; [congruence |].
      destruct token as [| b token]; [congruence |].
      destruct Hc as [-> | [-> ->]]; reflexivity.
Qed.

Lemma env_validation_witness :
  load_and_validate_env
    (mkEnviron None (Some (lit "xoxb-1")) (Some (lit "#papers")))
  = EnvError openai_missing /\
  load_and_validate_env
    (mkEnviron (Some (lit "sk-1")) (Some (lit "xoxb-1")) (Some []))
  = EnvOk (lit "sk-1") (lit "xoxb-1") [].
Proof.
  split.
  - apply (proj1 (env_validation
                    (mkEnviron None (Some (lit "xoxb-1"))
                       (Some (lit "#papers"))))).
    reflexivity.
  - apply (proj2 (proj2 (env_validation
                           (mkEnviron (Some (lit "sk-1"))
                              (Some (lit "xoxb-1")) (Some []))))).
    split; [reflexivity |]. split; [discriminate |].
    split; [reflexivity |]. split; [discriminate |].
    left. reflexivity.
Defined.

Section Initialize.

Variable assistant : Type.
Variable tool : Type.
Variable create : str -> str -> str -> list tool -> str -> result assistant.

(** X20: [initialize_agent] fails only with an [Exception] whose text is
    [Failed to initialize agent: ] followed by the error of the
    environment, or by the text of the exception the creation of the
    assistant raised; with a rejected environment no assistant is asked
    for; when it succeeds, the assistant is the one created with the key
    of the environment and the model [gpt-4-turbo-preview]. *)
Theorem initialize_agent_outcome (env : environ) (instructions name : str)
        (tools : list tool) :
  (forall error,
      load_and_validate_env env = EnvError error ->
      initialize_agent assistant tool create env instructions name tools
      = Raise (Exception (lit "Failed to initialize agent: " ++ error))) /\
  (forall e,
      initialize_agent assistant tool create env instructions name tools
      = Raise e ->
      exists text,
        e = Exception (lit "Failed to initialize agent: " ++ text) /\
        (load_and_validate_env env = EnvError text \/
         exists key e',
           OPENAI_API_KEY env = Some key /\
           create key name instructions tools (lit "gpt-4-turbo-preview")
           = Raise e' /\
           text = str_of_exn e')) /\
  (forall a,
      initialize_agent assistant tool create env instructions name tools
      = Ok a ->
      exists key,
        OPENAI_API_KEY env = Some key /\ key <> [] /\
        present (SLACK_API_TOKEN env) = true /\
        create key name instructions tools (lit "gpt-4-turbo-preview")
        = Ok a).
Proof.
  unfold initialize_agent.
  destruct (load_and_validate_env env) as [error | key token channel] eqn:E.
  - split; [| split].
    + intros error' [= <-]. reflexivity.
    + intros e [= <-]. exists error. split; [reflexivity |]. left.
      reflexivity.
    + intros a H. discriminate.
  - apply env_ok_inv in E. destruct E as (Hk & Hk' & Ht & Ht').
    split; [| split].
    + intros error H. discriminate.
    + intros e. unfold try_except.
      destruct (create key name instructions tools
                  (lit "gpt-4-turbo-preview")) as [a | e'] eqn:Ec.
      * discriminate.
      * intros [= <-]. exists (str_of_exn e'). split; [reflexivity |].
        right. exists key, e'. auto.
    + intros a. unfold try_except.
      destruct (create key name instructions tools
                  (lit "gpt-4-turbo-preview")) as [a' | e'] eqn:Ec.
      * intros [= <-]. exists key. rewrite Ht.
        destruct token; [congruence |]. auto.
      * discriminate.
Qed.

End Initialize.

Lemma initialize_agent_outcome_witness :
  initialize_agent unit unit
    (fun _ _ _ _ _ => Ok tt)
    (mkEnviron (Some []) (Some (lit "xoxb-1")) None)
    (lit "Summarise.") (lit "Paper agent") []
  = Raise (Exception (lit "Failed to initialize agent: " ++ openai_missing)).
Proof.
  apply (proj1 (initialize_agent_outcome unit unit (fun _ _ _ _ _ => Ok tt)
                  (mkEnviron (Some []) (Some (lit "xoxb-1")) None)
                  (lit "Summarise.") (lit "Paper agent") [])).
  reflexivity.
Defined.

(** *** [check_slack_posting] *)











Section Check.

Variable str_of_container : pyval -> str.





End Check.










End AgentUtilsSpec.

(** ** The report of the orchestrator *)

Module AgentCodeSpec.

Import PyVal AgentCode.

(** An element the loop stops at, and its [raw]. *)
Definition is_call (it : run_item) (r : pyval) : Prop :=
  exists t,
    tool it = Some t /\ is_text t (lit "post_paper_to_slack") = true /\
    raw it = Some r.

Lemma first_slack_call_none (items : list run_item) :
  first_slack_call items = None <->
  forall it r, In it items -> ~ is_call it r.
Proof.
  induction items as [| it items IH]; simpl.
  - split; [intros _ it r [] | reflexivity].
  - split.
    + intros H it' r [<- | Hin] (t & Ht & Hn & Hr).
      * rewrite Ht, Hr, Hn in H. discriminate.
      * destruct (tool it) as [t' |], (raw it) as [r' |];
          try destruct (is_text t' _); try discriminate;
          exact (proj1 IH H it' r Hin (ex_intro _ t (conj Ht (conj Hn Hr)))).
    + intros H.
      assert (Hrest : first_slack_call items = None)
        by (apply IH; intros it' r Hin; apply H; right; exact Hin).
      destruct (tool it) as [t |] eqn:Et, (raw it) as [r |] eqn:Er;
        try exact Hrest.
      destruct (is_text t (lit "post_paper_to_slack")) eqn:En;
        [| exact Hrest].
      exfalso. apply (H it r); [left; reflexivity |].
      exists t. auto.
Qed.

Lemma first_slack_call_first (before after : list run_item) (it : run_item)
      (r : pyval) :
  (forall it' r', In it' before -> ~ is_call it' r') ->
  is_call it r ->
  first_slack_call (before ++ it :: after) = Some r.
Proof.
  intros Hb (t & Ht & Hn & Hr). induction before as [| it' before IH].
  - simpl. rewrite Ht, Hr, Hn. reflexivity.
  - assert (IH' : first_slack_call (before ++ it :: after) = Some r)
      by (apply IH; intros x y Hin; apply Hb; right; exact Hin).
    simpl. destruct (tool it') as [t' |] eqn:Et, (raw it') as [r' |] eqn:Er;
      try exact IH'.
    destruct (is_text t' (lit "post_paper_to_slack")) eqn:En; [| exact IH'].
    exfalso. apply (Hb it' r'); [left; reflexivity |].
    exists t'. auto.
Qed.

Lemma first_slack_call_some (items : list run_item) (r : pyval) :
  first_slack_call items = Some r ->
  exists it, In it items /\ is_call it r.
Proof.
  induction items as [| it items IH]; simpl; [discriminate |].
  intros H.
  assert (Hrest : first_slack_call items = Some r ->
                  exists it', (it = it' \/ In it' items) /\ is_call it' r).
  { intros H'. destruct (IH H') as (it' & Hin & Hc). eauto. }
  destruct (tool it) as [t |] eqn:Et, (raw it) as [r' |] eqn:Er; auto.
  destruct (is_text t (lit "post_paper_to_slack")) eqn:En; auto.
  injection H as <-. exists it. split; [left; reflexivity |].
  exists t. auto.
Qed.

(** X24: the report says [slack_posted] exactly when some element of the
    run has the attributes [tool] and [raw] and its [tool] is
    [post_paper_to_slack]; the result is then the [raw] of the first such
    element, whatever it says of the success of the post, and the address
    is its [message_url] when it is a dictionary, [None] when it has none
    or is not a dictionary.  Without such an element the result and the
    address are [None]. *)
Theorem slack_posted_means_called (new_items : list run_item) :
  (slack_posted (check_slack_posting new_items) = true <->
   exists it r, In it new_items /\ is_call it r) /\
  (slack_posted (check_slack_posting new_items) = false ->
   check_slack_posting new_items = mkSlackInfo false PNone PNone) /\
  (forall before it after r,
      new_items = before ++ it :: after ->
      (forall it' r', In it' before -> ~ is_call it' r') ->
      is_call it r ->
      slack_posted (check_slack_posting new_items) = true /\
      slack_result (check_slack_posting new_items) = r /\
      (forall d,
          r = PDict d ->
          slack_url (check_slack_posting new_items)
          = get_or d (lit "message_url") PNone) /\
      ((forall d, r <> PDict d) ->
       slack_url (check_slack_posting new_items) = PNone)).
Proof.
  unfold check_slack_posting. split; [| split].
  - destruct (first_slack_call new_items) as [r |] eqn:E; simpl.
    + split; [intros _ | reflexivity].
      destruct (first_slack_call_some _ _ E) as (it & Hin & Hc). eauto.
    + split; [discriminate |]. intros (it & r & Hin & Hc).
      exfalso. exact (proj1 (first_slack_call_none _) E it r Hin Hc).
  - destruct (first_slack_call new_items); simpl;
      [discriminate | reflexivity].
  - intros before it after r -> Hb Hc.
    rewrite (first_slack_call_first before after it r Hb Hc). simpl.
    split; [reflexivity |]. split; [reflexivity |]. split.
    + intros d ->. destruct d; reflexivity.
    + intros Hd. destruct r as [| | | | | d]; try reflexivity.
      exfalso. exact (Hd d eq_refl).
Qed.

Definition failed_call : run_item :=
  mkRunItem (Some (PStr (lit "post_paper_to_slack")))
    (Some (PDict [(lit "success", PBool false);
                  (lit "error", PStr (lit "channel_not_found"))])).

Lemma slack_posted_means_called_witness :
  slack_posted
    (check_slack_posting [mkRunItem None (Some PNone); failed_call]) = true
  /\ slack_url
       (check_slack_posting [mkRunItem None (Some PNone); failed_call])
     = PNone.
Proof.
  destruct (proj2 (proj2 (slack_posted_means_called
                            [mkRunItem None (Some PNone); failed_call]))
              [mkRunItem None (Some PNone)] failed_call []
              (PDict [(lit "success", PBool false);
                      (lit "error", PStr (lit "channel_not_found"))])
              eq_refl)
    as (H1 & _ & H3 & _).
  - intros it' r' [<- | []] (t & Ht & _). discriminate.
  - exists (PStr (lit "post_paper_to_slack")). repeat split.
  - split; [exact H1 |]. exact (H3 _ eq_refl).
Defined.

End AgentCodeSpec.

(** ** The key of the main block *)

Module MainSpec.

Import Main.

Definition all_quotes (s : str) : Prop := Forall (fun c => In c quotes) s.

Lemma in_chars (c : char) (chars : list char) :
  existsb (N.eqb c) chars = true <-> In c chars.
Proof.
  rewrite existsb_exists. split.
  - intros (x & Hin & He). apply N.eqb_eq in He. subst x. exact Hin.
  - intros Hin. exists c. split; [exact Hin | apply N.eqb_refl].
Qed.

Lemma lstrip_chars_all (chars : list char) (a x : str) :
  Forall (fun c => In c chars) a ->
  lstrip_chars chars (a ++ x) = lstrip_chars chars x.
Proof.
  intros H. induction H as [| c a Hc _ IH]; [reflexivity |].
  cbn [app lstrip_chars]. rewrite (proj2 (in_chars c chars) Hc). exact IH.
Qed.

Lemma lstrip_chars_fixed (chars : list char) (c : char) (r : str) :
  ~ In c chars -> lstrip_chars chars (c :: r) = c :: r.
Proof.
  intros H. cbn [lstrip_chars].
  destruct (existsb (N.eqb c) chars) eqn:E; [| reflexivity].
  exfalso. apply H, in_chars, E.
Qed.

Lemma lstrip_all_space (a x : str) :
  Forall (fun c => isspace c = true) a -> lstrip (a ++ x) = lstrip x.
Proof.
  intros H. induction H as [| c a Hc _ IH]; [reflexivity |].
  cbn [app lstrip]. rewrite Hc. exact IH.
Qed.

(** A value between quotes is the value: the quotes around a text that
    neither starts nor ends with a quote are removed, and nothing else. *)
Lemma strip_chars_wrapped (q1 v q2 : str) :
  all_quotes q1 -> all_quotes q2 ->
  (forall c r, v = c :: r -> ~ In c quotes) ->
  (forall r c, v = r ++ [c] -> ~ In c quotes) ->
  strip_chars quotes (q1 ++ v ++ q2) = v.
Proof.
  intros H1 H2 Hf Hl. unfold strip_chars.
  rewrite (lstrip_chars_all quotes q1 _ H1).
  destruct v as [| c r].
  - cbn [app]. rewrite <- (app_nil_r q2) at 1.
    rewrite (lstrip_chars_all quotes q2 [] H2). reflexivity.
  - cbn [app]. rewrite (lstrip_chars_fixed quotes c _ (Hf c r eq_refl)).
    change (c :: r ++ q2) with ((c :: r) ++ q2). rewrite rev_app_distr.
    assert (Hq : Forall (fun c => In c quotes) (rev q2)).
    { apply Forall_forall. intros x Hx. apply in_rev in Hx.
      exact (proj1 (Forall_forall _ _) H2 x Hx). }
    rewrite (lstrip_chars_all quotes (rev q2) _ Hq).
    destruct (exists_last (l := c :: r) ltac:(discriminate))
      as (r' & c' & E).
    rewrite E, rev_app_distr. cbn [rev app].
    rewrite (lstrip_chars_fixed quotes c' _ (Hl r' c' E)).
    change (c' :: rev r') with (rev [c'] ++ rev r').
    rewrite <- rev_app_distr, rev_involutive. reflexivity.
Qed.

(** Stripping a text that starts and ends with characters that are not
    white space removes the white space that follows it, and nothing
    else. *)
Lemma strip_trailing (c : char) (body : str) (d : char) (ws : str) :
  isspace c = false -> isspace d = false ->
  Forall (fun c => isspace c = true) ws ->
  strip (c :: body ++ d :: ws) = c :: body ++ [d].
Proof.
  intros Hc Hd Hws. unfold strip.
  rewrite (ResolverMore.lstrip_fixed c _ Hc). unfold rstrip.
  replace (c :: body ++ d :: ws) with ((c :: body ++ [d]) ++ ws)
    by (simpl; rewrite <- app_assoc; reflexivity).
  rewrite rev_app_distr.
  assert (Hr : Forall (fun c => isspace c = true) (rev ws)).
  { apply Forall_forall. intros x Hx. apply in_rev in Hx.
    exact (proj1 (Forall_forall _ _) Hws x Hx). }
  rewrite (lstrip_all_space (rev ws) _ Hr).
  change (c :: body ++ [d]) with ((c :: body) ++ [d]).
  rewrite rev_app_distr. cbn [rev app].
  rewrite (ResolverMore.lstrip_fixed d _ Hd).
  change (d :: rev body ++ [c]) with (rev [d] ++ rev (c :: body)).
  rewrite <- rev_app_distr, rev_involutive. reflexivity.
Qed.

Lemma last_or_nil (s : str) : s = [] \/ exists r c, s = r ++ [c].
Proof.
  destruct s as [| a s]; [left; reflexivity | right].
  destruct (exists_last (l := a :: s) ltac:(discriminate)) as (r & c & E).
  eauto.
Qed.

Lemma scan_lines_skip (api_key : option str) (before rest : list str) :
  Forall (fun line => startswith key_prefix line = false) before ->
  scan_lines api_key (before ++ rest) = scan_lines api_key rest.
Proof.
  intros H. induction H as [| l before Hl _ IH]; [reflexivity |].
  cbn [app scan_lines]. rewrite Hl. exact IH.
Qed.

Lemma after_equals_prefix (rest : str) :
  after_equals (key_prefix ++ rest) = Some rest.
Proof. reflexivity. Qed.

(** X25: a key in the environment that is not empty is returned as it is
    and the file is not consulted; when the variable is missing or empty
    and the file cannot be read, or holds no line that starts with
    [OPENAI_API_KEY=], the value of the variable is returned as it was,
    and the main block does not run the agent. *)
Theorem env_key_first (env_key : option str) (dotenv : result (list str)) :
  (forall c key, env_key = Some (c :: key) ->
                 get_api_key env_key dotenv = env_key) /\
  (env_key = None \/ env_key = Some [] ->
   (exists e, dotenv = Raise e) \/
   (exists lines,
       dotenv = Ok lines /\
       Forall (fun line => startswith key_prefix line = false) lines) ->
   get_api_key env_key dotenv = env_key /\
   runs_agent (get_api_key env_key dotenv) = false).
Proof.
  split.
  - intros c key ->. reflexivity.
  - intros Hk Hd.
    assert (H : get_api_key env_key dotenv = env_key).
    { destruct Hd as [[e ->] | (lines & -> & Hl)].
      - destruct Hk as [-> | ->]; reflexivity.
      - assert (Hs : scan_lines env_key lines = env_key).
        { rewrite <- (app_nil_r lines).
          rewrite (scan_lines_skip env_key lines [] Hl). reflexivity. }
        destruct Hk as [-> | ->]; exact Hs. }
    split; [exact H |]. rewrite H.
    destruct Hk as [-> | ->]; reflexivity.
Qed.

Lemma env_key_first_witness :
  get_api_key (Some []) (Ok [lit "# keys"; lit "SLACK_API_TOKEN=xoxb-1"])
  = Some [] /\
  runs_agent
    (get_api_key (Some []) (Ok [lit "# keys"; lit "SLACK_API_TOKEN=xoxb-1"]))
  = false.
Proof.
  apply (proj2 (env_key_first (Some [])
                  (Ok [lit "# keys"; lit "SLACK_API_TOKEN=xoxb-1"]))).
  - right. reflexivity.
  - right. eexists. split; [reflexivity |].
    apply Forall_cons; [reflexivity |].
    apply Forall_cons; [reflexivity | apply Forall_nil].
Defined.

(** X26: when the variable is missing or empty, the key is read from the
    first line of the file that starts with [OPENAI_API_KEY=], later lines
    are not read: for a value that neither starts nor ends with a quote
    and does not end with white space, written after the sign with any
    single and double quotes around it and white space (the end of the
    line) behind, the key is that value, an [=] inside it included. *)
Theorem dotenv_entry_parsed (env_key : option str)
        (before after : list str) (q1 v q2 ws : str) :
  env_key = None \/ env_key = Some [] ->
  Forall (fun line => startswith key_prefix line = false) before ->
  all_quotes q1 -> all_quotes q2 ->
  Forall (fun c => isspace c = true) ws ->
  (forall c r, v = c :: r -> ~ In c quotes) ->
  (forall r c, v = r ++ [c] -> ~ In c quotes /\ isspace c = false) ->
  get_api_key env_key
    (Ok (before ++ (key_prefix ++ q1 ++ v ++ q2 ++ ws) :: after))
  = Some v.
Proof.
  intros Hk Hb H1 H2 Hws Hf Hl.
  assert (Hq : forall c, In c quotes -> isspace c = false).
  { intros c [<- | [<- | []]]; reflexivity. }
  (* the text after the sign ends with a character that is not white
     space, or is empty *)
  assert (Hend : q1 ++ v ++ q2 = [] \/
                 exists body d, q1 ++ v ++ q2 = body ++ [d] /\
                                isspace d = false).
  { destruct (q1 ++ v ++ q2) as [| a s] eqn:E; [left; reflexivity |].
    right.
    destruct (exists_last (l := a :: s) ltac:(discriminate))
      as (body & d & Hbd).
    exists body, d. split; [exact Hbd |].
    rewrite Hbd in E.
    destruct (last_or_nil q2) as [-> | (q2' & d2 & ->)].
    - rewrite app_nil_r in E.
      destruct (last_or_nil v) as [-> | (v' & dv & ->)].
      + rewrite app_nil_r in E. subst q1.
        apply Hq. apply (proj1 (Forall_forall _ _) H1).
        apply in_or_app. right. left. reflexivity.
      + rewrite app_assoc in E. apply app_inj_tail in E.
        destruct E as [_ <-]. exact (proj2 (Hl v' dv eq_refl)).
    - rewrite !app_assoc in E. apply app_inj_tail in E.
      destruct E as [_ <-]. apply Hq.
      apply (proj1 (Forall_forall _ _) H2).
      apply in_or_app. right. left. reflexivity. }
  assert (Hstrip : strip (key_prefix ++ q1 ++ v ++ q2 ++ ws)
                   = key_prefix ++ q1 ++ v ++ q2).
  { replace (q1 ++ v ++ q2 ++ ws) with ((q1 ++ v ++ q2) ++ ws)
      by (rewrite <- !app_assoc; reflexivity).
    destruct Hend as [-> | (body & d & -> & Hd)].
    - cbn [app].
      exact (strip_trailing 79%N (lit "PENAI_API_KEY") 61%N ws
               eq_refl eq_refl Hws).
    - rewrite <- app_assoc. cbn [app].
      pose proof (strip_trailing 79%N (lit "PENAI_API_KEY=" ++ body) d ws
                    eq_refl Hd Hws) as Hs.
      rewrite <- !app_assoc in Hs. exact Hs. }
  assert (Hscan : forall k,
             scan_lines k
               (before ++ (key_prefix ++ q1 ++ v ++ q2 ++ ws) :: after)
             = Some v).
  { intros k. rewrite (scan_lines_skip k before _ Hb).
    cbn [scan_lines]. rewrite FormatterMore.startswith_app.
    rewrite Hstrip, after_equals_prefix.
    rewrite (strip_chars_wrapped q1 v q2 H1 H2 Hf
               (fun r c E => proj1 (Hl r c E))).
    reflexivity. }
  destruct Hk as [-> | ->]; exact (Hscan _).
Qed.

Lemma dotenv_entry_parsed_witness :
  get_api_key None
    (Ok [lit "# keys";
         key_prefix ++ [34%N] ++ lit "sk-a=b" ++ [34%N] ++ [NL];
         key_prefix ++ lit "sk-later" ++ [NL]])
  = Some (lit "sk-a=b").
Proof.
  apply (dotenv_entry_parsed None [lit "# keys"]
           [key_prefix ++ lit "sk-later" ++ [NL]]
           [34%N] (lit "sk-a=b") [34%N] [NL]).
  - left. reflexivity.
  - apply Forall_cons; [reflexivity | apply Forall_nil].
  - apply Forall_cons; [right; left; reflexivity | apply Forall_nil].
  - apply Forall_cons; [right; left; reflexivity | apply Forall_nil].
  - apply Forall_cons; [reflexivity | apply Forall_nil].
  - intros c r [= <- _] [H | [H | []]]; discriminate.
  - intros r c E.
    assert (Hc : c = 98%N).
    { change (lit "sk-a=b") with (lit "sk-a=" ++ [98%N]) in E.
      apply app_inj_tail in E. symmetry. exact (proj2 E). }
    subst c. split; [| reflexivity].
    intros [H | [H | []]]; discriminate.
Defined.

End MainSpec.

(** ** The markers a pass keeps *)

Module MarkersSpec.

Import TransducerTotal TransducerSpec FormatterMore.

(** An asterisk or an underscore. *)
Definition is_mark (c : char) : bool := ((c =? 42) || (c =? 95))%N.

Lemma markers_app (a b : str) : markers (a ++ b) = markers a ++ markers b.
Proof. apply filter_app. Qed.

Lemma markers_without (s : str) :
  Forall (fun c => is_mark c = false) s -> markers s = [].
Proof.
  induction 1 as [| c s Hc _ IH]; [reflexivity |].
  unfold markers in *. cbn [filter]. fold (is_mark c). rewrite Hc. exact IH.
Qed.

Lemma space_not_mark (c : char) : isspace c = true -> is_mark c = false.
Proof.
  intros H. unfold is_mark.
  destruct (N.eqb_spec c 42) as [-> | _]; [vm_compute in H; discriminate |].
  destruct (N.eqb_spec c 95) as [-> | _]; [vm_compute in H; discriminate |].
  reflexivity.
Qed.

Lemma digit_not_mark (c : char) : isdigit c = true -> is_mark c = false.
Proof.
  intros H. unfold is_mark.
  destruct (N.eqb_spec c 42) as [-> | _]; [vm_compute in H; discriminate |].
  destruct (N.eqb_spec c 95) as [-> | _]; [vm_compute in H; discriminate |].
  reflexivity.
Qed.

Lemma markers_spaces (s : str) : all_space s -> markers s = [].
Proof.
  intros H. apply markers_without.
  eapply Forall_impl; [| exact H]. exact space_not_mark.
Qed.

Lemma markers_digits (s : str) :
  (forall c, In c s -> isdigit c = true) -> markers s = [].
Proof.
  intros H. apply markers_without, Forall_forall.
  intros c Hc. apply digit_not_mark, H, Hc.
Qed.

(** *** Blank lines *)

Lemma lstrip_nil (s : str) : lstrip s = [] -> all_space s.
Proof.
  induction s as [| c s IH]; [constructor |].
  cbn [lstrip]. destruct (isspace c) eqn:Ec; [| discriminate].
  intros H. constructor; [exact Ec | exact (IH H)].
Qed.

Lemma lstrip_split (s : str) :
  exists ws, s = ws ++ lstrip s /\ all_space ws.
Proof.
  induction s as [| c s (ws & Hs & Hws)].
  - exists []. split; [reflexivity | constructor].
  - cbn [lstrip]. destruct (isspace c) eqn:Ec.
    + exists (c :: ws). split; [simpl; f_equal; exact Hs |].
      constructor; assumption.
    + exists []. split; [reflexivity | constructor].
Qed.

Lemma strip_nil (s : str) : strip s = [] -> all_space s.
Proof.
  unfold strip, rstrip. intros H.
  assert (H' : lstrip (rev (lstrip s)) = []).
  { destruct (lstrip (rev (lstrip s))) as [| c r]; [reflexivity |].
    apply (f_equal (@length char)) in H. rewrite length_rev in H.
    discriminate. }
  apply lstrip_nil in H'.
  destruct (lstrip s) as [| c r] eqn:E; [apply lstrip_nil, E |].
  exfalso. pose proof (ResolverMore.lstrip_head s c r E) as Hc.
  assert (Hin : In c (rev (c :: r))) by (apply in_rev; rewrite rev_involutive; left; reflexivity).
  pose proof (proj1 (Forall_forall _ _) H' c Hin) as Hs.
  simpl in Hs. congruence.
Qed.

(** *** The texts one line is made of *)

Lemma contains_false_skipn (p s : str) (k : nat) :
  contains p s = false -> contains p (skipn k s) = false.
Proof.
  revert s. induction k as [| k IH]; intros s H; [exact H |].
  destruct s as [| c s]; [exact H |].
  apply contains_false_inv in H. apply IH, H.
Qed.

Lemma startswith_prefix (p x b : str) :
  startswith p x = true -> startswith p (x ++ b) = true.
Proof.
  revert x. induction p as [| a p IH]; intros x; [reflexivity |].
  destruct x as [| c x]; [discriminate |]. cbn [startswith app].
  intros H. apply andb_true_iff in H. destruct H as [Ha Hp].
  rewrite Ha. exact (IH x Hp).
Qed.

Lemma contains_false_prefix (p x b : str) :
  contains p (x ++ b) = false -> contains p x = false.
Proof.
  induction x as [| c x IH]; intros H.
  - destruct p as [| a p]; [destruct b; discriminate | reflexivity].
  - change ((c :: x) ++ b) with (c :: (x ++ b)) in H.
    apply contains_false_inv in H. destruct H as [Hs Hc].
    cbn [contains]. rewrite (IH Hc), orb_false_r.
    destruct (startswith p (c :: x)) eqn:E; [| reflexivity].
    rewrite <- Hs. symmetry.
    exact (startswith_prefix p (c :: x) b E).
Qed.

(** A line of a text is a part of the text. *)
Lemma split_nl_parts (s : str) :
  exists l ls,
    split_nl s = l :: ls /\ (exists b, s = l ++ b) /\
    forall x, In x ls -> exists a b, s = a ++ x ++ b.
Proof.
  induction s as [| c s (l & ls & Hs & (b & Hl) & Hls)].
  - exists [], []. split; [reflexivity |]. split; [exists []; reflexivity |].
    intros x [].
  - cbn [split_nl]. rewrite Hs. destruct (N.eqb_spec c NL) as [-> | Hne].
    + exists [], (l :: ls). split; [reflexivity |].
      split; [exists (NL :: s); reflexivity |].
      intros x [<- | Hx].
      * exists [NL], b. simpl. f_equal. exact Hl.
      * destruct (Hls x Hx) as (a & b' & Hab).
        exists (NL :: a), b'. simpl. f_equal. exact Hab.
    + exists (c :: l), ls. split; [reflexivity |].
      split; [exists b; simpl; f_equal; exact Hl |].
      intros x Hx. destruct (Hls x Hx) as (a & b' & Hab).
      exists (c :: a), b'. simpl. f_equal. exact Hab.
Qed.

Lemma contains_false_line (p s line : str) :
  contains p s = false -> In line (split_nl s) -> contains p line = false.
Proof.
  intros H Hin.
  destruct (split_nl_parts s) as (l & ls & Hs & (b & Hl) & Hls).
  rewrite Hs in Hin. destruct Hin as [<- | Hin].
  - rewrite Hl in H. exact (contains_false_prefix p l b H).
  - destruct (Hls line Hin) as (a & b' & Hab). rewrite Hab in H.
    apply (contains_false_skipn p _ (length a)) in H.
    rewrite skipn_app, skipn_all, Nat.sub_diag in H. simpl in H.
    exact (contains_false_prefix p line b' H).
Qed.

(** *** The first substitution adds line breaks only *)

(** [w] is [s] with line breaks added after line breaks. *)
Inductive widened : str -> str -> Prop :=
| widened_nil : widened [] []
| widened_keep (c : char) (s w : str) :
    widened s w -> widened (c :: s) (c :: w)
| widened_add (s w : str) :
    widened s w -> widened (NL :: s) (NL :: NL :: w).

Lemma widen_widened (s : str) : widened s (Re.sub Re.m_single_break s).
Proof.
  remember (length s) as n eqn:En. revert s En.
  induction n as [n IH] using lt_wf_ind. intros s En.
  destruct s as [| a s]; [constructor |].
  unfold Re.sub. cbn [Re.sub_from].
  destruct (Re.m_single_break (a :: s)) as [[rep k] |] eqn:Em.
  - unfold Re.m_single_break in Em.
    destruct s as [| b [| c r]]; try discriminate.
    destruct (negb (a =? NL)%N && (b =? NL)%N && negb (c =? NL)%N) eqn:Ec;
      [| discriminate].
    injection Em as <- <-.
    apply andb_true_iff in Ec. destruct Ec as [Ec _].
    apply andb_true_iff in Ec. destruct Ec as [_ Eb].
    apply N.eqb_eq in Eb. subst b.
    cbn [pred app]. rewrite sub_from_skip. cbn [skipn].
    apply widened_keep, widened_add, widened_keep.
    apply (IH (length r)); [simpl in En; lia | reflexivity].
  - apply widened_keep. apply (IH (length s)); [simpl in En; lia | reflexivity].
Qed.

Lemma widened_markers (s w : str) : widened s w -> markers w = markers s.
Proof.
  induction 1 as [| c s w _ IH | s w _ IH]; [reflexivity | |].
  - unfold markers in *. cbn [filter]. rewrite IH. reflexivity.
  - unfold markers in *. cbn [filter]. exact IH.
Qed.

(** Lines with empty lines put between them. *)
Inductive padded : list str -> list str -> Prop :=
| padded_nil : padded [] []
| padded_same (l : str) (ls ls' : list str) :
    padded ls ls' -> padded (l :: ls) (l :: ls')
| padded_blank (ls ls' : list str) :
    padded ls ls' -> padded ls ([] :: ls').

Lemma widened_lines (s w : str) :
  widened s w ->
  exists l ls ls',
    split_nl s = l :: ls /\ split_nl w = l :: ls' /\ padded ls ls'.
Proof.
  induction 1 as [| c s w _ (l & ls & ls' & Hs & Hw & Hp)
                  | s w _ (l & ls & ls' & Hs & Hw & Hp)].
  - exists [], [], []. repeat split; constructor.
  - cbn [split_nl]. rewrite Hs, Hw. destruct (c =? NL)%N.
    + exists [], (l :: ls), (l :: ls'). repeat split. constructor. exact Hp.
    + exists (c :: l), ls, ls'. repeat split. exact Hp.
  - cbn [split_nl]. rewrite N.eqb_refl, Hs, Hw.
    exists [], (l :: ls), ([] :: l :: ls'). repeat split.
    constructor. constructor. exact Hp.
Qed.

Lemma padded_forall (P : str -> Prop) (ls ls' : list str) :
  padded ls ls' -> P [] -> Forall P ls -> Forall P ls'.
Proof.
  intros Hp H0. induction Hp as [| l ls ls' _ IH | ls ls' _ IH]; intros H.
  - constructor.
  - apply Forall_cons_iff in H. destruct H as [Hl Hls].
    constructor; [exact Hl | exact (IH Hls)].
  - constructor; [exact H0 | exact (IH H)].
Qed.

Lemma widen_lines_forall (P : str -> Prop) (s : str) :
  P [] ->
  Forall P (split_nl s) ->
  Forall P (split_nl (Re.sub Re.m_single_break s)).
Proof.
  intros H0 H.
  destruct (widened_lines _ _ (widen_widened s))
    as (l & ls & ls' & Hs & Hw & Hp).
  rewrite Hs in H. rewrite Hw.
  apply Forall_cons_iff in H. destruct H as [Hl Hls].
  constructor; [exact Hl | exact (padded_forall P ls ls' Hp H0 Hls)].
Qed.

(** *** Joining the lines and the last substitution *)

Lemma markers_cons (c : char) (w : str) :
  markers (c :: w) = if is_mark c then c :: markers w else markers w.
Proof. reflexivity. Qed.

Lemma markers_lines (w : str) : flat_map markers (split_nl w) = markers w.
Proof.
  induction w as [| c w IH]; [reflexivity |].
  cbn [split_nl]. rewrite markers_cons, <- IH.
  destruct (N.eqb_spec c NL) as [-> | Hne]; [reflexivity |].
  destruct (split_nl w) as [| l ls]; cbn [flat_map];
    rewrite markers_cons; destruct (is_mark c); reflexivity.
Qed.

Lemma markers_join (ls : list str) :
  markers (join_nl ls) = flat_map markers ls.
Proof.
  induction ls as [| l ls IH]; [reflexivity |].
  destruct ls as [| l' ls].
  - simpl. symmetry. apply app_nil_r.
  - change (join_nl (l :: l' :: ls)) with (l ++ NL :: join_nl (l' :: ls)).
    change (flat_map markers (l :: l' :: ls))
      with (markers l ++ flat_map markers (l' :: ls)).
    rewrite markers_app, <- IH. reflexivity.
Qed.

Lemma collapse_markers (y : str) :
  markers (Re.sub Re.m_blank_run y) = markers y.
Proof.
  remember (length y) as n eqn:En. revert y En.
  induction n as [n IH] using lt_wf_ind. intros y En.
  destruct y as [| c y]; [rewrite collapse_nil; reflexivity |].
  destruct (N.eqb_spec c NL) as [-> | Hne].
  - rewrite collapse_break. cbv zeta.
    set (run := Re.takewhile (fun c => (c =? NL)%N) y).
    destruct (3 <=? S (length run)).
    + change (markers (NL :: NL :: ?x)) with (markers x).
      destruct (takewhile_split (fun c => (c =? NL)%N) y) as [Hy Hrun].
      fold run in Hy, Hrun.
      rewrite (IH (length (skipn (length run) y)));
        [| rewrite length_skipn; simpl in En; lia | reflexivity].
      change (markers (NL :: y)) with (markers y).
      rewrite Hy at 2. rewrite markers_app.
      rewrite (markers_without run); [reflexivity |].
      apply Forall_forall. intros x Hx. apply Hrun in Hx.
      apply N.eqb_eq in Hx. subst x. reflexivity.
    + change (markers (NL :: ?x)) with (markers x).
      apply (IH (length y)); [simpl in En; lia | reflexivity].
  - rewrite collapse_other by exact Hne.
    unfold markers. cbn [filter]. fold (markers y).
    fold (markers (Re.sub Re.m_blank_run y)).
    rewrite (IH (length y)); [reflexivity | simpl in En; lia | reflexivity].
Qed.

(** *** One line *)

(** A line whose markers a pass keeps: it holds no double asterisk and no
    double underscore, and is not a section title, a heading, or a list
    item whose marker is an asterisk. *)
Definition keeps (line : str) : Prop :=
  contains (lit "**") line = false /\
  contains (lit "__") line = false /\
  is_section_title line = false /\
  startswith (lit "# ") line = false /\
  startswith (lit "## ") line = false /\
  startswith (lit "### ") line = false /\
  forall r, lstrip line <> STAR :: SP :: r.

(** The markers of the lines emitted so far. *)
Definition emitted_markers (st : state) : str :=
  flat_map markers (formatted_lines st).

Lemma markers_append (l : str) (st : state) :
  emitted_markers (append l st) = emitted_markers st ++ markers l.
Proof.
  unfold emitted_markers, append. simpl.
  rewrite flat_map_app. simpl. rewrite app_nil_r. reflexivity.
Qed.

Lemma markers_pad_after (rest : list str) (st : state) :
  emitted_markers (pad_after rest st) = emitted_markers st.
Proof.
  unfold pad_after. destruct (next_nonblank rest); [| reflexivity].
  rewrite markers_append. apply app_nil_r.
Qed.

Lemma bullet_shape (line : str) :
  Re.bullet_match line = true ->
  exists mk rest,
    lstrip line = mk :: SP :: rest /\ Re.is_marker mk = true.
Proof.
  unfold Re.bullet_match.
  destruct (lstrip line) as [| mk [| sp rest]]; try discriminate.
  intros H. apply andb_true_iff in H. destruct H as [Hm Hs].
  apply N.eqb_eq in Hs. subst sp. eauto.
Qed.

Lemma numbered_shape (line rest : str) :
  Re.after_number line = Some rest ->
  exists ds w,
    lstrip line = ds ++ 46%N :: w :: rest /\
    (forall c, In c ds -> isdigit c = true) /\
    isspace w = true /\
    Re.number_group line = Some ds.
Proof.
  unfold Re.after_number, Re.number_group. cbv zeta.
  destruct (takewhile_split isdigit (lstrip line)) as [Hr Hds].
  set (ds := Re.takewhile isdigit (lstrip line)) in *.
  destruct (skipn (length ds) (lstrip line)) as [| dot [| w rest']] eqn:E;
    try discriminate.
  destruct ((1 <=? length ds) && (dot =? 46)%N && isspace w) eqn:Ec;
    [| discriminate].
  intros [= <-].
  apply andb_true_iff in Ec. destruct Ec as [Ec Hw].
  apply andb_true_iff in Ec. destruct Ec as [Hlen Hdot].
  apply N.eqb_eq in Hdot. subst dot.
  exists ds, w. split; [exact Hr |]. split; [exact Hds |].
  split; [exact Hw |]. rewrite Hlen. reflexivity.
Qed.

Lemma keeps_plain (line : str) :
  keeps line ->
  _process_inline_formatting (Re.sub Re.m_bold_colon line) = line.
Proof.
  intros (Hb & Hi & _).
  rewrite bold_colon_plain by exact Hb.
  apply inline_formatting_plain; assumption.
Qed.

Lemma plain_part (s : str) :
  contains (lit "**") s = false ->
  contains (lit "__") s = false ->
  _process_inline_formatting (Re.sub Re.m_bold_colon s) = s.
Proof.
  intros Hb Hi. rewrite bold_colon_plain by exact Hb.
  apply inline_formatting_plain; assumption.
Qed.

(** An iteration adds the markers of its line to those emitted. *)
Lemma step_markers (st st' : state) (line : str) (rest : list str) :
  keeps line ->
  step st line rest = Ok st' ->
  emitted_markers st' = emitted_markers st ++ markers line.
Proof.
  intros Hk. pose proof Hk as (Hb & Hi & Ht & H1 & H2 & H3 & Hstar).
  unfold step.
  destruct (truthy (strip line)) eqn:Etr; cbn [negb].
  2: { assert (Hm : markers line = []).
       { apply markers_spaces, strip_nil.
         destruct (strip line); [reflexivity | discriminate]. }
       rewrite Hm, app_nil_r.
       destruct (negb (prev_was_empty st)); intros [= <-]; [| reflexivity].
       change (emitted_markers (append [] st) = emitted_markers st).
       rewrite markers_append. apply app_nil_r. }
  rewrite Ht, H1, H2, H3.
  destruct (lstrip_split line) as (ws & Hline & Hws).
  destruct (Re.bullet_match line) eqn:Ebul.
  { destruct (bullet_shape line Ebul) as (mk & body & Hl & Hmk).
    assert (Hmm : Re.marker_match line = true).
    { unfold Re.marker_match. rewrite Hl, Hmk. reflexivity. }
    assert (Hsm : Re.strip_marker line = body).
    { unfold Re.strip_marker. rewrite Hl, Hmk. reflexivity. }
    rewrite Hmm, Hsm.
    assert (Hbody : _process_inline_formatting
                      (Re.sub Re.m_bold_colon body) = body).
    { assert (Hsk : body = skipn 2 (skipn (length ws) line)).
      { rewrite Hline at 1. rewrite skipn_app, skipn_all, Nat.sub_diag.
        simpl. rewrite Hl. reflexivity. }
      apply plain_part; rewrite Hsk;
        apply contains_false_skipn, contains_false_skipn; assumption. }
    rewrite Hbody. intros [= <-].
    change (emitted_markers
              (append
                 ((if list_indent (set_prev_was_empty false st)
                       <? length line - length (lstrip line)
                   then lit "   " ++ bullet
                   else if (length line - length (lstrip line)
                            <? list_indent (set_prev_was_empty false st))
                           && (0 <? length line - length (lstrip line))
                        then lit " " ++ bullet
                        else bullet) ++ lit " " ++ body)
                 (set_prev_was_empty false st))
            = emitted_markers st ++ markers line).
    rewrite markers_append. f_equal.
    rewrite Hline, Hl, !markers_app, (markers_spaces ws Hws).
    assert (Hmark : is_mark mk = false).
    { unfold Re.is_marker in Hmk.
      destruct (N.eqb_spec mk 42) as [-> | _];
        [exfalso; exact (Hstar body Hl) |].
      apply orb_true_iff in Hmk. cbn [orb] in Hmk.
      destruct Hmk as [Hmk | Hmk]; apply N.eqb_eq in Hmk; subst mk;
        reflexivity. }
    rewrite (markers_cons mk), Hmark.
    change (markers (SP :: body)) with (markers body).
    destruct (_ <? _); [reflexivity |].
    destruct (_ && _); reflexivity. }
  destruct (Re.numbered_match line) eqn:Enum.
  { unfold Re.numbered_match in Enum. unfold Re.strip_number.
    destruct (Re.after_number line) as [body |] eqn:Ea; [| discriminate].
    destruct (numbered_shape line body Ea) as (ds & w & Hl & Hds & Hw & Hg).
    rewrite Hg.
    assert (Hbody : _process_inline_formatting
                      (Re.sub Re.m_bold_colon body) = body).
    { assert (Hsk : body = skipn (length ds + 2) (skipn (length ws) line)).
      { rewrite Hline at 1. rewrite skipn_app, skipn_all, Nat.sub_diag.
        simpl. rewrite Hl.
        rewrite skipn_app, skipn_all2 by lia.
        replace (length ds + 2 - length ds) with 2 by lia. reflexivity. }
      apply plain_part; rewrite Hsk;
        apply contains_false_skipn, contains_false_skipn; assumption. }
    rewrite Hbody. intros [= <-].
    change (emitted_markers
              (append
                 (repeat SP (length line - length (lstrip line)) ++ ds
                  ++ lit ". " ++ body)
                 (set_prev_was_empty false st))
            = emitted_markers st ++ markers line).
    rewrite markers_append. f_equal.
    rewrite Hline, Hl, !markers_app, (markers_spaces ws Hws),
      (markers_digits ds Hds).
    rewrite (markers_spaces (repeat SP _)).
    2: { apply Forall_forall. intros x Hx. apply repeat_spec in Hx.
         subst x. reflexivity. }
    rewrite (markers_cons 46%N), (markers_cons w), (space_not_mark w Hw).
    reflexivity. }
  destruct (startswith (lit "```") line).
  { intros [= <-].
    change (emitted_markers (append line (set_prev_was_empty false st))
            = emitted_markers st ++ markers line).
    rewrite markers_append. reflexivity. }
  destruct (startswith (lit "`") line && endswith (lit "`") line
            && (2 <? length line)).
  { intros [= <-].
    change (emitted_markers (append line (set_prev_was_empty false st))
            = emitted_markers st ++ markers line).
    rewrite markers_append. reflexivity. }
  unfold other_line. rewrite (keeps_plain line Hk).
  destruct (in_list (set_prev_was_empty false st)
            && negb (Re.bullet_match line || Re.numbered_match line)).
  - destruct (truthy (strip line)).
    + destruct (last_line (set_in_list false (set_prev_was_empty false st)))
        as [l | e]; [| discriminate].
      cbn [bind]. destruct (negb (str_eqb l [])); intros [= <-].
      * rewrite !markers_append. rewrite app_nil_r. reflexivity.
      * rewrite markers_append. reflexivity.
    + cbn [bind]. intros [= <-]. rewrite markers_append. reflexivity.
  - cbn [bind]. intros [= <-]. rewrite markers_append. reflexivity.
Qed.

(** *** The whole text *)

Lemma loop_markers (lines : list str) (st st' : state) :
  Forall keeps lines ->
  loop st lines = Ok st' ->
  emitted_markers st' = emitted_markers st ++ flat_map markers lines.
Proof.
  revert st. induction lines as [| line rest IH]; intros st Hk.
  - simpl. intros [= <-]. symmetry. apply app_nil_r.
  - apply Forall_cons_iff in Hk. destruct Hk as [Hline Hrest].
    cbn [loop]. destruct (step st line rest) as [st1 | e] eqn:Es;
      [| discriminate].
    cbn [bind]. intros Hloop.
    rewrite (IH st1 Hrest Hloop), (step_markers st st1 line rest Hline Es).
    cbn [flat_map]. symmetry. apply app_assoc.
Qed.

Lemma keeps_empty : keeps [].
Proof. repeat split; try reflexivity. intros r H. discriminate. Qed.

(** The headings and the list items with an asterisk are left out for a
    reason: a pass changes their markers. *)
Lemma heading_and_star_item_change_markers :
  _format_markdown_for_slack (lit "# Title") = Ok (lit "*Title*") /\
  markers (lit "# Title") = [] /\
  _format_markdown_for_slack (lit "* item") = Ok (bullet ++ lit " item") /\
  markers (lit "* item") = lit "*" /\
  markers (bullet ++ lit " item") = [].
Proof. repeat split; vm_compute; reflexivity. Qed.

(** C8 (as amended): a text with no double asterisk and no double
    underscore is returned unchanged by [_process_inline_formatting]; and
    when none of its lines, however many it has, is a section title, a
    heading, or a list item whose marker is an asterisk, the transducer
    returns a text with the same asterisks and underscores in the same
    order: single markers are neither added nor removed, so a pass over a
    text already in the target form keeps its bold and italic markup. *)
Theorem single_markers_kept (s : str) :
  contains (lit "**") s = false ->
  contains (lit "__") s = false ->
  _process_inline_formatting s = s /\
  ((forall line,
       In line (split_nl s) ->
       is_section_title line = false /\
       startswith (lit "# ") line = false /\
       startswith (lit "## ") line = false /\
       startswith (lit "### ") line = false /\
       forall r, lstrip line <> STAR :: SP :: r) ->
   exists out,
     _format_markdown_for_slack s = Ok out /\ markers out = markers s).
Proof.
  intros Hb Hi. split; [apply inline_formatting_plain; assumption |].
  intros Hlines.
  assert (Hk : Forall keeps (split_nl (Re.sub Re.m_single_break s))).
  { apply widen_lines_forall; [exact keeps_empty |].
    apply Forall_forall. intros line Hin.
    destruct (Hlines line Hin) as (Ht & H1 & H2 & H3 & Hstar).
    repeat split; try assumption.
    - exact (contains_false_line _ s line Hb Hin).
    - exact (contains_false_line _ s line Hi Hin). }
  destruct (format_markdown_total s) as [out Hout].
  exists out. split; [exact Hout |].
  unfold _format_markdown_for_slack in Hout.
  destruct (loop initial (split_nl (Re.sub Re.m_single_break s)))
    as [st | e] eqn:El; [| discriminate].
  cbn [bind] in Hout. injection Hout as <-.
  rewrite collapse_markers, markers_join.
  pose proof (loop_markers _ _ _ Hk El) as Hm.
  unfold emitted_markers in Hm. rewrite Hm. cbn [initial formatted_lines flat_map app].
  rewrite markers_lines. apply widened_markers, widen_widened.
Qed.

Definition three_lines : str :=
  lit "This is *bold*" ++ NL :: lit "- item _it_" ++ NL :: lit "1. one".

Lemma single_markers_kept_witness :
  exists out,
    _format_markdown_for_slack three_lines = Ok out /\
    markers out = lit "**__".
Proof.
  apply (proj2 (single_markers_kept three_lines
                  ltac:(vm_compute; reflexivity)
                  ltac:(vm_compute; reflexivity))).
  intros line Hin. vm_compute in Hin.
  destruct Hin as [<- | [<- | [<- | []]]];
    repeat split; try (vm_compute; reflexivity);
    intros r H; vm_compute in H; discriminate H.
Defined.

End MarkersSpec.
